(** * Daily-log reconciliation service of eight-100 (pocketbase-services)

    A shallow embedding of the service layer that sits between the UI and the
    PocketBase record store: the date normaliser, the existence prober
    ([getDailyLogByTaskAndDate]), the batch reconciler
    ([ensureDailyLogsExist]), the idempotent creator
    ([createDailyLogIfNeeded]), the mutation applier ([updateDailyLog]) and
    the remaining thin CRUD wrappers.  Of the callers of the service the
    pure parts are embedded too: the lookup and the toggles of the daily tab
    and the body the task form submits.

    The PocketBase client ([pb]) and the JavaScript [Date] object are not
    part of the repository.  They are the methods of the class [Backend];
    every theorem of the service holds for any instance.  [StoreOps] is a
    reference in-memory instance (a store that enforces the unique index on
    (task, user, date), with scripted faults and UTC dates) used wherever a
    statement speaks about what the store holds afterwards. *)

From Stdlib Require Import Ascii String List ZArith Bool Lia.
From stdpp Require Import base option gmap strings list fin_maps pretty.
Import ListNotations.
Local Open Scope string_scope.
Local Open Scope list_scope.
Set Warnings "-register-all".

(** ** JavaScript values and strings *)

(** Values that cross the boundary untyped: thrown errors, error payloads
    and the [any]-typed request bodies.  An object keeps its keys in
    insertion order, as [Object.values] and [for..in] see them. *)
Inductive JsVal : Type :=
| JUndef
| JNull
| JBool (b : bool)
| JNum (n : Z)
| JStr (s : string)
| JObj (fields : list (string * JsVal)).

(** A request body ([const cleanData: any = {}], [logData], [Partial<Task>]). *)
Abbreviation Obj := (gmap string JsVal).

Definition dq : string := String "034"%char EmptyString.

(** [s.includes(pat)] *)
Fixpoint includes (pat s : string) : bool :=
  String.prefix pat s ||
  match s with
  | EmptyString => false
  | String _ s' => includes pat s'
  end.

(** [s.split(sep)[0]] for a one-character separator. *)
Fixpoint split_head (sep : ascii) (s : string) : string :=
  match s with
  | EmptyString => EmptyString
  | String c s' => if Ascii.eqb c sep then EmptyString else String c (split_head sep s')
  end.

Definition lower_ascii (c : ascii) : ascii :=
  let n := nat_of_ascii c in
  if (65 <=? n)%nat && (n <=? 90)%nat then ascii_of_nat (n + 32) else c.

(** [s.toLowerCase()], on the ASCII letters. *)
Fixpoint toLowerCase (s : string) : string :=
  match s with
  | EmptyString => EmptyString
  | String c s' => String (lower_ascii c) (toLowerCase s')
  end.

(** Truthiness, as [if (v)], [v || w] and [v && w] test it. *)
Definition truthy (v : JsVal) : bool :=
  match v with
  | JUndef | JNull => false
  | JBool b => b
  | JNum n => negb (n =? 0)%Z
  | JStr s => negb (String.eqb s EmptyString)
  | JObj _ => true
  end.

Definition js_or (a b : JsVal) : JsVal := if truthy a then a else b.

Fixpoint assoc (k : string) (l : list (string * JsVal)) : JsVal :=
  match l with
  | [] => JUndef
  | (k', v) :: l' => if String.eqb k k' then v else assoc k l'
  end.

(** [v?.k]: property read with optional chaining; a primitive has none of
    the properties read here. *)
Definition get (v : JsVal) (k : string) : JsVal :=
  match v with
  | JObj l => assoc k l
  | _ => JUndef
  end.

(** [v === JStr s] *)
Definition str_is (v : JsVal) (s : string) : bool :=
  match v with
  | JStr s' => String.eqb s' s
  | _ => false
  end.

(** [v === n] for a number *)
Definition num_is (v : JsVal) (n : Z) : bool :=
  match v with
  | JNum m => (m =? n)%Z
  | _ => false
  end.

(** [v?.includes(pat)] where [v] is a string or absent; [undefined] is falsy. *)
Definition opt_includes (v : JsVal) (pat : string) : bool :=
  match v with
  | JStr s => includes pat s
  | _ => false
  end.

(** [new Error(msg)] *)
Definition mkError (msg : string) : JsVal := JObj [("message", JStr msg)].

(** A value thrown with [new Error(...)], or raised by the engine. *)
Definition is_Error (e : JsVal) : Prop := exists msg, e = mkError msg.

(** ** Date normaliser (lines 232-238) *)


Definition normalizeDate (date : string) : string :=
  if includes "T" date then split_head "T"%char date else date.

(** The day-key format [YYYY-MM-DD]: ten characters, digits except for the
    two dashes. *)
Definition is_digit (c : ascii) : bool :=
  let n := nat_of_ascii c in (48 <=? n)%nat && (n <=? 57)%nat.

Definition is_dash (c : ascii) : bool := Ascii.eqb c "-"%char.

Definition is_day_key (s : string) : bool :=
  match list_ascii_of_string s with
  | [y1; y2; y3; y4; d1; m1; m2; d2; a1; a2] =>
      is_digit y1 && is_digit y2 && is_digit y3 && is_digit y4 && is_dash d1 &&
      is_digit m1 && is_digit m2 && is_dash d2 && is_digit a1 && is_digit a2
  | _ => false
  end.

(** A date-like input: a bare day key, or a day key followed by ['T'] and a
    time of day (an ISO-8601 timestamp). *)
Definition date_like (x : string) : bool :=
  is_day_key (String.substring 0 10 x) &&
  match String.get 10 x with
  | None => true
  | Some c => Ascii.eqb c "T"%char
  end.

(** The calendar reading of a day key, as one number [YYYYMMDD]. *)
Definition digit_val (c : ascii) : Z := Z.of_nat (nat_of_ascii c) - 48.

Definition key_val (acc : Z) (s : string) : Z :=
  fold_left (fun acc c => if is_digit c then 10 * acc + digit_val c else acc)%Z
            (list_ascii_of_string s) acc.

Definition day_number (s : string) : Z := key_val 0 s.

(** Two strings with digits at the same places and the same characters
    elsewhere. *)
Fixpoint aligned (a b : string) : Prop :=
  match a, b with
  | EmptyString, EmptyString => True
  | String c a', String d b' =>
      ((is_digit c = true /\ is_digit d = true) \/ (c = d /\ is_digit c = false)) /\
      aligned a' b'
  | _, _ => False
  end.

(** ** Data model (lines 3-49) *)

Inductive TaskType := daily | goal.
Inductive DailyMode := checklist | number.

Definition TaskType_str (t : TaskType) : string :=
  match t with daily => "daily" | goal => "goal" end.

Module Task.
Record t := mk {
  id : string; name : string; type : TaskType;
  daily_mode : option DailyMode; target : option Z; unit : option string;
  user : string; created : string; updated : string;
  description : option string; tag : option string }.
End Task.

Module DailyLog.
Record t := mk {
  id : string; task : string; date : string;
  value_bool : option bool; value_number : option Z; note : option string;
  user : string; created : string; updated : string }.
End DailyLog.

Module GoalProgress.
Record t := mk {
  id : string; task : string; value : Z; date : string;
  user : string; created : string; updated : string }.
End GoalProgress.

Inductive Collection := tasks | daily_logs | goal_progress.

Definition Collection_str (c : Collection) : string :=
  match c with
  | tasks => "tasks" | daily_logs => "daily_logs" | goal_progress => "goal_progress"
  end.

(** The record type a collection's responses are cast to ([as any]). *)
Definition RecordOf (c : Collection) : Type :=
  match c with
  | tasks => Task.t
  | daily_logs => DailyLog.t
  | goal_progress => GoalProgress.t
  end.

(** ** Query filters

    The service writes a filter as a conjunction of comparisons, joined by
    [" && "].  The embedding keeps the comparisons; [render_filter] is the
    string the source sends. *)
Inductive Clause :=
| FEq (field value : string)
| FGe (field value : string)
| FLt (field value : string).

Definition Filter := list Clause.

Definition render_clause (c : Clause) : string :=
  match c with
  | FEq f v => f +:+ " = " +:+ dq +:+ v +:+ dq
  | FGe f v => f +:+ " >= " +:+ dq +:+ v +:+ dq
  | FLt f v => f +:+ " < " +:+ dq +:+ v +:+ dq
  end.

Fixpoint render_filter (f : Filter) : string :=
  match f with
  | [] => EmptyString
  | [c] => render_clause c
  | c :: f' => render_clause c +:+ " && " +:+ render_filter f'
  end.

(** ** Tests on untyped values

    A caught value is [any]: the catch blocks read its properties and call
    methods of what they find.  Reading a property of [undefined] or [null]
    and calling what is no function make the engine raise TypeError, inside
    the catch block. *)
Inductive Misuse :=
| ReadOf (v : JsVal) (k : string)
| CallOf (callee : string).

(** What a test comes to: its answer, or the misuse the engine stops at. *)
Inductive Tested :=
| Answers (b : bool)
| Raises (why : Misuse).

(** [error.message && error.message.includes('autocancelled')]
    (lines 73, 170, 207 and 518): the message is read off the caught value;
    a falsy message ends the test; [includes] is called on any other
    message, and only a string has it. *)
Definition cancelled_and (error : JsVal) : Tested :=
  match error with
  | JUndef | JNull => Raises (ReadOf error "message")
  | _ =>
      let message := get error "message" in
      if truthy message then
        match message with
        | JStr s => Answers (includes "autocancelled" s)
        | _ => Raises (CallOf "error.message.includes")
        end
      else Answers false
  end.

(** [e.message?.includes('autocancelled')] on the caught value [e], which
    the source names [var] (lines 257, 282, 360 and 407): the optional call
    ends the test on a message that is [undefined] or [null] only. *)
Definition cancelled_opt (var : string) (e : JsVal) : Tested :=
  match e with
  | JUndef | JNull => Raises (ReadOf e "message")
  | _ =>
      match get e "message" with
      | JUndef | JNull => Answers false
      | JStr s => Answers (includes "autocancelled" s)
      | _ => Raises (CallOf (var +:+ ".message.includes"))
      end
  end.

(** ** The store client and the runtime *)

(** One observable step of a service call: a request to the store together
    with its outcome ([inl] a rejection, [inr] the result), a timer wait, or
    a console message. *)
Inductive Event :=
| EvGetList (c : Collection) (page perPage : nat) (filter : Filter)
            (sort : option string) (resp : JsVal + list (RecordOf c))
| EvCreate (c : Collection) (data : Obj) (resp : JsVal + RecordOf c)
| EvUpdate (c : Collection) (id : string) (data : Obj) (resp : JsVal + RecordOf c)
| EvDelete (c : Collection) (id : string) (resp : JsVal + ())
| EvSleep (ms : nat)
| EvWarn (msg : string) (detail : JsVal)
| EvError (msg : string) (detail : JsVal).

(** [pb] (src/lib/pocketbase.ts) and the JavaScript built-ins the service
    calls.  [World] is everything outside the client: the store and every
    other writer; each request may change it, and so may time passing in
    [timer].
    - [date_next_day s] is [new Date(s)], [setDate(getDate() + 1)],
      [toISOString().split('T')[0]]; [None] when [toISOString] raises
      RangeError on an invalid date;
    - [date_iso s] is [new Date(s).toISOString()], [None] likewise;
    - [String_of v] is the string a template literal makes of [v];
    - [JSON_stringify] is [JSON.stringify];
    - [TypeError_message why] is the message of the TypeError the engine
      raises for the misuse [why]; its wording is the engine's own. *)
Class Backend := {
  World : Type;
  auth_isValid : World -> bool;
  auth_model : World -> JsVal;
  pb_getList : forall c : Collection, nat -> nat -> Filter -> option string ->
               World -> (JsVal + list (RecordOf c)) * World;
  pb_create : forall c : Collection, Obj -> World -> (JsVal + RecordOf c) * World;
  pb_update : forall c : Collection, string -> Obj ->
              World -> (JsVal + RecordOf c) * World;
  pb_delete : Collection -> string -> World -> (JsVal + ()) * World;
  timer : nat -> World -> World;
  date_next_day : string -> option string;
  date_iso : string -> option string;
  String_of : JsVal -> string;
  JSON_stringify : JsVal -> string;
  TypeError_message : Misuse -> string
}.

Inductive Res (A : Type) :=
| Ok (a : A)
| Throw (e : JsVal).
Arguments Ok {A} a.
Arguments Throw {A} e.

Definition rangeError : JsVal := mkError "Invalid time value".

(** The TypeError the engine raises for a misuse. *)
Definition typeError `{B : Backend} (why : Misuse) : JsVal :=
  mkError (TypeError_message why).

Definition not_nullish (v : JsVal) : bool :=
  match v with
  | JUndef | JNull => false
  | _ => true
  end.

(** The caught value is a cancellation: its message is a string that holds
    'autocancelled'.  Both tests of the source, [cancelled_and] and
    [cancelled_opt], answer [true] on these values and on no other
    ([cancelled_and_true], [cancelled_opt_true]). *)
Definition is_cancelled (error : JsVal) : bool :=
  opt_includes (get error "message") "autocancelled".

Definition has_code (v : JsVal) (code : string) : bool :=
  str_is (get v "code") code.

Definition object_values (v : JsVal) : list JsVal :=
  match v with
  | JObj l => map snd l
  | _ => []
  end.

Definition is_object (v : JsVal) : bool :=
  match v with
  | JObj _ | JNull => true
  | _ => false
  end.

(** [error?.response?.data?.data || error?.data?.data || error?.data] *)
Definition errorData_of (error : JsVal) : JsVal :=
  js_or (get (get (get error "response") "data") "data")
        (js_or (get (get error "data") "data") (get error "data")).

(** [error?.response?.data?.message || error?.data?.message || error?.message] *)
Definition errorMessage_of (error : JsVal) : JsVal :=
  js_or (get (get (get error "response") "data") "message")
        (js_or (get (get error "data") "message") (get error "message")).

Definition field_not_unique (errorData : JsVal) : bool :=
  has_code (get errorData "date") "validation_not_unique" ||
  has_code (get errorData "task") "validation_not_unique" ||
  has_code (get errorData "user") "validation_not_unique".

(** [Object.values(errorData).some((v: any) => v?.code ===
    'validation_not_unique' || v?.message?.includes('unique'))] (lines
    319-321): the values are tried in order, up to the first that passes. *)
Fixpoint some_not_unique (values : list JsVal) : Tested :=
  match values with
  | [] => Answers false
  | v :: values' =>
      if has_code v "validation_not_unique" then Answers true
      else match get v "message" with
           | JUndef | JNull => some_not_unique values'
           | JStr s => if includes "unique" s then Answers true
                       else some_not_unique values'
           | _ => Raises (CallOf "v.message.includes")
           end
  end.

(** [errorMessage?.toLowerCase().includes('unique') ||
    errorMessage?.toLowerCase().includes('already exists')] (lines 323-324). *)
Definition message_not_unique (errorMessage : JsVal) : Tested :=
  match errorMessage with
  | JUndef | JNull => Answers false
  | JStr m => Answers (includes "unique" (toLowerCase m) ||
                       includes "already exists" (toLowerCase m))
  | _ => Raises (CallOf "errorMessage.toLowerCase")
  end.

(** [hasUniqueError] of [ensureDailyLogsExist] (lines 314-324), evaluated
    from left to right: the payload first, the message only when the payload
    shows nothing. *)
Definition hasUniqueError_batch (error : JsVal) : Tested :=
  let errorData := errorData_of error in
  let errorMessage := errorMessage_of error in
  if truthy errorData then
    if field_not_unique errorData then Answers true
    else if is_object errorData then
      match some_not_unique (object_values errorData) with
      | Answers true => Answers true
      | Answers false => message_not_unique errorMessage
      | Raises why => Raises why
      end
    else message_not_unique errorMessage
  else message_not_unique errorMessage.

(** The test of line 328 answers [true]: the failure is taken for a
    duplicate and skipped. *)
Definition skipped_as_duplicate (error : JsVal) : bool :=
  match hasUniqueError_batch error with
  | Answers hasUniqueError =>
      hasUniqueError || (num_is (get error "status") 400 && truthy (errorData_of error))
  | Raises _ => false
  end.

(** What the catch block of lines 308-341 does with a failure: it skips it
    without a word (line 332), reports it on the console (line 336), or
    raises TypeError itself, on a message it cannot test or on the read of
    [error.message] in line 337. *)
Inductive Verdict :=
| Skipped
| Warned
| Raised (why : Misuse).

Definition verdict (error : JsVal) : Verdict :=
  match hasUniqueError_batch error with
  | Raises why => Raised why
  | Answers hasUniqueError =>
      if hasUniqueError ||
         (num_is (get error "status") 400 && truthy (errorData_of error))
      then Skipped
      else match error with
           | JUndef | JNull => Raised (ReadOf error "message")
           | _ => Warned
           end
  end.

(** A string, or nothing. *)
Definition textual (v : JsVal) : bool :=
  match v with
  | JUndef | JNull | JStr _ => true
  | _ => false
  end.

(** A failure as the store's client reports it, as far as the catch block
    of lines 308-341 looks into it: a value with properties, whose message
    and whose payload entries' messages are strings where they are there. *)
Definition plain_failure (error : JsVal) : bool :=
  not_nullish error && textual (errorMessage_of error) &&
  forallb (fun v => textual (get v "message")) (object_values (errorData_of error)).

(** [hasUniqueError] of [createDailyLogIfNeeded] (lines 389-393) and the
    test of line 395. *)
Definition hasUniqueError_single (error : JsVal) : bool :=
  truthy (errorData_of error) && field_not_unique (errorData_of error).

Definition taken_as_duplicate (error : JsVal) : bool :=
  hasUniqueError_single error ||
  (num_is (get error "status") 400 && truthy (errorData_of error)).

(** [{ task, date, user, value_bool: false }] *)
Definition logData (taskId isoDateString userId : string) : Obj :=
  <["task" := JStr taskId]>
  (<["date" := JStr isoDateString]>
  (<["user" := JStr userId]>
  (<["value_bool" := JBool false]> ∅))).

Definition prop (data : Obj) (k : string) : JsVal := default JUndef (data !! k).

(** [cleanData] of [updateDailyLog] (lines 464-475). *)
Definition cleanData (data : Obj) : Obj :=
  let c0 : Obj := ∅ in
  let c1 := if not_nullish (prop data "value_bool")
            then <["value_bool" := prop data "value_bool"]> c0 else c0 in
  let c2 := if not_nullish (prop data "value_number")
            then <["value_number" := prop data "value_number"]> c1 else c1 in
  if not_nullish (prop data "note") && negb (str_is (prop data "note") EmptyString)
  then <["note" := prop data "note"]> c2 else c2.

(** ** The service (src/lib/pocketbase-services) *)

Section Service.
Context `{B : Backend}.

(** A call threads the world and appends to the trace of what it did. *)
Record St := mkSt { world : World; trace : list Event }.

Definition M (A : Type) : Type := St -> Res A * St.

Definition ret {A} (a : A) : M A := fun st => (Ok a, st).
Definition throw {A} (e : JsVal) : M A := fun st => (Throw e, st).

Definition bind {A C} (m : M A) (k : A -> M C) : M C :=
  fun st =>
    match m st with
    | (Ok a, st') => k a st'
    | (Throw e, st') => (Throw e, st')
    end.

(** [try { m } catch (e) { ... }] with the outcome handed to the
    continuation: [inl e] in the catch block, [inr a] after the try. *)
Definition catching {A} (m : M A) : M (JsVal + A) :=
  fun st =>
    match m st with
    | (Ok a, st') => (Ok (inr a), st')
    | (Throw e, st') => (Ok (inl e), st')
    end.

Definition emit (ev : Event) (w : World) (st : St) : St :=
  mkSt w (trace st ++ [ev]).

Definition of_resp {A} (r : JsVal + A) : Res A :=
  match r with
  | inl e => Throw e
  | inr a => Ok a
  end.

Definition getList (c : Collection) (page perPage : nat) (f : Filter)
           (sort : option string) : M (list (RecordOf c)) :=
  fun st =>
    let '(r, w) := pb_getList c page perPage f sort (world st) in
    (of_resp r, emit (EvGetList c page perPage f sort r) w st).

Definition create (c : Collection) (data : Obj) : M (RecordOf c) :=
  fun st =>
    let '(r, w) := pb_create c data (world st) in
    (of_resp r, emit (EvCreate c data r) w st).

Definition update (c : Collection) (id : string) (data : Obj) : M (RecordOf c) :=
  fun st =>
    let '(r, w) := pb_update c id data (world st) in
    (of_resp r, emit (EvUpdate c id data r) w st).

Definition delete (c : Collection) (id : string) : M () :=
  fun st =>
    let '(r, w) := pb_delete c id (world st) in
    (of_resp r, emit (EvDelete c id r) w st).

(** [await new Promise(resolve => setTimeout(resolve, ms))] *)
Definition sleep (ms : nat) : M () :=
  fun st => (Ok (), emit (EvSleep ms) (timer ms (world st)) st).

Definition console_warn (msg : string) (detail : JsVal) : M () :=
  fun st => (Ok (), emit (EvWarn msg detail) (world st) st).

Definition console_error (msg : string) (detail : JsVal) : M () :=
  fun st => (Ok (), emit (EvError msg detail) (world st) st).

Notation "x <- m ;; k" := (bind m (fun x => k))
  (at level 100, m at next level, right associativity).
Notation "m ;;; k" := (bind m (fun _ => k))
  (at level 100, right associativity).

(** [${v}] in a template literal. *)
Definition template (v : JsVal) : string :=
  match v with
  | JStr s => s
  | _ => String_of v
  end.

Definition authError : JsVal :=
  mkError "User is not authenticated. Please sign in.".

Definition accessDenied : JsVal :=
  mkError "Access denied. Please check your PocketBase collection rules.".

(** Lines 8-12. *)
Definition ensureAuthenticated : M () :=
  fun st =>
    if negb (auth_isValid (world st)) || negb (truthy (auth_model (world st)))
    then (Throw authError, st)
    else (Ok (), st).

(** Lines 52-95. *)
Definition getTasks (userId : string) (type : option TaskType) : M (list Task.t) :=
  ensureAuthenticated ;;;
  let filter := FEq "user" userId ::
                match type with
                | Some ty => [FEq "type" (TaskType_str ty)]
                | None => []
                end in
  r <- catching (getList tasks 1 500 filter (Some "-created")) ;;
  match r with
  | inr items => ret items
  | inl error =>
      match cancelled_and error with
      | Raises why => throw (typeError why)
      | Answers true => ret []
      | Answers false =>
        console_error "PocketBase error details:"
          (JObj [("status", get error "status"); ("message", get error "message");
                 ("response", get error "response"); ("data", get error "data")]) ;;;
        let errorMsg := js_or (get (get error "data") "message")
                              (js_or (get error "message") error) in
        if num_is (get error "status") 400 then
          throw (mkError ("Invalid filter syntax. Error: " +:+ template errorMsg +:+
                          ". Filter used: " +:+ render_filter filter +:+
                          ". Please check that the 'user' and 'type' fields exist in the tasks collection."))
        else if num_is (get error "status") 403 then
          throw (mkError ("Access denied. Please check your PocketBase collection rules. The " +:+ dq +:+ "tasks" +:+ dq +:+ " collection should allow authenticated users to read their own records."))
        else throw (mkError ("Failed to fetch tasks: " +:+ template errorMsg))
      end
  end.

(** What the catch block shared by the plain wrappers throws: a 403 becomes
    "Access denied", anything else is rethrown as it is; [error.status]
    cannot be read off [undefined] or [null]. *)
Definition rethrown (error : JsVal) : JsVal :=
  match error with
  | JUndef | JNull => typeError (ReadOf error "status")
  | _ => if num_is (get error "status") 403 then accessDenied else error
  end.

Definition rethrow_403 {A} (r : JsVal + A) : M A :=
  match r with
  | inr a => ret a
  | inl error => throw (rethrown error)
  end.

(** Lines 97-108. *)
Definition createTask (data : Obj) : M Task.t :=
  ensureAuthenticated ;;;
  r <- catching (create tasks data) ;; rethrow_403 r.

(** Lines 110-121. *)
Definition updateTask (id : string) (data : Obj) : M Task.t :=
  ensureAuthenticated ;;;
  r <- catching (update tasks id data) ;; rethrow_403 r.

(** Lines 123-134. *)
Definition deleteTask (id : string) : M bool :=
  ensureAuthenticated ;;;
  r <- catching (delete tasks id) ;;
  rethrow_403 r ;;; ret true.

(** [if (s)] on an optional string argument. *)
Definition given (s : option string) : bool :=
  match s with
  | Some v => negb (String.eqb v EmptyString)
  | None => false
  end.

Definition same_day (normalizedDate : string) (item : DailyLog.t) : bool :=
  String.eqb (normalizeDate (DailyLog.date item)) normalizedDate.

(** The messages of the catch blocks of the two log queries. *)
Definition fetch_failure (what : string) (error : JsVal) : JsVal :=
  let shown := template (js_or (get error "message") error) in
  if num_is (get error "status") 400 then
    mkError ("Invalid filter syntax: " +:+ shown +:+
             ". Please check that the fields exist in the daily_logs collection.")
  else if num_is (get error "status") 403 then accessDenied
  else mkError (what +:+ shown).

(** Lines 137-181. *)
Definition getDailyLogs (userId : string) (taskId date : option string)
  : M (list DailyLog.t) :=
  ensureAuthenticated ;;;
  let byTask := match taskId with
                | Some t => if given taskId then [FEq "task" t] else []
                | None => []
                end in
  byDate <- match date with
            | Some d =>
                if given date then
                  let normalizedDate := normalizeDate d in
                  match date_next_day normalizedDate with
                  | Some nextDateStr =>
                      ret [FGe "date" normalizedDate; FLt "date" nextDateStr]
                  | None => throw rangeError
                  end
                else ret []
            | None => ret []
            end ;;
  let filter := FEq "user" userId :: byTask ++ byDate in
  r <- catching (getList daily_logs 1 500 filter (Some "-date")) ;;
  match r with
  | inr items =>
      match date with
      | Some d => if given date
                  then ret (List.filter (same_day (normalizeDate d)) items)
                  else ret items
      | None => ret items
      end
  | inl error =>
      match cancelled_and error with
      | Raises why => throw (typeError why)
      | Answers true => ret []
      | Answers false => throw (fetch_failure "Failed to fetch daily logs: " error)
      end
  end.

(** The loop of lines 194-227; [n] iterations are left and [attempt] is
    the loop variable. *)
Fixpoint getDailyLogByTaskAndDate_loop (n attempt : nat) (filter : Filter)
         (normalizedDate : string) : M (option DailyLog.t) :=
  match n with
  | O => ret None
  | S n' =>
      r <- catching (getList daily_logs 1 10 filter None) ;;
      match r with
      | inr items => ret (List.find (same_day normalizedDate) items)
      | inl error =>
          match cancelled_and error with
          | Raises why => throw (typeError why)
          | Answers true =>
              if (attempt <? 2)%nat then
                sleep (200 * (attempt + 1)) ;;;
                getDailyLogByTaskAndDate_loop n' (S attempt) filter normalizedDate
              else ret None
          | Answers false => throw (fetch_failure "Failed to fetch daily log: " error)
          end
      end
  end.

(** Lines 183-230. *)
Definition getDailyLogByTaskAndDate (userId taskId date : string)
  : M (option DailyLog.t) :=
  ensureAuthenticated ;;;
  let normalizedDate := normalizeDate date in
  match date_next_day normalizedDate with
  | None => throw rangeError
  | Some nextDateStr =>
      let filter := [FEq "user" userId; FEq "task" taskId;
                     FGe "date" normalizedDate; FLt "date" nextDateStr] in
      getDailyLogByTaskAndDate_loop 3 0 filter normalizedDate
  end.

(** The double-check of lines 276-288: [n] iterations are left. *)
Fixpoint double_check (n attempt : nat) (userId taskId normalizedDate : string)
  : M (option DailyLog.t) :=
  match n with
  | O => ret None
  | S n' =>
      r <- catching (getDailyLogByTaskAndDate userId taskId normalizedDate) ;;
      match r with
      | inr (Some existing) => ret (Some existing)
      | inr None => double_check n' (S attempt) userId taskId normalizedDate
      | inl checkError =>
          match cancelled_opt "checkError" checkError with
          | Raises why => throw (typeError why)
          | Answers cancelled =>
              if cancelled && (attempt <? 1)%nat then
                sleep 300 ;;;
                double_check n' (S attempt) userId taskId normalizedDate
              else ret None
          end
      end
  end.

(** [new Date(normalizedDate + 'T00:00:00.000Z').toISOString()] *)
Definition isoDateString (normalizedDate : string) : M string :=
  match date_iso (normalizedDate +:+ "T00:00:00.000Z") with
  | Some iso => ret iso
  | None => throw rangeError
  end.

(** The body of the loop of lines 273-342 for one task. *)
Definition reconcile_task (userId normalizedDate : string) (task : Task.t) : M () :=
  r <- catching
         (existing <- double_check 2 0 userId (Task.id task) normalizedDate ;;
          match existing with
          | Some _ => ret ()
          | None =>
              iso <- isoDateString normalizedDate ;;
              create daily_logs (logData (Task.id task) iso userId) ;;; ret ()
          end) ;;
  match r with
  | inr _ => ret ()
  | inl error =>
      match hasUniqueError_batch error with
      | Raises why => throw (typeError why)
      | Answers hasUniqueError =>
          if hasUniqueError ||
             (num_is (get error "status") 400 && truthy (errorData_of error))
          then ret ()
          else
            match error with
            | JUndef | JNull => throw (typeError (ReadOf error "message"))
            | _ =>
                console_warn
                  ("[ensureDailyLogsExist] Unexpected error creating log for task " +:+
                   Task.id task +:+ ":")
                  (JObj [("error", js_or (errorMessage_of error)
                                         (js_or (get error "message") error));
                         ("errorData", errorData_of error);
                         ("status", get error "status")])
            end
      end
  end.

Fixpoint reconcile_tasks (userId normalizedDate : string) (l : list Task.t) : M () :=
  match l with
  | [] => ret ()
  | task :: l' =>
      reconcile_task userId normalizedDate task ;;;
      reconcile_tasks userId normalizedDate l'
  end.

(** [existingTaskIds] (lines 263-267). *)
Definition existingTaskIds (normalizedDate : string) (existingLogs : list DailyLog.t)
  : gset string :=
  list_to_set (map DailyLog.task (List.filter (same_day normalizedDate) existingLogs)).

(** [tasksNeedingLogs] (line 270). *)
Definition tasksNeedingLogs (ids : gset string) (l : list Task.t) : list Task.t :=
  List.filter (fun task => negb (bool_decide (Task.id task ∈ ids))) l.

(** Lines 241-343. *)
Definition ensureDailyLogsExist (userId : string) (l : list Task.t) (date : string)
  : M () :=
  ensureAuthenticated ;;;
  match l with
  | [] => ret ()
  | _ =>
      let normalizedDate := normalizeDate date in
      r <- catching (getDailyLogs userId None (Some normalizedDate)) ;;
      existingLogs <- match r with
                      | inr logs => ret logs
                      | inl error =>
                          match cancelled_opt "error" error with
                          | Raises why => throw (typeError why)
                          | Answers cancelled =>
                              (if negb cancelled then
                                 console_warn
                                   "Failed to fetch existing logs, will attempt individual checks:"
                                   (js_or (get error "message") error)
                               else ret ()) ;;; ret []
                          end
                      end ;;
      reconcile_tasks userId normalizedDate
        (tasksNeedingLogs (existingTaskIds normalizedDate existingLogs) l)
  end.

(** The first probing loop of [createDailyLogIfNeeded] (lines 355-366). *)
Fixpoint probe_existing (n attempt : nat) (userId taskId normalizedDate : string)
  : M (option DailyLog.t) :=
  match n with
  | O => ret None
  | S n' =>
      r <- catching (getDailyLogByTaskAndDate userId taskId normalizedDate) ;;
      match r with
      | inr (Some existing) => ret (Some existing)
      | inr None => probe_existing n' (S attempt) userId taskId normalizedDate
      | inl checkError =>
          match cancelled_opt "checkError" checkError with
          | Raises why => throw (typeError why)
          | Answers cancelled =>
              (if cancelled && (attempt <? 2)%nat
               then sleep (200 * (attempt + 1)) else ret ()) ;;;
              probe_existing n' (S attempt) userId taskId normalizedDate
          end
      end
  end.

(** The re-probing loop after a duplicate (lines 400-412). *)
Fixpoint refetch (n attempt : nat) (userId taskId normalizedDate : string)
  : M (option DailyLog.t) :=
  match n with
  | O => ret None
  | S n' =>
      r <- catching (getDailyLogByTaskAndDate userId taskId normalizedDate) ;;
      match r with
      | inr (Some record) => ret (Some record)
      | inr None => refetch n' (S attempt) userId taskId normalizedDate
      | inl fetchError =>
          match cancelled_opt "fetchError" fetchError with
          | Raises why => throw (typeError why)
          | Answers cancelled =>
              (if cancelled && (attempt <? 2)%nat
               then sleep 300 else ret ()) ;;;
              refetch n' (S attempt) userId taskId normalizedDate
          end
      end
  end.

Definition same_task_day (taskId normalizedDate : string) (log : DailyLog.t) : bool :=
  String.eqb (DailyLog.task log) taskId && same_day normalizedDate log.

(** What the catch block does once the failure is taken for a duplicate
    (lines 396-433). *)
Definition recover_existing (userId taskId normalizedDate : string)
  : M (option DailyLog.t) :=
  sleep 300 ;;;
  found <- refetch 3 0 userId taskId normalizedDate ;;
  match found with
  | Some record => ret (Some record)
  | None =>
      r <- catching (getDailyLogs userId None None) ;;
      match r with
      | inr allLogs => ret (List.find (same_task_day taskId normalizedDate) allLogs)
      | inl _ =>
          console_warn
            "Record exists but could not be retrieved. Caller should reload data."
            JUndef ;;; ret None
      end
  end.

Definition field_errors (errorData : JsVal) : list string :=
  match errorData with
  | JObj l =>
      flat_map (fun kv => if truthy (snd kv) && is_object (snd kv)
                          then [fst kv +:+ ": " +:+ JSON_stringify (snd kv)]
                          else []) l
  | _ => []
  end.

Fixpoint join (sep : string) (l : list string) : string :=
  match l with
  | [] => EmptyString
  | [x] => x
  | x :: l' => x +:+ sep +:+ join sep l'
  end.

(** The message of lines 437-454. *)
Definition create_failure (errorData : JsVal) : string :=
  if truthy errorData then
    if truthy (get errorData "message") then template (get errorData "message")
    else match errorData with
         | JStr s => s
         | _ => match field_errors errorData with
                | [] => "Failed to create record."
                | l => join ", " l
                end
         end
  else "Failed to create record.".

(** Lines 347-458. *)
Definition createDailyLogIfNeeded (userId taskId date : string)
  : M (option DailyLog.t) :=
  ensureAuthenticated ;;;
  let normalizedDate := normalizeDate date in
  existing <- probe_existing 3 0 userId taskId normalizedDate ;;
  match existing with
  | Some log => ret (Some log)
  | None =>
      iso <- isoDateString normalizedDate ;;
      r <- catching (create daily_logs (logData taskId iso userId)) ;;
      match r with
      | inr record => ret (Some record)
      | inl error =>
          if taken_as_duplicate error
          then recover_existing userId taskId normalizedDate
          else throw (mkError (create_failure (errorData_of error)))
      end
  end.

(** Lines 461-489. *)
Definition updateDailyLog (logId : string) (data : Obj) : M DailyLog.t :=
  ensureAuthenticated ;;;
  r <- catching (update daily_logs logId (cleanData data)) ;;
  match r with
  | inr record => ret record
  | inl error =>
      match error with
      | JUndef | JNull => throw (typeError (ReadOf error "status"))
      | _ =>
          if num_is (get error "status") 400 then
            throw (mkError ("Failed to update: " +:+
                            template (js_or (get (get error "data") "message")
                                            (js_or (get error "message") error))))
          else if num_is (get error "status") 403 then throw accessDenied
          else throw (mkError ("Failed to update daily log: " +:+
                               template (js_or (get error "message") error)))
      end
  end.

(** Lines 491-502. *)
Definition deleteDailyLog (id : string) : M bool :=
  ensureAuthenticated ;;;
  r <- catching (delete daily_logs id) ;;
  rethrow_403 r ;;; ret true.

(** Lines 505-529. *)
Definition getGoalProgress (userId : string) (taskId : option string)
  : M (list GoalProgress.t) :=
  ensureAuthenticated ;;;
  let byTask := match taskId with
                | Some t => if given taskId then [FEq "task" t] else []
                | None => []
                end in
  let filter := FEq "user" userId :: byTask in
  r <- catching (getList goal_progress 1 500 filter (Some "-date")) ;;
  match r with
  | inr items => ret items
  | inl error =>
      match cancelled_and error with
      | Raises why => throw (typeError why)
      | Answers true => ret []
      | Answers false =>
          let shown := template (js_or (get error "message") error) in
          if num_is (get error "status") 400 then
            throw (mkError ("Invalid filter syntax: " +:+ shown +:+
                            ". Please check that the fields exist in the goal_progress collection."))
          else if num_is (get error "status") 403 then throw accessDenied
          else throw (mkError ("Failed to fetch goal progress: " +:+ shown))
      end
  end.

(** Lines 531-553. *)
Definition createOrUpdateGoalProgress (data : Obj) : M GoalProgress.t :=
  ensureAuthenticated ;;;
  let filter := [FEq "user" (template (prop data "user"));
                 FEq "task" (template (prop data "task"));
                 FEq "date" (template (prop data "date"))] in
  r <- catching
         (items <- getList goal_progress 1 1 filter None ;;
          match items with
          | first :: _ => update goal_progress (GoalProgress.id first) data
          | [] => create goal_progress data
          end) ;;
  rethrow_403 r.

End Service.

(** ** Observations on a trace *)

Definition is_create (ev : Event) : bool :=
  match ev with
  | EvCreate _ _ _ => true
  | _ => false
  end.

Definition is_query (ev : Event) : bool :=
  match ev with
  | EvGetList _ _ _ _ _ _ => true
  | _ => false
  end.

Definition is_request (ev : Event) : bool :=
  match ev with
  | EvGetList _ _ _ _ _ _ | EvCreate _ _ _ | EvUpdate _ _ _ _ | EvDelete _ _ _ => true
  | _ => false
  end.

(** A query on [daily_logs] that was answered with a log of the day
    [normalizedDate] which passes [extra]. *)
Definition answers_with (extra : DailyLog.t -> bool) (normalizedDate : string)
           (ev : Event) : Prop :=
  match ev with
  | EvGetList c _ _ _ _ resp =>
      match c return JsVal + list (RecordOf c) -> Prop with
      | daily_logs => fun resp =>
          match resp with
          | inr items => exists r, In r items /\ same_day normalizedDate r = true /\
                                   extra r = true
          | inl _ => False
          end
      | _ => fun _ => False
      end resp
  | _ => False
  end.

(** The query on [daily_logs] carries the clause [field = value]. *)
Definition asks (field value : string) (ev : Event) : Prop :=
  match ev with
  | EvGetList daily_logs _ _ f _ _ => In (FEq field value) f
  | _ => False
  end.


(** The store rejected a create on [daily_logs] with [error]. *)
Definition create_rejected (error : JsVal) (ev : Event) : Prop :=
  match ev with
  | EvCreate c _ resp =>
      match c return JsVal + RecordOf c -> Prop with
      | daily_logs => fun resp => resp = inl error
      | _ => fun _ => False
      end resp
  | _ => False
  end.

(** ** Reference store

    An in-memory store for [daily_logs] with the unique index on
    (task, user, date).  Each request first takes the head of [faults]: a
    scripted rejection is returned as it is and the request has no effect.
    The other collections are not held: requests on them are answered 404. *)
Record Store := mkStore {
  logs : list DailyLog.t;
  faults : list (option JsVal);
  signed_in : bool;
  serial : nat
}.

Definition log_field (r : DailyLog.t) (f : string) : string :=
  if String.eqb f "user" then DailyLog.user r
  else if String.eqb f "task" then DailyLog.task r
  else if String.eqb f "date" then DailyLog.date r
  else if String.eqb f "id" then DailyLog.id r
  else EmptyString.

(** Comparisons are on the stored text, byte by byte. *)
Definition clause_holds (r : DailyLog.t) (c : Clause) : bool :=
  match c with
  | FEq f v => String.eqb (log_field r f) v
  | FGe f v => String.leb v (log_field r f)
  | FLt f v => String.ltb (log_field r f) v
  end.

Definition matches (f : Filter) (r : DailyLog.t) : bool :=
  forallb (clause_holds r) f.

Fixpoint insert_desc (r : DailyLog.t) (l : list DailyLog.t) : list DailyLog.t :=
  match l with
  | [] => [r]
  | x :: l' => if String.ltb (DailyLog.date r) (DailyLog.date x)
               then x :: insert_desc r l' else r :: l
  end.

Definition sort_desc (l : list DailyLog.t) : list DailyLog.t :=
  fold_right insert_desc [] l.

Definition sorted (sort : option string) (l : list DailyLog.t) : list DailyLog.t :=
  match sort with
  | Some key => if String.eqb key "-date" then sort_desc l else l
  | None => l
  end.

Definition page_of {A} (page perPage : nat) (l : list A) : list A :=
  firstn perPage (skipn ((page - 1) * perPage) l).

Definition select (page perPage : nat) (f : Filter) (sort : option string)
           (l : list DailyLog.t) : list DailyLog.t :=
  page_of page perPage (sorted sort (List.filter (matches f) l)).

Definition not_found : JsVal :=
  JObj [("status", JNum 404);
        ("message", JStr "The requested resource wasn't found.");
        ("data", JObj [])].

(** The error PocketBase's client raises for a rejected request. *)
Definition client_error (status : Z) (message : string) (fields : list (string * JsVal))
  : JsVal :=
  let body := JObj [("code", JNum status); ("message", JStr message);
                    ("data", JObj fields)] in
  JObj [("status", JNum status); ("message", JStr message);
        ("response", body); ("data", body)].

(** What PocketBase answers to a create that breaks the unique index. *)
Definition not_unique : JsVal :=
  client_error 400 "Failed to create record."
    [("task", JObj [("code", JStr "validation_not_unique");
                    ("message", JStr "The value must be unique.")])].

Definition invalid_body : JsVal :=
  JObj [("status", JNum 400);
        ("message", JStr "Failed to create record.");
        ("data", JObj [("code", JNum 400);
                       ("message", JStr "Failed to create record.");
                       ("data", JObj [])])].

Definition same_key (task date user : string) (r : DailyLog.t) : bool :=
  String.eqb (DailyLog.task r) task && String.eqb (DailyLog.date r) date &&
  String.eqb (DailyLog.user r) user.

Definition as_bool (v : option JsVal) : option bool :=
  match v with Some (JBool b) => Some b | _ => None end.
Definition as_num (v : option JsVal) : option Z :=
  match v with Some (JNum n) => Some n | _ => None end.
Definition as_str (v : option JsVal) : option string :=
  match v with Some (JStr s) => Some s | _ => None end.

(** Take the next scripted outcome. *)
Definition next_fault (s : Store) : option JsVal * Store :=
  match faults s with
  | [] => (None, s)
  | o :: rest => (o, mkStore (logs s) rest (signed_in s) (serial s))
  end.

Definition ref_getList (c : Collection) (page perPage : nat) (f : Filter)
           (sort : option string) (s : Store) : (JsVal + list (RecordOf c)) * Store :=
  match next_fault s with
  | (Some e, s') => (inl e, s')
  | (None, s') =>
      match c return (JsVal + list (RecordOf c)) * Store with
      | daily_logs => (inr (select page perPage f sort (logs s')), s')
      | _ => (inl not_found, s')
      end
  end.

Definition new_log (s : Store) (data : Obj) : option DailyLog.t :=
  match as_str (data !! "task"), as_str (data !! "date"), as_str (data !! "user") with
  | Some task, Some date, Some user =>
      Some (DailyLog.mk ("log" +:+ pretty (serial s)) task date
              (as_bool (data !! "value_bool")) (as_num (data !! "value_number"))
              (as_str (data !! "note")) user EmptyString EmptyString)
  | _, _, _ => None
  end.

Definition ref_create (c : Collection) (data : Obj) (s : Store)
  : (JsVal + RecordOf c) * Store :=
  match next_fault s with
  | (Some e, s') => (inl e, s')
  | (None, s') =>
      match c return (JsVal + RecordOf c) * Store with
      | daily_logs =>
          match new_log s' data with
          | None => (inl invalid_body, s')
          | Some r =>
              if existsb (same_key (DailyLog.task r) (DailyLog.date r) (DailyLog.user r))
                         (logs s')
              then (inl not_unique, s')
              else (inr r, mkStore (logs s' ++ [r]) (faults s') (signed_in s')
                                   (S (serial s')))
          end
      | _ => (inl not_found, s')
      end
  end.

(** A field named in the body takes the body's value ([null] clears it); a
    field the body does not name keeps what is stored. *)
Definition patch {A} (as_a : option JsVal -> option A) (data : Obj) (k : string)
           (old : option A) : option A :=
  match data !! k with
  | None => old
  | Some v => as_a (Some v)
  end.

Definition patched (data : Obj) (r : DailyLog.t) : DailyLog.t :=
  DailyLog.mk (DailyLog.id r) (DailyLog.task r) (DailyLog.date r)
    (patch as_bool data "value_bool" (DailyLog.value_bool r))
    (patch as_num data "value_number" (DailyLog.value_number r))
    (patch as_str data "note" (DailyLog.note r))
    (DailyLog.user r) (DailyLog.created r) (DailyLog.updated r).

Definition has_id (id : string) (r : DailyLog.t) : bool := String.eqb (DailyLog.id r) id.

Definition ref_update (c : Collection) (id : string) (data : Obj) (s : Store)
  : (JsVal + RecordOf c) * Store :=
  match next_fault s with
  | (Some e, s') => (inl e, s')
  | (None, s') =>
      match c return (JsVal + RecordOf c) * Store with
      | daily_logs =>
          match List.find (has_id id) (logs s') with
          | None => (inl not_found, s')
          | Some r =>
              (inr (patched data r),
               mkStore (map (fun x => if has_id id x then patched data x else x) (logs s'))
                       (faults s') (signed_in s') (serial s'))
          end
      | _ => (inl not_found, s')
      end
  end.

Definition ref_delete (c : Collection) (id : string) (s : Store)
  : (JsVal + ()) * Store :=
  match next_fault s with
  | (Some e, s') => (inl e, s')
  | (None, s') =>
      match c with
      | daily_logs =>
          if existsb (has_id id) (logs s')
          then (inr (), mkStore (List.filter (fun x => negb (has_id id x)) (logs s'))
                                (faults s') (signed_in s') (serial s'))
          else (inl not_found, s')
      | _ => (inl not_found, s')
      end
  end.

(** ** Reference runtime: dates in UTC

    [Date] on canonical day keys, with the local time zone set to UTC; every
    other input is an invalid date here.  So is a day of the month beyond
    the month's length, as in SpiderMonkey; V8 reads "2024-02-30" as
    2024-03-01.  The same computation in another time zone is
    [local_next_day] below. *)
Definition digit (k : Z) : ascii := ascii_of_N (Z.to_N (48 + k)).

Definition num_of (l : list ascii) : Z :=
  fold_left (fun acc c => 10 * acc + digit_val c)%Z l 0%Z.

Definition parse_day (s : string) : option (Z * Z * Z) :=
  if is_day_key s then
    match list_ascii_of_string s with
    | [y1; y2; y3; y4; _; m1; m2; _; a1; a2] =>
        Some (num_of [y1; y2; y3; y4], num_of [m1; m2], num_of [a1; a2])
    | _ => None
    end
  else None.

Definition leap (y : Z) : bool :=
  ((y mod 4 =? 0) && (negb (y mod 100 =? 0) || (y mod 400 =? 0)))%Z.

Definition days_in_month (y m : Z) : Z :=
  if (m =? 2)%Z then (if leap y then 29 else 28)%Z
  else if ((m =? 4) || (m =? 6) || (m =? 9) || (m =? 11))%Z then 30%Z
  else 31%Z.

Definition valid_day (y m d : Z) : bool :=
  ((1 <=? m) && (m <=? 12) && (1 <=? d) && (d <=? days_in_month y m))%Z.

Definition next_day (y m d : Z) : Z * Z * Z :=
  if (d <? days_in_month y m)%Z then (y, m, d + 1)%Z
  else if (m <? 12)%Z then (y, m + 1, 1)%Z
  else (y + 1, 1, 1)%Z.

Definition pad2 (n : Z) : string :=
  String (digit (n / 10 mod 10)) (String (digit (n mod 10)) EmptyString).

Definition pad4 (n : Z) : string := pad2 (n / 100) +:+ pad2 n.

(** [toISOString] writes a year above 9999 with a sign and six digits. *)
Definition render_day (ymd : Z * Z * Z) : string :=
  let '(y, m, d) := ymd in
  (if (y <=? 9999)%Z then pad4 y else "+" +:+ pad2 (y / 10000) +:+ pad4 y)
  +:+ "-" +:+ pad2 m +:+ "-" +:+ pad2 d.

Definition utc_next_day (s : string) : option string :=
  match parse_day s with
  | Some (y, m, d) => if valid_day y m d then Some (render_day (next_day y m d)) else None
  | None => None
  end.

(** The runtime's local time.  [new Date(day)] is UTC midnight of the day;
    [getDate] and [setDate] read and write the day of the month in local
    time, and [toISOString] prints UTC (lines 147-149 and 188-190).  Of a
    time zone these lines see two offsets from UTC, in minutes: the one in
    effect at UTC midnight of the day, and the one in effect at the same
    wall-clock time on the next local day.  Adding a local day moves the
    instant by [1440 + offset_at_midnight - offset_next_day] minutes. *)
Record Zone := mkZone {
  offset_at_midnight : Z * Z * Z -> Z;
  offset_next_day : Z * Z * Z -> Z
}.

Fixpoint days_later (n : nat) (ymd : Z * Z * Z) : Z * Z * Z :=
  match n with
  | O => ymd
  | S n' => let '(y, m, d) := ymd in days_later n' (next_day y m d)
  end.

(** [new Date(s)], [setDate(getDate() + 1)], [toISOString().split('T')[0]]
    in the time zone [zone]. *)
Definition local_next_day (zone : Zone) (s : string) : option string :=
  match parse_day s with
  | Some (y, m, d) =>
      if valid_day y m d then
        let elapsed := (1440 + offset_at_midnight zone (y, m, d)
                        - offset_next_day zone (y, m, d))%Z in
        Some (render_day (days_later (Z.to_nat (elapsed / 1440)) (y, m, d)))
      else None
  | None => None
  end.

Definition utc : Zone := mkZone (fun _ => 0%Z) (fun _ => 0%Z).

(** America/Los_Angeles in 2024: UTC-8, and UTC-7 from 2024-03-10 10:00 UTC
    to 2024-11-03 09:00 UTC.  UTC midnight of a day is the afternoon of the
    day before, at 16:00 or 17:00 local time. *)
Definition ymd_number (ymd : Z * Z * Z) : Z :=
  let '(y, m, d) := ymd in (y * 10000 + m * 100 + d)%Z.

Definition los_angeles : Zone :=
  mkZone
    (fun day => if ((20240311 <=? ymd_number day) && (ymd_number day <=? 20241103))%Z
                then (-420)%Z else (-480)%Z)
    (fun day => if ((20240310 <=? ymd_number day) && (ymd_number day <=? 20241102))%Z
                then (-420)%Z else (-480)%Z).

Definition utc_iso (s : string) : option string :=
  let key := String.substring 0 10 s in
  match parse_day key with
  | Some (y, m, d) =>
      if valid_day y m d && String.eqb s (key +:+ "T00:00:00.000Z") then Some s else None
  | None => None
  end.

Definition ref_String (v : JsVal) : string :=
  match v with
  | JUndef => "undefined"
  | JNull => "null"
  | JBool b => if b then "true" else "false"
  | JNum n => pretty n
  | JStr s => s
  | JObj l => match assoc "message" l with
              | JStr m => "Error: " +:+ m
              | _ => "[object Object]"
              end
  end.

(** [JSON.stringify] without string escapes. *)
Fixpoint ref_JSON (v : JsVal) : string :=
  match v with
  | JUndef => "undefined"
  | JNull => "null"
  | JBool b => if b then "true" else "false"
  | JNum n => pretty n
  | JStr s => dq +:+ s +:+ dq
  | JObj l =>
      "{" +:+
      (fix members (l : list (string * JsVal)) : string :=
         match l with
         | [] => EmptyString
         | kv :: l' =>
             dq +:+ fst kv +:+ dq +:+ ":" +:+ ref_JSON (snd kv) +:+
             match l' with [] => EmptyString | _ => "," +:+ members l' end
         end) l +:+ "}"
  end.

(** The wording of V8. *)
Definition ref_TypeError (why : Misuse) : string :=
  match why with
  | ReadOf v k => "Cannot read properties of " +:+ ref_String v +:+
                  " (reading '" +:+ k +:+ "')"
  | CallOf callee => callee +:+ " is not a function"
  end.

Definition StoreOps : Backend := {|
  World := Store;
  auth_isValid := signed_in;
  auth_model := fun s => if signed_in s then JObj [("id", JStr "user")] else JNull;
  pb_getList := ref_getList;
  pb_create := ref_create;
  pb_update := ref_update;
  pb_delete := ref_delete;
  timer := fun _ s => s;
  date_next_day := utc_next_day;
  date_iso := utc_iso;
  String_of := ref_String;
  JSON_stringify := ref_JSON;
  TypeError_message := ref_TypeError
|}.

(** The reference store in a runtime whose local time zone is [zone]; a
    date written with ['Z'] is read the same in every zone. *)
Definition ZoneOps (zone : Zone) : Backend := {|
  World := Store;
  auth_isValid := signed_in;
  auth_model := fun s => if signed_in s then JObj [("id", JStr "user")] else JNull;
  pb_getList := ref_getList;
  pb_create := ref_create;
  pb_update := ref_update;
  pb_delete := ref_delete;
  timer := fun _ s => s;
  date_next_day := local_next_day zone;
  date_iso := utc_iso;
  String_of := ref_String;
  JSON_stringify := ref_JSON;
  TypeError_message := ref_TypeError
|}.

(** The day's query bounds are sound for [normalizedDate]: the stored form
    of the day lies inside the range the service asks for. *)
Definition day_ok `{B : Backend} (normalizedDate : string) : bool :=
  match date_next_day normalizedDate, date_iso (normalizedDate +:+ "T00:00:00.000Z") with
  | Some nextDateStr, Some iso =>
      String.eqb iso (normalizedDate +:+ "T00:00:00.000Z") &&
      String.leb normalizedDate iso && String.ltb iso nextDateStr
  | _, _ => false
  end.

Definition start (s : Store) : @St StoreOps := @mkSt StoreOps s [].

Definition task_of (id : string) : Task.t :=
  Task.mk id id daily (Some checklist) None None "u1" EmptyString EmptyString None None.

Definition fresh : Store := mkStore [] [] true 0.

Definition forbidden : JsVal :=
  JObj [("status", JNum 403);
        ("message", JStr "Only superusers can perform this action.");
        ("data", JObj [])].

Definition cancelled : JsVal :=
  JObj [("status", JNum 0);
        ("message", JStr "The request was autocancelled.");
        ("data", JObj [])].

(** ** Specifications over the trace *)

(** What the call throws, if it throws, is an [Error] object. *)
Definition thrown_Error {A} (r : Res A) : Prop :=
  match r with
  | Throw e => is_Error e
  | Ok _ => True
  end.

(** The outcome recorded in a request event is what the backend answered
    to that request in some world. *)
Definition genuine `{B : Backend} (ev : Event) : Prop :=
  match ev with
  | EvGetList c page perPage f sort resp =>
      exists w, fst (pb_getList c page perPage f sort w) = resp
  | EvCreate c data resp => exists w, fst (pb_create c data w) = resp
  | EvUpdate c id data resp => exists w, fst (pb_update c id data w) = resp
  | EvDelete c id resp => exists w, fst (pb_delete c id w) = resp
  | _ => True
  end.

(** [wp m Q]: from every state, [m] appends some events [evs] to the trace,
    all of them genuine, and [Q] holds of its outcome and [evs]. *)
Definition wp `{B : Backend} {A} (m : M A) (Q : Res A -> list Event -> Prop) : Prop :=
  forall st, exists evs,
    trace (snd (m st)) = trace st ++ evs /\ Forall genuine evs /\ Q (fst (m st)) evs.

(** The user is signed in: the test of [ensureAuthenticated] passes. *)
Definition authenticated `{B : Backend} (w : World) : bool :=
  auth_isValid w && truthy (auth_model w).

(** The log [x] is among the items of the answer. *)
Definition yields (x : DailyLog.t) (ev : Event) : Prop :=
  match ev with
  | EvGetList c _ _ _ _ resp =>
      match c return JsVal + list (RecordOf c) -> Prop with
      | daily_logs => fun resp =>
          match resp with
          | inr items => In x items
          | inl _ => False
          end
      | _ => fun _ => False
      end resp
  | _ => False
  end.

(** The answer satisfies the equality clauses of the query it answers. *)
Definition honours_filter (ev : Event) : Prop :=
  match ev with
  | EvGetList c _ _ f _ resp =>
      match c return JsVal + list (RecordOf c) -> Prop with
      | daily_logs => fun resp =>
          match resp with
          | inr items => forall r field v, In r items -> In (FEq field v) f ->
                                           log_field r field = v
          | inl _ => True
          end
      | _ => fun _ => True
      end resp
  | _ => True
  end.

Definition probe_filter (userId taskId normalizedDate nextDateStr : string) : Filter :=
  [FEq "user" userId; FEq "task" taskId;
   FGe "date" normalizedDate; FLt "date" nextDateStr].

Definition probe_query (f : Filter) (resp : JsVal + list DailyLog.t) : Event :=
  EvGetList daily_logs 1 10 f None resp.

(** The shape of a probe with retries: the queries in order, and before the
    query of attempt [k + 1] a wait of [200 * k] ms. *)
Fixpoint with_backoff (f : Filter) (attempt : nat) (rs : list (JsVal + list DailyLog.t))
  : list Event :=
  match rs with
  | [] => []
  | r :: rs' =>
      probe_query f r ::
      match rs' with
      | [] => []
      | _ => EvSleep (200 * attempt) :: with_backoff f (S attempt) rs'
      end
  end.

Definition cancelled_resp (r : JsVal + list DailyLog.t) : Prop :=
  match r with
  | inl e => is_cancelled e = true
  | inr _ => False
  end.

(** What the last answer of a probe decides: a result set is searched for
    the day; a cancellation, possible here only on the third attempt, gives
    "not found"; any other rejection is thrown, as is the TypeError of a
    rejection whose message cannot be tested. *)
Definition probe_outcome `{B : Backend} (normalizedDate : string)
           (rs : list (JsVal + list DailyLog.t)) (r : Res (option DailyLog.t)) : Prop :=
  match List.last rs (inr []) with
  | inr items => r = Ok (List.find (same_day normalizedDate) items)
  | inl e =>
      match cancelled_and e with
      | Answers true => length rs = 3 /\ r = Ok None
      | Answers false => r = Throw (fetch_failure "Failed to fetch daily log: " e)
      | Raises why => r = Throw (typeError why)
      end
  end.

Definition noisy_log : DailyLog.t :=
  DailyLog.mk "log0" "A" "2024-01-15 10:30:00.000Z" (Some true) None None "u1"
              EmptyString EmptyString.

Definition clean_log : DailyLog.t :=
  DailyLog.mk "log1" "A" "2024-01-15T00:00:00.000Z" (Some false) None None "u1"
              EmptyString EmptyString.

(** The log the reference store holds under an id. *)
Definition stored (s : Store) (id : string) : option DailyLog.t :=
  List.find (has_id id) (logs s).

(** The update request of [updateDailyLog]. *)
Definition update_request (logId : string) (body : Obj) (ev : Event) : Prop :=
  match ev with
  | EvUpdate daily_logs id data _ => id = logId /\ data = body
  | _ => False
  end.

Definition numbered_log : DailyLog.t :=
  DailyLog.mk "log7" "A" "2024-01-15T00:00:00.000Z" (Some false) (Some 12%Z)
              (Some "morning run") "u1" EmptyString EmptyString.

(** The events after the first create request. *)
Fixpoint after_create (evs : list Event) : list Event :=
  match evs with
  | [] => []
  | ev :: evs' => if is_create ev then evs' else after_create evs'
  end.

(** The query [ev] retrieved the log [x] of this user, task and day: [x] is
    an item of its answer, the query carries the user clause, and the task
    is fixed by the query's task clause or by [x] itself. *)
Definition found_by (userId taskId normalizedDate : string) (x : DailyLog.t)
           (ev : Event) : Prop :=
  yields x ev /\ asks "user" userId ev /\
  (asks "task" taskId ev \/ DailyLog.task x = taskId) /\
  same_day normalizedDate x = true.

(** A retrieval that succeeded: a query for the task answered with a log of
    the day, or any query answered with a log of the task and the day. *)
Definition retrieves (taskId normalizedDate : string) (ev : Event) : Prop :=
  (asks "task" taskId ev /\ answers_with (fun _ => true) normalizedDate ev) \/
  answers_with (fun r => String.eqb (DailyLog.task r) taskId) normalizedDate ev.

(** What one probe leaves on the trace. *)
Definition probe_post (userId taskId normalizedDate : string)
           (r : Res (option DailyLog.t)) (evs : list Event) : Prop :=
  Forall (fun ev => is_request ev = true -> is_query ev = true) evs /\
  length (List.filter is_query evs) <= 3 /\
  match r with
  | Ok (Some x) =>
      Exists (fun ev => found_by userId taskId normalizedDate x ev /\
                        asks "task" taskId ev) evs
  | _ => Forall (fun ev => ~ answers_with (fun _ => true) normalizedDate ev) evs
  end.








(** A rejection whose message is a number. *)
Definition numeric_message : JsVal :=
  JObj [("status", JNum 400); ("message", JNum 42);
        ("data", JObj [("foo", JNum 1)])].

(** A signed-in store without logs whose seventh request is refused: in a
    run over three tasks that is the create of the second. *)
Definition refusing_store : Store :=
  mkStore [] [None; None; None; None; None; None; Some forbidden] true 0.

(** The errors with which creates on [daily_logs] were rejected, in order. *)
Definition rejections (evs : list Event) : list JsVal :=
  flat_map (fun ev =>
              match ev with
              | EvCreate c _ resp =>
                  match c return JsVal + RecordOf c -> list JsVal with
                  | daily_logs => fun resp => match resp with
                                              | inl e => [e]
                                              | inr _ => []
                                              end
                  | _ => fun _ => []
                  end resp
              | _ => []
              end) evs.

(** The messages written with [console.warn], in order. *)
Definition warnings (evs : list Event) : list string :=
  flat_map (fun ev => match ev with EvWarn msg _ => [msg] | _ => [] end) evs.

(** What the recovery after a duplicate leaves on the trace: it waits
    300 ms, then only queries (at most ten: three probes of up to three
    queries, and the full fetch), never throws, and returns a log exactly
    when one of the queries retrieved one. *)
Definition recover_post (userId taskId normalizedDate : string)
           (r : Res (option DailyLog.t)) (post : list Event) : Prop :=
  (exists tl, post = EvSleep 300 :: tl) /\
  Forall (fun ev => is_request ev = true -> is_query ev = true) post /\
  length (List.filter is_query post) <= 10 /\
  exists o, r = Ok o /\
            match o with
            | Some x => Exists (found_by userId taskId normalizedDate x) post
            | None => Forall (fun ev => ~ retrieves taskId normalizedDate ev) post
            end.

(** What [createDailyLogIfNeeded] leaves on the trace: no create at all, or
    one create, after queries only, whose outcome decides the rest. *)
Definition create_post `{B : Backend} (userId taskId normalizedDate : string)
           (r : Res (option DailyLog.t)) (evs : list Event) : Prop :=
  Forall (fun ev => is_request ev = true -> is_query ev = true) evs \/
  exists pre iso resp post,
    evs = pre ++ EvCreate daily_logs (logData taskId iso userId) resp :: post /\
    Forall (fun ev => is_request ev = true -> is_query ev = true) pre /\
    match resp with
    | inr record => r = Ok (Some record) /\ post = []
    | inl error =>
        if taken_as_duplicate error
        then recover_post userId taskId normalizedDate r post
        else r = Throw (mkError (create_failure (errorData_of error))) /\ post = []
    end.

(** A store where the log of A for the day exists but the nine queries of
    the first probing loop are all cancelled. *)
Definition racing_store : Store :=
  mkStore [clean_log]
          [Some cancelled; Some cancelled; Some cancelled;
           Some cancelled; Some cancelled; Some cancelled;
           Some cancelled; Some cancelled; Some cancelled] true 2.

(** The filter of the snapshot query of [ensureDailyLogsExist]. *)
Definition snapshot_filter (userId normalizedDate nextDateStr : string) : Filter :=
  [FEq "user" userId; FGe "date" normalizedDate; FLt "date" nextDateStr].

(** The reference store holds a log that the probe for this task and day
    matches. *)
Definition covered (userId taskId normalizedDate nextDateStr : string) (s : Store)
  : Prop :=
  exists r, In r (logs s) /\
            matches (probe_filter userId taskId normalizedDate nextDateStr) r = true.

(** No timestamp noise beyond what the normaliser strips: every log of the
    user that the day's range matches has the day as its normalised date. *)
Definition noise_free (userId normalizedDate nextDateStr : string) (s : Store) : Prop :=
  forall r, In r (logs s) -> DailyLog.user r = userId ->
            String.leb normalizedDate (DailyLog.date r) = true ->
            String.ltb (DailyLog.date r) nextDateStr = true ->
            same_day normalizedDate r = true.

(** The log the reference store makes of [logData]. *)
Definition default_log (s : Store) (taskId iso userId : string) : DailyLog.t :=
  DailyLog.mk ("log" +:+ pretty (serial s)) taskId iso (Some false) None None userId
              EmptyString EmptyString.

Definition earlier_log : DailyLog.t :=
  DailyLog.mk "log0" "A" "2024-01-14T00:00:00.000Z" (Some true) None None "u1"
              EmptyString EmptyString.

(** A reliable store that already holds the log of A for the day and one of
    the day before. *)
Definition settled_store : Store := mkStore [earlier_log; clean_log] [] true 2.

(** The reference store with a script of rejections for its next requests. *)
Definition with_faults (fs : list (option JsVal)) (s : Store) : Store :=
  mkStore (logs s) fs (signed_in s) (serial s).

Definition nine_cancellations : list (option JsVal) :=
  [Some cancelled; Some cancelled; Some cancelled;
   Some cancelled; Some cancelled; Some cancelled;
   Some cancelled; Some cancelled; Some cancelled].

(** ** The logs of the reference store along a run *)

(** Every log of [s] is still a log of [s']. *)
Definition grows (s s' : Store) : Prop :=
  forall r, In r (logs s) -> In r (logs s').

(** From a state whose store satisfies [Pre], the run of [m] on the
    reference store loses no log, and a normal result [a] satisfies [P a]
    in the store the run leaves. *)
Definition keeps {A} (Pre : Store -> Prop) (m : @M StoreOps A)
           (P : A -> Store -> Prop) : Prop :=
  forall st : @St StoreOps,
    Pre (world st) ->
    grows (world st) (world (snd (m st))) /\
    forall a, fst (m st) = Ok a -> P a (world (snd (m st))).

Definition any_store (s : Store) : Prop := True.

Definition stored_opt (o : option DailyLog.t) (s : Store) : Prop :=
  forall x, o = Some x -> In x (logs s).

Definition stored_all (l : list DailyLog.t) (s : Store) : Prop :=
  forall x, In x l -> In x (logs s).

(** At most one log for a task, user and normalised day. *)
Definition one_per_day (s : Store) : Prop :=
  forall a b, In a (logs s) -> In b (logs s) ->
              DailyLog.task a = DailyLog.task b ->
              DailyLog.user a = DailyLog.user b ->
              normalizeDate (DailyLog.date a) = normalizeDate (DailyLog.date b) ->
              a = b.

(** ** The daily tab (DailyTasksTab) *)

(** [getLogForTask] (lines 62-71) over the logs the tab holds: the first log
    of the task whose day is the day of [date]. *)
Definition getLogForTask (logs : list DailyLog.t) (taskId date : string)
  : option DailyLog.t :=
  let normalizedTargetDate := normalizeDate date in
  List.find (fun log => String.eqb (DailyLog.task log) taskId &&
                        String.eqb (normalizeDate (DailyLog.date log)) normalizedTargetDate)
            logs.

(** The body of the toggles of the daily tab.  [checklistToggle] is the
    update of [handleChecklistToggle] (lines 140-147), [numberToggle] that of
    [handleNumberCheckboxToggle] (lines 216-236) for the number the input
    holds ([undefined], [''] or a number); [parseFloat] is the global
    function. *)
Definition checklistToggle (value_bool : option bool) : Obj :=
  let currentValue := default false value_bool in
  let newValue := negb currentValue in
  {[ "value_bool" := JBool newValue ]}.

Definition is_undefined (v : JsVal) : bool :=
  match v with
  | JUndef => true
  | _ => false
  end.

Definition numberToggle (parseFloat : JsVal -> JsVal) (value_bool : option bool)
           (numberValue : JsVal) : Obj :=
  let currentValue := default false value_bool in
  let newValue := negb currentValue in
  let updateData : Obj := {[ "value_bool" := JBool newValue ]} in
  if newValue && negb (is_undefined numberValue) && negb (str_is numberValue EmptyString)
  then <["value_number" := match numberValue with
                           | JNum _ => numberValue
                           | _ => parseFloat numberValue
                           end]> updateData
  else updateData.

(** ** The task form (src/app/tasks/page.tsx) *)

Definition DailyMode_str (m : DailyMode) : string :=
  match m with checklist => "checklist" | number => "number" end.

(** The body [TaskForm] submits (lines 194-220), from the fields of the
    form; [trim] is [String.prototype.trim] and [parseFloat] the global
    function. *)
Definition taskFormData (trim : string -> string) (parseFloat : string -> JsVal)
           (name description tag : string) (type : TaskType) (dailyMode : DailyMode)
           (target unit userId : string) : Obj :=
  let d0 : Obj := <["name" := JStr name]>
                  (<["type" := JStr (TaskType_str type)]>
                  (<["user" := JStr userId]> ∅)) in
  let d1 := if truthy (JStr (trim description))
            then <["description" := JStr (trim description)]> d0 else d0 in
  let d2 := if truthy (JStr (trim tag)) then <["tag" := JStr (trim tag)]> d1 else d1 in
  match type with
  | daily =>
      let d3 := <["daily_mode" := JStr (DailyMode_str dailyMode)]> d2 in
      match dailyMode with
      | number => if truthy (JStr unit) then <["unit" := JStr unit]> d3 else d3
      | checklist => d3
      end
  | goal =>
      let d3 := if truthy (JStr target) then <["target" := parseFloat target]> d2 else d2 in
      if truthy (JStr unit) then <["unit" := JStr unit]> d3 else d3
  end.

(** ** Further observations *)

(** The three fields [updateDailyLog] may send. *)
Definition mutable_field (k : string) : Prop :=
  k = "value_bool" \/ k = "value_number" \/ k = "note".

Definition is_update (ev : Event) : bool :=
  match ev with
  | EvUpdate _ _ _ _ => true
  | _ => false
  end.

Definition is_delete (ev : Event) : bool :=
  match ev with
  | EvDelete _ _ _ => true
  | _ => false
  end.

(** The requests among the events. *)
Definition requests (evs : list Event) : list Event := List.filter is_request evs.

(** An error whose message speaks of a record that already exists, with no
    payload and no status. *)
Definition already_exists : JsVal :=
  JObj [("message", JStr "Record already exists.")].

(** A budget for what a call adds to the trace: at most [q] queries and [c]
    creates, and every event allowed by [ok]. *)
Definition within (q c : nat) (ok : Event -> Prop) (evs : list Event) : Prop :=
  length (List.filter is_query evs) <= q /\
  length (List.filter is_create evs) <= c /\
  Forall ok evs.

Definition costs `{B : Backend} {A} (m : M A) (q c : nat) (ok : Event -> Prop) : Prop :=
  wp m (fun _ evs => within q c ok evs).

(** An event a reading call may leave: a query, a wait or a console line. *)
Definition reading (ev : Event) : Prop :=
  is_request ev = true -> is_query ev = true.

(** The events are those of a call that reads with at most [n] requests. *)
Definition reads_at_most (n : nat) (evs : list Event) : Prop :=
  Forall reading evs /\ length (requests evs) <= n.

(** A query that the store rejected with [error]. *)
Definition query_rejected (error : JsVal) (ev : Event) : Prop :=
  match ev with
  | EvGetList _ _ _ _ _ (inl e) => e = error
  | _ => False
  end.

(** What a list reader makes of a rejected query. *)
Definition reject_post {A} (r : Res (list A)) (evs : list Event) : Prop :=
  forall e, Exists (query_rejected e) evs ->
            if is_cancelled e then r = Ok [] else exists err, r = Throw err.

(** The outcome of a plain wrapper for the store's answer. *)
Definition passed_on `{B : Backend} {A} (resp : JsVal + A) : Res A :=
  match resp with
  | inr a => Ok a
  | inl e => Throw (rethrown e)
  end.

(** The outcome of a delete wrapper for the store's answer: [true], or the
    rejection passed on. *)
Definition deleted `{B : Backend} (resp : JsVal + ()) : Res bool :=
  match resp with
  | inr _ => Ok true
  | inl e => Throw (rethrown e)
  end.

(** The lookup of [createOrUpdateGoalProgress] (lines 537-538). *)
Definition progress_lookup `{B : Backend} (data : Obj)
           (resp : JsVal + list GoalProgress.t) : Event :=
  EvGetList goal_progress 1 1
            [FEq "user" (template (prop data "user"));
             FEq "task" (template (prop data "task"));
             FEq "date" (template (prop data "date"))] None resp.

(** A store with a log of the day under each of the two notations. *)
Definition mixed_store : Store := mkStore [noisy_log; clean_log] [] true 2.

(** The only write [createDailyLogIfNeeded] may send: the create of the
    default log of the task, the day and the user. *)
Definition default_create `{B : Backend} (userId taskId normalizedDate : string)
           (ev : Event) : Prop :=
  is_update ev = false /\ is_delete ev = false /\
  (is_create ev = true ->
   exists iso resp,
     date_iso (normalizedDate +:+ "T00:00:00.000Z") = Some iso /\
     ev = EvCreate daily_logs (logData taskId iso userId) resp).

(** The only writes [ensureDailyLogsExist] may send: creates of the default
    log of the day for tasks of the list. *)
Definition batch_create `{B : Backend} (userId : string) (l : list Task.t)
           (normalizedDate : string) (ev : Event) : Prop :=
  exists task, (is_create ev = true -> In task l) /\
               default_create userId (Task.id task) normalizedDate ev.

(** Why [createDailyLogIfNeeded] threw [e], the call having added [evs] to
    the trace: the user is not signed in; or the day is not a date; or the
    create was rejected with an error not taken for a duplicate. *)
Definition create_throws `{B : Backend} (normalizedDate : string) (e : JsVal)
           (evs : list Event) : Prop :=
  (evs = [] /\ e = authError) \/
  (date_iso (normalizedDate +:+ "T00:00:00.000Z") = None /\ e = rangeError /\
   Forall reading evs) \/
  exists error,
    Exists (create_rejected error) evs /\ taken_as_duplicate error = false /\
    e = mkError (create_failure (errorData_of error)) /\
    (num_is (get error "status") 400 = true -> e = mkError "Failed to create record.").

(** A store whose three probes find nothing and whose create is refused. *)
Definition refused_create : Store :=
  mkStore [] [None; None; None; Some forbidden] true 0.

Definition is_warn (ev : Event) : bool :=
  match ev with
  | EvWarn _ _ => true
  | _ => false
  end.

(** A day the runtime cannot read as a date: [toISOString] raises on it. *)
Definition invalid_day `{B : Backend} (normalizedDate : string) : Prop :=
  normalizedDate <> EmptyString /\
  date_next_day normalizedDate = None /\
  date_iso (normalizedDate +:+ "T00:00:00.000Z") = None.

(** A checked log of a number task. *)
Definition checked_log : DailyLog.t :=
  DailyLog.mk "log7" "A" "2024-01-15T00:00:00.000Z" (Some true) (Some 12%Z)
              (Some "morning run") "u1" EmptyString EmptyString.

(** The store accepted a create on [daily_logs] and answered [record]. *)
Definition create_accepted (record : DailyLog.t) (ev : Event) : Prop :=
  match ev with
  | EvCreate c _ resp =>
      match c return JsVal + RecordOf c -> Prop with
      | daily_logs => fun resp => resp = inr record
      | _ => fun _ => False
      end resp
  | _ => False
  end.

(** The snapshot shows a log of the day for the task [taskId]. *)
Definition seen_in (normalizedDate : string) (items : list DailyLog.t) (taskId : string)
  : Prop :=
  exists x, In x items /\ same_day normalizedDate x = true /\ DailyLog.task x = taskId.

(** The rejection carries a message, as every error of the store's client
    does. *)
Definition has_message (error : JsVal) : Prop :=
  exists m, get error "message" = JStr m /\ m <> EmptyString.

(** The character [d] does not occur in [pat]. *)
Definition absent (d : ascii) (pat : string) : bool :=
  negb (existsb (Ascii.eqb d) (list_ascii_of_string pat)).

(** ** The recovery, step by step *)

(** The session outlives the call: no query, no create and no wait signs
    the user out. *)
Definition session_kept `{B : Backend} : Prop :=
  (forall c page perPage f sort w,
      authenticated w = true ->
      authenticated (snd (pb_getList c page perPage f sort w)) = true) /\
  (forall c data w,
      authenticated w = true -> authenticated (snd (pb_create c data w)) = true) /\
  (forall ms w, authenticated w = true -> authenticated (timer ms w) = true).

(** A call that leaves the user signed in. *)
Definition steady `{B : Backend} {A} (m : M A) : Prop :=
  forall st, authenticated (world st) = true ->
             authenticated (world (snd (m st))) = true.

(** The events of one probe with the filter [f]: the queries answered [rs],
    one to three of them, each but the last cancelled, with the waits of
    200 and 400 ms between them. *)
Definition probe_events (f : Filter) (rs : list (JsVal + list DailyLog.t))
           (evs : list Event) : Prop :=
  evs = with_backoff f 1 rs /\ 1 <= length rs <= 3 /\
  Forall cancelled_resp (List.removelast rs).

(** The probe found the log [x]: its last query was answered, and [x] is
    the first log of the day in the answer. *)
Definition resolved (nd : string) (rs : list (JsVal + list DailyLog.t))
           (x : DailyLog.t) : Prop :=
  exists items, List.last rs (inr []) = inr items /\
                List.find (same_day nd) items = Some x.

(** The probe found nothing: its last query was rejected, or answered with
    no log of the day. *)
Definition unresolved (nd : string) (rs : list (JsVal + list DailyLog.t)) : Prop :=
  match List.last rs (inr []) with
  | inr items => List.find (same_day nd) items = None
  | inl _ => True
  end.

(** The re-probes of the recovery (lines 400-412), [n] of them left: their
    events and what they found.  A probe that found nothing is followed by
    the next one; between the two there may be a wait of 300 ms, and only
    after a probe whose last query was rejected (line 407 waits when what
    the probe threw names a cancellation). *)
Inductive reprobed (f : Filter) (nd : string)
  : nat -> list Event -> option DailyLog.t -> Prop :=
| reprobed_out : reprobed f nd 0 [] None
| reprobed_found n rs evs x :
    probe_events f rs evs -> resolved nd rs x ->
    reprobed f nd (S n) evs (Some x)
| reprobed_again n rs evs pause rest o :
    probe_events f rs evs -> unresolved nd rs ->
    pause = [] \/
    (pause = [EvSleep 300] /\ exists e, List.last rs (inr []) = inl e) ->
    reprobed f nd n rest o ->
    reprobed f nd (S n) (evs ++ pause ++ rest) o.

(** The query for all logs of the user (line 416). *)
Definition all_logs_query (userId : string) (resp : JsVal + list DailyLog.t) : Event :=
  EvGetList daily_logs 1 500 [FEq "user" userId] (Some "-date") resp.

(** The fallback of the recovery (lines 414-433): one query for all logs of
    the user, and the first log of the task and the day in its answer.  A
    rejected query gives "not found"; unless the rejection is a
    cancellation, which [getDailyLogs] turns into an empty answer, the
    console is told that the record could not be retrieved. *)
Definition scanned (userId taskId nd : string) (evs : list Event)
           (o : option DailyLog.t) : Prop :=
  exists resp,
    match resp with
    | inr all =>
        evs = [all_logs_query userId resp] /\
        o = List.find (same_task_day taskId nd) all
    | inl e =>
        o = None /\
        evs = all_logs_query userId resp ::
              if is_cancelled e then []
              else [EvWarn "Record exists but could not be retrieved. Caller should reload data."
                           JUndef]
    end.

(** The recovery after a duplicate (lines 396-433): a wait of 300 ms, three
    re-probes at most, and the fallback if none of them found the log.  The
    log returned is the one the first successful retrieval found. *)
Definition recovered (userId taskId nd nextDateStr : string) (post : list Event)
           (o : option DailyLog.t) : Prop :=
  let f := probe_filter userId taskId nd nextDateStr in
  exists probes rest,
    post = EvSleep 300 :: probes ++ rest /\
    ((exists x, o = Some x /\ reprobed f nd 3 probes (Some x) /\ rest = []) \/
     (reprobed f nd 3 probes None /\ scanned userId taskId nd rest o)).

(** * Facts *)

Example normalizeDate_timestamp :
  normalizeDate "2024-01-15T10:30:00.000Z" = "2024-01-15".
Proof. reflexivity. Qed.

Example normalizeDate_bare : normalizeDate "2024-01-15" = "2024-01-15".
Proof. reflexivity. Qed.

Example normalizeDate_space_separated :
  normalizeDate "2024-01-15 10:30:00.000Z" = "2024-01-15 10:30:00.000Z".
Proof. reflexivity. Qed.

Example day_number_ex : day_number "2024-01-15" = 20240115%Z.
Proof. reflexivity. Qed.

(** ** Strings and the date normaliser *)

Lemma append_nil (s : string) : EmptyString +:+ s = s.
Proof. reflexivity. Qed.

Lemma append_cons c (s t : string) : String c s +:+ t = String c (s +:+ t).
Proof. reflexivity. Qed.

Lemma includes_T_cons c s :
  includes "T" (String c s) = Ascii.eqb c "T" || includes "T" s.
Proof.
  cbn [includes String.prefix].
  destruct (ascii_dec "T" c) as [<- | Hne].
  - destruct s; reflexivity.
  - assert (Ascii.eqb c "T" = false) as ->.
    { apply Ascii.eqb_neq. congruence. }
    reflexivity.
Qed.

Lemma split_head_no_sep s : includes "T" (split_head "T" s) = false.
Proof.
  induction s as [| c s IH]; [reflexivity |].
  cbn [split_head]. destruct (Ascii.eqb c "T") eqn:E; [reflexivity |].
  rewrite includes_T_cons, E, IH. reflexivity.
Qed.

Lemma normalizeDate_no_T x : includes "T" (normalizeDate x) = false.
Proof.
  unfold normalizeDate. destruct (includes "T" x) eqn:E; [| exact E].
  apply split_head_no_sep.
Qed.

Lemma normalizeDate_fixed x : includes "T" x = false -> normalizeDate x = x.
Proof. unfold normalizeDate. intros ->. reflexivity. Qed.

Lemma normalizeDate_idem x : normalizeDate (normalizeDate x) = normalizeDate x.
Proof. apply normalizeDate_fixed, normalizeDate_no_T. Qed.

Lemma split_head_app d t :
  split_head "T" (d +:+ String "T" t) = split_head "T" d.
Proof.
  induction d as [| c d IH]; [reflexivity |].
  rewrite append_cons. cbn [split_head]. destruct (Ascii.eqb c "T"); [reflexivity |].
  now rewrite IH.
Qed.

Lemma includes_T_app d t : includes "T" (d +:+ String "T" t) = true.
Proof.
  induction d as [| c d IH].
  - rewrite append_nil. now rewrite includes_T_cons.
  - rewrite append_cons, includes_T_cons, IH. apply orb_true_r.
Qed.

(** Whatever follows the first ['T'] is dropped. *)
Lemma normalizeDate_time d t : normalizeDate (d +:+ String "T" t) = normalizeDate d.
Proof.
  unfold normalizeDate at 1. rewrite includes_T_app, split_head_app.
  unfold normalizeDate. destruct (includes "T" d) eqn:E; [reflexivity |].
  clear t. induction d as [| c d IH]; [reflexivity |].
  rewrite includes_T_cons in E. apply orb_false_elim in E as [E1 E2].
  cbn [split_head]. rewrite E1, IH; auto.
Qed.

Lemma normalizeDate_stored nd :
  normalizeDate (normalizeDate nd +:+ "T00:00:00.000Z") = normalizeDate nd.
Proof.
  change "T00:00:00.000Z" with (String "T" "00:00:00.000Z").
  rewrite normalizeDate_time. apply normalizeDate_idem.
Qed.

Lemma digit_not_T c : is_digit c = true -> Ascii.eqb c "T" = false.
Proof.
  destruct c as [[] [] [] [] [] [] [] []]; vm_compute; congruence.
Qed.

Lemma dash_not_T c : is_dash c = true -> Ascii.eqb c "T" = false.
Proof.
  unfold is_dash. intros H%Ascii.eqb_eq. now subst.
Qed.

(** C8 (normalisation round trip): normalising twice is normalising once,
    for every string; and two inputs that differ only in what follows the
    ['T'] of the same day have the same key. *)
Theorem normalizeDate_round_trip :
  (forall x, normalizeDate (normalizeDate x) = normalizeDate x) /\
  (forall day time1 time2,
      normalizeDate (day +:+ "T" +:+ time1) = normalizeDate (day +:+ "T" +:+ time2)).
Proof.
  split; [apply normalizeDate_idem |].
  intros day t1 t2. change ("T" +:+ t1) with (String "T" t1).
  change ("T" +:+ t2) with (String "T" t2).
  now rewrite !normalizeDate_time.
Qed.

Lemma append_empty (s : string) : s +:+ EmptyString = s.
Proof. induction s as [| c s IH]; [reflexivity |]. now rewrite append_cons, IH. Qed.

Lemma normalizeDate_key_then_time key rest :
  includes "T" key = false ->
  (rest = EmptyString \/ exists r, rest = String "T" r) ->
  normalizeDate (key +:+ rest) = key.
Proof.
  intros Hk [-> | [r ->]].
  - rewrite append_empty. now apply normalizeDate_fixed.
  - rewrite normalizeDate_time. now apply normalizeDate_fixed.
Qed.

Lemma day_key_no_T key : is_day_key key = true -> includes "T" key = false.
Proof.
  unfold is_day_key. intros Hk.
  do 10 (destruct key as [| ?c key]; [discriminate Hk |]).
  destruct key; [| discriminate Hk].
  cbn [list_ascii_of_string] in Hk.
  do 9 (apply andb_prop in Hk as [Hk ?]).
  repeat rewrite includes_T_cons.
  repeat match goal with
         | H : is_digit ?c = true |- _ => rewrite (digit_not_T c H); clear H
         | H : is_dash ?c = true |- _ => rewrite (dash_not_T c H); clear H
         end.
  reflexivity.
Qed.

Lemma normalizeDate_date_like x :
  date_like x = true ->
  is_day_key (normalizeDate x) = true /\ normalizeDate x = String.substring 0 10 x.
Proof.
  unfold date_like. intros [Hk Ht]%andb_prop.
  do 10 (destruct x as [| ?c x]; [discriminate Hk |]).
  cbn [String.get Nat.eqb] in Ht.
  assert (Hx : x = EmptyString \/ exists r, x = String "T" r).
  { destruct x as [| t r]; [now left | right].
    apply Ascii.eqb_eq in Ht. subst t. now exists r. }
  clear Ht.
  assert (Hsub : forall s, String.substring 0 0 s = EmptyString) by (now intros []).
  cbn [String.substring] in Hk |- *. rewrite Hsub in Hk |- *.
  match goal with
  | |- _ /\ _ = ?k => set (key := k) in *
  end.
  match goal with
  | |- context [normalizeDate ?X] => change X with (key +:+ x)
  end.
  rewrite normalizeDate_key_then_time; auto using day_key_no_T.
Qed.

(** *** Day keys sort as the days they name *)

Lemma key_val_cons acc c s :
  key_val acc (String c s) =
  key_val (if is_digit c then 10 * acc + digit_val c else acc)%Z s.
Proof. reflexivity. Qed.

Lemma digit_val_range c : is_digit c = true -> (0 <= digit_val c <= 9)%Z.
Proof.
  unfold is_digit, digit_val. intros [H1 H2]%andb_prop.
  apply Nat.leb_le in H1, H2. lia.
Qed.

Lemma key_val_lt a : forall b acc1 acc2,
  aligned a b -> (acc1 < acc2)%Z -> (key_val acc1 a < key_val acc2 b)%Z.
Proof.
  induction a as [| c a IH]; intros [| d b] acc1 acc2 Hal Hlt;
    cbn [aligned] in Hal; try contradiction; [exact Hlt |].
  destruct Hal as [Hcd Hal]. rewrite !key_val_cons. apply IH; [exact Hal |].
  destruct Hcd as [[Hc Hd] | [-> Hc]].
  - rewrite Hc, Hd. apply digit_val_range in Hc, Hd. lia.
  - rewrite Hc. exact Hlt.
Qed.

Lemma aligned_sym a : forall b, aligned a b -> aligned b a.
Proof.
  induction a as [| c a IH]; intros [| d b] Hal; cbn [aligned] in *;
    try contradiction; [exact I |].
  destruct Hal as [Hcd Hal]. split; [| now apply IH].
  destruct Hcd as [[Hc Hd] | [-> Hc]]; [left | right]; auto.
Qed.

Lemma ascii_compare_digits c d :
  match Ascii.compare c d with
  | Lt => (digit_val c < digit_val d)%Z
  | Eq => c = d
  | Gt => (digit_val d < digit_val c)%Z
  end.
Proof.
  unfold Ascii.compare, digit_val, nat_of_ascii.
  destruct (N.compare_spec (N_of_ascii c) (N_of_ascii d)) as [E | L | G].
  - rewrite <- (ascii_N_embedding c), <- (ascii_N_embedding d). now rewrite E.
  - lia.
  - lia.
Qed.

Lemma key_val_compare a : forall b acc,
  aligned a b ->
  match String.compare a b with
  | Lt => (key_val acc a < key_val acc b)%Z
  | Eq => key_val acc a = key_val acc b
  | Gt => (key_val acc b < key_val acc a)%Z
  end.
Proof.
  induction a as [| c a IH]; intros [| d b] acc Hal; cbn [aligned] in Hal;
    try contradiction; [reflexivity |].
  destruct Hal as [Hcd Hal]. cbn [String.compare]. rewrite !key_val_cons.
  pose proof (ascii_compare_digits c d) as Hc.
  destruct (Ascii.compare c d).
  - subst d. apply IH, Hal.
  - destruct Hcd as [[H1 H2] | [-> H1]]; [| lia].
    rewrite H1, H2. apply key_val_lt; [exact Hal |].
    apply digit_val_range in H1, H2. lia.
  - destruct Hcd as [[H1 H2] | [-> H1]]; [| lia].
    rewrite H1, H2. apply key_val_lt; [now apply aligned_sym |].
    apply digit_val_range in H1, H2. lia.
Qed.

Lemma day_keys_aligned a b :
  is_day_key a = true -> is_day_key b = true -> aligned a b.
Proof.
  unfold is_day_key. intros Ha Hb.
  do 10 (destruct a as [| ?c a]; [discriminate Ha |]).
  destruct a; [| discriminate Ha].
  do 10 (destruct b as [| ?d b]; [discriminate Hb |]).
  destruct b; [| discriminate Hb].
  cbn [list_ascii_of_string] in Ha, Hb.
  do 9 (apply andb_prop in Ha as [Ha ?]).
  do 9 (apply andb_prop in Hb as [Hb ?]).
  unfold is_dash in *.
  repeat match goal with
         | H : Ascii.eqb _ _ = true |- _ => apply Ascii.eqb_eq in H; subst
         end.
  cbn [aligned]. repeat split; auto.
Qed.

Lemma day_keys_sortable a b :
  is_day_key a = true -> is_day_key b = true ->
  (String.ltb a b = true <-> (day_number a < day_number b)%Z).
Proof.
  intros Ha Hb. pose proof (key_val_compare a b 0%Z (day_keys_aligned a b Ha Hb)) as H.
  unfold String.ltb. change (day_number a) with (key_val 0 a).
  change (day_number b) with (key_val 0 b).
  destruct (String.compare a b); split; intros; try discriminate; try lia; reflexivity.
Qed.

(** C7 (date normaliser): on a date-like input, a bare day key or a day key
    followed by ['T'] and a time of day, [normalizeDate] returns the day-only
    key: the zero-padded ten characters [YYYY-MM-DD] the input starts with.
    The keys sort as text the way the days they name do.  The function is a
    total, pure function of its argument. *)
Theorem normalizeDate_day_key x :
  date_like x = true ->
  is_day_key (normalizeDate x) = true /\
  normalizeDate x = String.substring 0 10 x /\
  forall y, date_like y = true ->
            (String.ltb (normalizeDate x) (normalizeDate y) = true <->
             (day_number (normalizeDate x) < day_number (normalizeDate y))%Z).
Proof.
  intros Hx. destruct (normalizeDate_date_like x Hx) as [Hk He].
  split; [exact Hk |]. split; [exact He |].
  intros y Hy. destruct (normalizeDate_date_like y Hy) as [Hk' _].
  now apply day_keys_sortable.
Qed.

Lemma normalizeDate_day_key_witness :
  is_day_key (normalizeDate "2024-01-15T10:30:00.000Z") = true /\
  normalizeDate "2024-01-15T10:30:00.000Z" = "2024-01-15".
Proof.
  destruct (normalizeDate_day_key "2024-01-15T10:30:00.000Z" eq_refl) as (H1 & H2 & _).
  split; [exact H1 | exact H2].
Defined.

(** ** The monad and its rules *)

Section Rules.
Context `{B : Backend}.

Lemma wp_ret {A} (a : A) Q : Q (Ok a) [] -> wp (ret a) Q.
Proof. intros H st. exists []. cbn. rewrite app_nil_r. auto. Qed.

Lemma wp_throw {A} e (Q : Res A -> list Event -> Prop) :
  Q (Throw e) [] -> wp (throw e) Q.
Proof. intros H st. exists []. cbn. rewrite app_nil_r. auto. Qed.

Lemma wp_bind {A C} (m : M A) (k : A -> M C) Q :
  wp m (fun r evs1 =>
          match r with
          | Ok a => wp (k a) (fun r' evs2 => Q r' (evs1 ++ evs2))
          | Throw e => Q (Throw e) evs1
          end) ->
  wp (bind m k) Q.
Proof.
  intros H st. destruct (H st) as (evs1 & E1 & G1 & H1). unfold bind.
  destruct (m st) as [[a | e] st1]; cbn [fst snd] in *.
  - destruct (H1 st1) as (evs2 & E2 & G2 & H2). exists (evs1 ++ evs2).
    rewrite E2, E1, app_assoc. split; [reflexivity |].
    split; [now apply Forall_app | exact H2].
  - exists evs1. auto.
Qed.

Lemma wp_catching {A} (m : M A) Q :
  wp m (fun r evs => Q (Ok match r with Ok a => inr a | Throw e => inl e end) evs) ->
  wp (catching m) Q.
Proof.
  intros H st. destruct (H st) as (evs & E & G & H1). unfold catching.
  destruct (m st) as [[a | e] st1]; cbn [fst snd] in *; eauto.
Qed.

Lemma wp_mono {A} (m : M A) (Q Q' : Res A -> list Event -> Prop) :
  wp m Q -> (forall r evs, Q r evs -> Q' r evs) -> wp m Q'.
Proof. intros H HQ st. destruct (H st) as (evs & E & G & H1). eauto. Qed.

Lemma wp_conj {A} (m : M A) (Q Q' : Res A -> list Event -> Prop) :
  wp m Q -> wp m Q' -> wp m (fun r evs => Q r evs /\ Q' r evs).
Proof.
  intros H H' st. destruct (H st) as (evs & E & G & H1).
  destruct (H' st) as (evs' & E' & _ & H2).
  rewrite E in E'. apply app_inv_head in E'. subst evs'. eauto.
Qed.

Lemma wp_getList c page perPage f sort Q :
  (forall resp, Q (of_resp resp) [EvGetList c page perPage f sort resp]) ->
  wp (getList c page perPage f sort) Q.
Proof.
  intros H st. unfold getList.
  destruct (pb_getList c page perPage f sort (world st)) as [r w] eqn:E.
  eexists. cbn. split; [reflexivity |]. split; [| apply H].
  repeat constructor. exists (world st). now rewrite E.
Qed.

Lemma wp_create c data Q :
  (forall resp, Q (of_resp resp) [EvCreate c data resp]) -> wp (create c data) Q.
Proof.
  intros H st. unfold create. destruct (pb_create c data (world st)) as [r w] eqn:E.
  eexists. cbn. split; [reflexivity |]. split; [| apply H].
  repeat constructor. exists (world st). now rewrite E.
Qed.

Lemma wp_update c id data Q :
  (forall resp, Q (of_resp resp) [EvUpdate c id data resp]) -> wp (update c id data) Q.
Proof.
  intros H st. unfold update. destruct (pb_update c id data (world st)) as [r w] eqn:E.
  eexists. cbn. split; [reflexivity |]. split; [| apply H].
  repeat constructor. exists (world st). now rewrite E.
Qed.

Lemma wp_delete c id Q :
  (forall resp, Q (of_resp resp) [EvDelete c id resp]) -> wp (delete c id) Q.
Proof.
  intros H st. unfold delete. destruct (pb_delete c id (world st)) as [r w] eqn:E.
  eexists. cbn. split; [reflexivity |]. split; [| apply H].
  repeat constructor. exists (world st). now rewrite E.
Qed.

Lemma wp_sleep ms Q : Q (Ok ()) [EvSleep ms] -> wp (sleep ms) Q.
Proof.
  intros H st. eexists. cbn. split; [reflexivity |]. split; [| apply H].
  repeat constructor.
Qed.

Lemma wp_console_warn msg detail Q :
  Q (Ok ()) [EvWarn msg detail] -> wp (console_warn msg detail) Q.
Proof.
  intros H st. eexists. cbn. split; [reflexivity |]. split; [| apply H].
  repeat constructor.
Qed.

Lemma wp_console_error msg detail Q :
  Q (Ok ()) [EvError msg detail] -> wp (console_error msg detail) Q.
Proof.
  intros H st. eexists. cbn. split; [reflexivity |]. split; [| apply H].
  repeat constructor.
Qed.

Lemma wp_ensureAuthenticated Q :
  Q (Ok ()) [] -> Q (Throw authError) [] -> wp ensureAuthenticated Q.
Proof.
  intros H1 H2 st. exists []. unfold ensureAuthenticated.
  destruct (negb (auth_isValid (world st)) || negb (truthy (auth_model (world st))));
    cbn; rewrite app_nil_r; auto.
Qed.

(** The check of [ensureAuthenticated], by cases on the state. *)
Lemma ensureAuthenticated_ok st :
  authenticated (world st) = true -> ensureAuthenticated st = (Ok (), st).
Proof.
  unfold authenticated, ensureAuthenticated. intros [H1 H2]%andb_prop.
  now rewrite H1, H2.
Qed.

Lemma ensureAuthenticated_fails st :
  authenticated (world st) = false -> ensureAuthenticated st = (Throw authError, st).
Proof.
  unfold authenticated, ensureAuthenticated. intros H.
  apply andb_false_iff in H as [-> | ->]; [reflexivity |].
  now rewrite orb_true_r.
Qed.

Lemma guarded_fails {A} (k : () -> M A) st :
  authenticated (world st) = false ->
  bind ensureAuthenticated k st = (Throw authError, st).
Proof. intros H. unfold bind. now rewrite ensureAuthenticated_fails. Qed.

Lemma guarded_ok {A} (k : () -> M A) st :
  authenticated (world st) = true ->
  bind ensureAuthenticated k st = k () st.
Proof. intros H. unfold bind. now rewrite ensureAuthenticated_ok. Qed.

End Rules.

Ltac wp_step :=
  lazymatch goal with
  | |- wp (bind _ _) _ => apply wp_bind
  | |- wp (catching _) _ => apply wp_catching
  | |- wp (ret _) _ => apply wp_ret
  | |- wp (throw _) _ => apply wp_throw
  | |- wp (getList _ _ _ _ _) _ => apply wp_getList; intros [?error | ?items]
  | |- wp (create _ _) _ => apply wp_create; intros [?error | ?record]
  | |- wp (update _ _ _) _ => apply wp_update; intros [?error | ?record]
  | |- wp (delete _ _) _ => apply wp_delete; intros [?error | []]
  | |- wp (sleep _) _ => apply wp_sleep
  | |- wp (console_warn _ _) _ => apply wp_console_warn
  | |- wp (console_error _ _) _ => apply wp_console_error
  end; cbn [of_resp app].

(** Close a goal that differs from a hypothesis only in how the appended
    events are bracketed. *)
Ltac wp_same :=
  let r := fresh "r" in
  let evs := fresh "evs" in
  let H := fresh "H" in
  intros r evs H; cbn beta in H;
  rewrite ?app_nil_r, <- ?app_assoc in H; rewrite ?app_nil_r, <- ?app_assoc;
  cbn [app] in *; exact H.

(** C10 (authentication guard): when the authentication store is not valid
    or holds no user model, each exported store operation throws
    "User is not authenticated. Please sign in." and leaves the state as it
    was: nothing is appended to the trace, so no request was issued. *)
Theorem operations_require_authentication `{B : Backend} (st : St) :
  auth_isValid (world st) = false \/ truthy (auth_model (world st)) = false ->
  let denied {A} (m : M A) :=
    m st = (Throw (mkError "User is not authenticated. Please sign in."), st) in
  (forall userId type, denied (getTasks userId type)) /\
  (forall data, denied (createTask data)) /\
  (forall id data, denied (updateTask id data)) /\
  (forall id, denied (deleteTask id)) /\
  (forall userId taskId date, denied (getDailyLogs userId taskId date)) /\
  (forall userId taskId date, denied (getDailyLogByTaskAndDate userId taskId date)) /\
  (forall userId l date, denied (ensureDailyLogsExist userId l date)) /\
  (forall userId taskId date, denied (createDailyLogIfNeeded userId taskId date)) /\
  (forall logId data, denied (updateDailyLog logId data)) /\
  (forall id, denied (deleteDailyLog id)) /\
  (forall userId taskId, denied (getGoalProgress userId taskId)) /\
  (forall data, denied (createOrUpdateGoalProgress data)).
Proof.
  intros H denied.
  assert (Ha : authenticated (world st) = false).
  { unfold authenticated. destruct H as [-> | ->]; [reflexivity | apply andb_false_r]. }
  unfold denied. repeat split; intros; now apply guarded_fails.
Qed.

Lemma operations_require_authentication_witness :
  @ensureDailyLogsExist StoreOps "u1" [task_of "A"] "2024-01-15"
    (start (mkStore [] [] false 0)) =
  (Throw (mkError "User is not authenticated. Please sign in."),
   start (mkStore [] [] false 0)).
Proof.
  apply (@operations_require_authentication StoreOps (start (mkStore [] [] false 0))).
  left. reflexivity.
Defined.

(** ** The cancellation tests *)

Lemma cancelled_and_answer error b :
  cancelled_and error = Answers b -> is_cancelled error = b.
Proof.
  unfold cancelled_and, is_cancelled. intros H.
  destruct error as [| | c | n | s | l]; try discriminate;
    cbn [get] in *; try (injection H as <-; reflexivity).
  destruct (assoc "message" l) as [| | c | n | m | l']; cbn [truthy opt_includes] in *;
    try (injection H as <-; reflexivity).
  - destruct c; [discriminate | injection H as <-; reflexivity].
  - destruct (n =? 0)%Z; cbn [negb] in H; [injection H as <-; reflexivity | discriminate].
  - destruct (String.eqb m EmptyString) eqn:E; cbn [negb] in H; injection H as <-;
      [apply String.eqb_eq in E; subst m |]; reflexivity.
  - discriminate.
Qed.

Lemma cancelled_and_raises error why :
  cancelled_and error = Raises why -> is_cancelled error = false.
Proof.
  unfold cancelled_and, is_cancelled. intros H.
  destruct error as [| | c | n | s | l]; try discriminate; try reflexivity.
  cbn [get] in *.
  destruct (assoc "message" l) as [| | c | n | m | l']; cbn [truthy opt_includes] in *;
    try reflexivity.
  destruct (negb (String.eqb m EmptyString)); discriminate.
Qed.

Lemma cancelled_and_true error :
  cancelled_and error = Answers true <-> is_cancelled error = true.
Proof.
  split; [apply cancelled_and_answer |]. intros H.
  destruct (cancelled_and error) as [b | why] eqn:E.
  - apply cancelled_and_answer in E. congruence.
  - apply cancelled_and_raises in E. congruence.
Qed.

Lemma cancelled_opt_answer var e b :
  cancelled_opt var e = Answers b -> is_cancelled e = b.
Proof.
  unfold cancelled_opt, is_cancelled. intros H.
  destruct e as [| | c | n | s | l]; try discriminate;
    cbn [get] in *; try (injection H as <-; reflexivity).
  destruct (assoc "message" l) as [| | c | n | m | l']; cbn [opt_includes] in *;
    try discriminate; injection H as <-; reflexivity.
Qed.

Lemma cancelled_opt_raises var e why :
  cancelled_opt var e = Raises why -> is_cancelled e = false.
Proof.
  unfold cancelled_opt, is_cancelled. intros H.
  destruct e as [| | c | n | s | l]; try discriminate; try reflexivity.
  cbn [get] in *.
  destruct (assoc "message" l) as [| | c | n | m | l']; cbn [opt_includes] in *;
    try reflexivity; discriminate.
Qed.

Lemma cancelled_opt_true var e :
  cancelled_opt var e = Answers true <-> is_cancelled e = true.
Proof.
  split; [apply cancelled_opt_answer |]. intros H.
  destruct (cancelled_opt var e) as [b | why] eqn:E.
  - apply cancelled_opt_answer in E. congruence.
  - apply cancelled_opt_raises in E. congruence.
Qed.

(** On an [Error] object, whose message is a string, both tests answer. *)
Lemma cancelled_and_mkError msg :
  cancelled_and (mkError msg) = Answers (is_cancelled (mkError msg)).
Proof.
  unfold cancelled_and, is_cancelled, mkError. cbn [get assoc String.eqb Ascii.eqb opt_includes truthy].
  cbn. destruct (String.eqb msg EmptyString) eqn:E; cbn [negb]; [| reflexivity].
  apply String.eqb_eq in E. subst msg. reflexivity.
Qed.

Lemma cancelled_opt_mkError var msg :
  cancelled_opt var (mkError msg) = Answers (is_cancelled (mkError msg)).
Proof. reflexivity. Qed.

Lemma cancelled_opt_Error var e :
  is_Error e -> cancelled_opt var e = Answers (is_cancelled e).
Proof. intros [msg ->]. apply cancelled_opt_mkError. Qed.

(** ** The existence prober *)

Section Prober.
Context `{B : Backend}.

Lemma probe_loop_spec f nd :
  wp (getDailyLogByTaskAndDate_loop 3 0 f nd)
     (fun r evs => exists rs,
          evs = with_backoff f 1 rs /\ 1 <= length rs <= 3 /\
          Forall cancelled_resp (List.removelast rs) /\ probe_outcome nd rs r).
Proof.
  cbn [getDailyLogByTaskAndDate_loop Nat.ltb Nat.leb].
  wp_step. wp_step. wp_step.
  - destruct (cancelled_and error) as [[|] | why] eqn:C1.
    + pose proof (cancelled_and_answer _ _ C1) as K1.
      wp_step. wp_step. wp_step. wp_step. wp_step.
      * destruct (cancelled_and error0) as [[|] | why0] eqn:C2.
        -- pose proof (cancelled_and_answer _ _ C2) as K2.
           wp_step. wp_step. wp_step. wp_step. wp_step.
           ++ destruct (cancelled_and error1) as [[|] | why1] eqn:C3;
                wp_step; exists [inl error; inl error0; inl error1];
                unfold probe_outcome; cbn; rewrite C3;
                repeat split; auto; lia.
           ++ wp_step. exists [inl error; inl error0; inr items].
              unfold probe_outcome. cbn. repeat split; auto; lia.
        -- wp_step. exists [inl error; inl error0].
           unfold probe_outcome. cbn. rewrite C2. repeat split; auto; lia.
        -- wp_step. exists [inl error; inl error0].
           unfold probe_outcome. cbn. rewrite C2. repeat split; auto; lia.
      * wp_step. exists [inl error; inr items].
        unfold probe_outcome. cbn. repeat split; auto; lia.
    + wp_step. exists [inl error]. unfold probe_outcome. cbn. rewrite C1.
      repeat split; auto; lia.
    + wp_step. exists [inl error]. unfold probe_outcome. cbn. rewrite C1.
      repeat split; auto; lia.
  - wp_step. exists [inr items]. unfold probe_outcome. cbn.
    repeat split; auto; lia.
Qed.

Lemma last_in_backoff f rs : forall k d,
  rs <> [] -> In (probe_query f (List.last rs d)) (with_backoff f k rs).
Proof.
  induction rs as [| r rs IH]; intros k d Hne; [congruence |].
  destruct rs as [| r' rs]; [now left |].
  cbn [with_backoff]. right. right.
  change (List.last (r :: r' :: rs) d) with (List.last (r' :: rs) d).
  apply IH. discriminate.
Qed.

Lemma backoff_events f rs : forall k ev,
  In ev (with_backoff f k rs) ->
  (exists r, In r rs /\ ev = probe_query f r) \/ (exists ms, ev = EvSleep ms).
Proof.
  induction rs as [| r rs IH]; intros k ev Hin; [contradiction |].
  cbn [with_backoff] in Hin. destruct Hin as [<- | Hin].
  - left. exists r. split; [now left | reflexivity].
  - destruct rs as [| r' rs]; [contradiction |].
    destruct Hin as [<- | Hin]; [right; eauto |].
    destruct (IH _ _ Hin) as [(r0 & Hr0 & ->) | Hs]; [left | now right].
    exists r0. split; [now right | reflexivity].
Qed.

Lemma backoff_queries f rs : forall k,
  length (List.filter is_query (with_backoff f k rs)) = length rs.
Proof.
  induction rs as [| r rs IH]; intros k; [reflexivity |].
  destruct rs as [| r' rs]; [reflexivity |].
  cbn [with_backoff List.filter is_query probe_query length].
  f_equal. apply (IH (S k)).
Qed.

(** What a probe that passed the guard appends and returns. *)
Lemma probe_spec userId taskId date st nextDateStr :
  authenticated (world st) = true ->
  date_next_day (normalizeDate date) = Some nextDateStr ->
  exists rs,
    trace (snd (getDailyLogByTaskAndDate userId taskId date st)) =
    trace st ++ with_backoff
                  (probe_filter userId taskId (normalizeDate date) nextDateStr) 1 rs /\
    1 <= length rs <= 3 /\
    Forall cancelled_resp (List.removelast rs) /\
    probe_outcome (normalizeDate date) rs
                  (fst (getDailyLogByTaskAndDate userId taskId date st)).
Proof.
  intros Ha Hd. unfold getDailyLogByTaskAndDate. rewrite guarded_ok by exact Ha.
  rewrite Hd.
  destruct (probe_loop_spec
              (probe_filter userId taskId (normalizeDate date) nextDateStr)
              (normalizeDate date) st) as (evs & E & _ & rs & -> & H).
  exists rs. split; [exact E | exact H].
Qed.

End Prober.

(** A rejection that carries a message, a string that is not empty, can be
    tested: both tests answer whether it is a cancellation. *)
Lemma cancelled_and_has_message error :
  has_message error -> cancelled_and error = Answers (is_cancelled error).
Proof.
  intros (m & Hm & Hne). unfold cancelled_and, is_cancelled.
  destruct error as [| | c | n | s | l]; try discriminate.
  rewrite Hm. cbn [truthy opt_includes].
  destruct (String.eqb m EmptyString) eqn:E; [| reflexivity].
  apply String.eqb_eq in E. contradiction.
Qed.

(** C4 (failure policy of the prober): a probe that passed the guard issues
    between one and three queries; every query but the last was cancelled,
    and the wait before attempt [k + 1] is [200 * k] ms (200, then 400).  A
    cancellation of the third attempt ends the probe with "not found" and
    nothing is thrown.  Any rejection that is not a cancellation is the last
    event of the probe: with no wait and no further query an error is
    thrown, "Access denied" for status 403 and "Invalid filter syntax" for
    status 400.  A rejection whose message cannot be tested (the rejection
    is [undefined] or [null], or its message is truthy and no string) ends
    the probe in the same way, with the TypeError of the test. *)
Theorem getDailyLogByTaskAndDate_failure_policy `{B : Backend}
        (userId taskId date nextDateStr : string) (st : St) :
  authenticated (world st) = true ->
  date_next_day (normalizeDate date) = Some nextDateStr ->
  let run := getDailyLogByTaskAndDate userId taskId date st in
  let f := probe_filter userId taskId (normalizeDate date) nextDateStr in
  exists rs,
    trace (snd run) = trace st ++ with_backoff f 1 rs /\
    1 <= length rs <= 3 /\
    Forall cancelled_resp (List.removelast rs) /\
    match List.last rs (inr []) with
    | inr items => fst run = Ok (List.find (same_day (normalizeDate date)) items)
    | inl e =>
        match cancelled_and e with
        | Answers true => length rs = 3 /\ fst run = Ok None
        | Answers false =>
            (exists msg, fst run = Throw (mkError msg)) /\
            (num_is (get e "status") 403 = true ->
             fst run = Throw (mkError
               "Access denied. Please check your PocketBase collection rules.")) /\
            (num_is (get e "status") 400 = true ->
             fst run = Throw (mkError
               ("Invalid filter syntax: " +:+ template (js_or (get e "message") e) +:+
                ". Please check that the fields exist in the daily_logs collection.")))
        | Raises why => fst run = Throw (typeError why)
        end
    end.
Proof.
  intros Ha Hd run f.
  destruct (probe_spec userId taskId date st nextDateStr Ha Hd)
    as (rs & Htr & Hlen & Hc & Hout).
  exists rs. repeat (split; [assumption || lia |]).
  unfold probe_outcome in Hout. fold run in Hout.
  destruct (List.last rs (inr [])) as [e | items]; [| exact Hout].
  destruct (cancelled_and e) as [[|] | why]; [exact Hout | | exact Hout].
  rewrite Hout. unfold fetch_failure.
  destruct (num_is (get e "status") 400) eqn:E400.
  - split; [eauto |]. split; [| reflexivity].
    intros E403. destruct (get e "status") as [| | | n | |]; try discriminate.
    cbn in E400, E403. apply Z.eqb_eq in E400, E403. lia.
  - destruct (num_is (get e "status") 403) eqn:E403.
    + split; [unfold accessDenied; eauto |]. split; [reflexivity | discriminate].
    + split; [eauto |]. split; discriminate.
Qed.

Lemma getDailyLogByTaskAndDate_failure_policy_witness :
  let s := mkStore [] [Some cancelled; Some cancelled; Some cancelled] true 0 in
  let f := probe_filter "u1" "A" "2024-01-15" "2024-01-16" in
  let run := @getDailyLogByTaskAndDate StoreOps "u1" "A" "2024-01-15" (start s) in
  fst run = Ok None /\
  trace (snd run) = [probe_query f (inl cancelled); EvSleep 200;
                     probe_query f (inl cancelled); EvSleep 400;
                     probe_query f (inl cancelled)].
Proof.
  intros s f run.
  destruct (@getDailyLogByTaskAndDate_failure_policy StoreOps
              "u1" "A" "2024-01-15" "2024-01-16" (start s) eq_refl eq_refl)
    as (rs & Htr & _ & _ & Hout).
  fold run in Htr, Hout. fold f in Htr.
  assert (Hrun : trace (snd run) =
                 [probe_query f (inl cancelled); EvSleep 200;
                  probe_query f (inl cancelled); EvSleep 400;
                  probe_query f (inl cancelled)]) by (vm_compute; reflexivity).
  split; [| exact Hrun].
  rewrite Hrun in Htr. cbn [start trace app] in Htr.
  destruct rs as [| r1 [| r2 [| r3 [| r4 rs]]]]; cbn [with_backoff] in Htr;
    try discriminate.
  pose (answer := fun ev : Event =>
          match ev with
          | EvGetList c _ _ _ _ resp =>
              match c return JsVal + list (RecordOf c) -> JsVal + list DailyLog.t with
              | daily_logs => fun resp => resp
              | _ => fun _ => inr []
              end resp
          | _ => inr []
          end).
  apply (f_equal (fun l => answer (nth 4 l (EvSleep 0)))) in Htr.
  cbn in Htr. subst r3.
  cbn [List.last] in Hout. exact (proj2 Hout).
Defined.

Example probe_cancelled_three_times :
  let s := mkStore [] [Some cancelled; Some cancelled; Some cancelled] true 0 in
  let f := probe_filter "u1" "A" "2024-01-15" "2024-01-16" in
  let run := @getDailyLogByTaskAndDate StoreOps "u1" "A" "2024-01-15" (start s) in
  fst run = Ok None /\
  trace (snd run) = [probe_query f (inl cancelled); EvSleep 200;
                     probe_query f (inl cancelled); EvSleep 400;
                     probe_query f (inl cancelled)].
Proof. vm_compute. split; reflexivity. Qed.

Example probe_forbidden_at_once :
  let s := mkStore [] [Some forbidden] true 0 in
  let f := probe_filter "u1" "A" "2024-01-15" "2024-01-16" in
  let run := @getDailyLogByTaskAndDate StoreOps "u1" "A" "2024-01-15" (start s) in
  fst run = Throw (mkError "Access denied. Please check your PocketBase collection rules.") /\
  trace (snd run) = [probe_query f (inl forbidden)].
Proof. vm_compute. split; reflexivity. Qed.

(** C5 (exact day match): a log returned by the prober has the requested
    day as its normalised date, whatever the store answered; it is an item
    of the answer to a query that carries the clauses [user = userId] and
    [task = taskId], so when the answers honour the equality clauses of
    their queries its task and user are the requested ones.  A log whose
    normalised date differs from the requested day is never returned. *)
Theorem getDailyLogByTaskAndDate_exact_match `{B : Backend}
        (userId taskId date : string) (st : St) (x : DailyLog.t) :
  fst (getDailyLogByTaskAndDate userId taskId date st) = Ok (Some x) ->
  exists evs,
    trace (snd (getDailyLogByTaskAndDate userId taskId date st)) = trace st ++ evs /\
    normalizeDate (DailyLog.date x) = normalizeDate date /\
    Exists (fun ev => yields x ev /\ asks "user" userId ev /\ asks "task" taskId ev) evs /\
    (Forall honours_filter evs ->
     DailyLog.task x = taskId /\ DailyLog.user x = userId) /\
    (forall y, normalizeDate (DailyLog.date y) <> normalizeDate date ->
               fst (getDailyLogByTaskAndDate userId taskId date st) <> Ok (Some y)).
Proof.
  intros Hx.
  destruct (authenticated (world st)) eqn:Ha.
  2:{ unfold getDailyLogByTaskAndDate in Hx. rewrite guarded_fails in Hx by exact Ha.
      discriminate. }
  destruct (date_next_day (normalizeDate date)) as [next |] eqn:Hd.
  2:{ unfold getDailyLogByTaskAndDate in Hx. rewrite guarded_ok in Hx by exact Ha.
      rewrite Hd in Hx. discriminate. }
  destruct (probe_spec userId taskId date st next Ha Hd)
    as (rs & Htr & Hlen & Hc & Hout).
  set (f := probe_filter userId taskId (normalizeDate date) next) in *.
  exists (with_backoff f 1 rs). split; [exact Htr |].
  unfold probe_outcome in Hout. rewrite Hx in Hout.
  assert (Hne : rs <> []) by (destruct rs; cbn in Hlen; [lia | discriminate]).
  pose proof (last_in_backoff f rs 1 (inr []) Hne) as Hin.
  destruct (List.last rs (inr [])) as [e | items].
  { destruct (cancelled_and e) as [[|] | why]; [destruct Hout | |]; discriminate. }
  injection Hout as Hfind. symmetry in Hfind.
  apply find_some in Hfind as [Hitem Hday].
  assert (Hnorm : normalizeDate (DailyLog.date x) = normalizeDate date).
  { unfold same_day in Hday. now apply String.eqb_eq in Hday. }
  split; [exact Hnorm |]. split; [| split].
  - apply List.Exists_exists. exists (probe_query f (inr items)).
    split; [exact Hin |]. cbn. repeat split; auto.
  - intros Hh. rewrite List.Forall_forall in Hh. specialize (Hh _ Hin). cbn in Hh.
    split; [apply (Hh x "task") | apply (Hh x "user")]; cbn; auto.
  - intros y Hy Heq. rewrite Hx in Heq. injection Heq as <-. contradiction.
Qed.


(** ** The mutation applier *)

Lemma prop_not_nullish (data : Obj) k :
  not_nullish (prop data k) = true -> data !! k = Some (prop data k).
Proof.
  unfold prop. destruct (data !! k) as [v |]; [reflexivity | discriminate].
Qed.

(** Every entry of the request body is one of the three mutable fields, is
    the caller's own entry, and is neither [null] nor [undefined]; a note is
    not the empty string either. *)
Lemma cleanData_lookup (data : Obj) k v :
  cleanData data !! k = Some v ->
  (k = "value_bool" \/ k = "value_number" \/ k = "note") /\
  data !! k = Some v /\ not_nullish v = true /\
  (k = "note" -> v <> JStr EmptyString).
Proof.
  unfold cleanData.
  destruct (not_nullish (prop data "value_bool")) eqn:E1;
    destruct (not_nullish (prop data "value_number")) eqn:E2;
    destruct (not_nullish (prop data "note") &&
              negb (str_is (prop data "note") EmptyString)) eqn:E3;
    intros H;
    repeat (rewrite lookup_insert in H; case_decide; subst);
    try (rewrite lookup_empty in H; discriminate);
    injection H as <-;
    try apply andb_prop in E3 as [E3 E4];
    (split; [auto |]); (split; [now apply prop_not_nullish |]);
    (split; [assumption |]);
    intros Hk Hv; first [discriminate Hk | rewrite Hv in E4; discriminate E4].
Qed.

Lemma cleanData_strips (data : Obj) k :
  not_nullish (prop data k) = false \/
  (k = "note" /\ prop data k = JStr EmptyString) ->
  cleanData data !! k = None.
Proof.
  intros H. destruct (cleanData data !! k) as [v |] eqn:E; [exfalso | reflexivity].
  apply cleanData_lookup in E as (_ & Hd & Hn & Hnote).
  assert (prop data k = v) as Hp by (unfold prop; now rewrite Hd).
  destruct H as [H | [-> H]]; [congruence |].
  apply Hnote; congruence.
Qed.

Lemma updateDailyLog_request `{B : Backend} logId data st :
  trace (snd (updateDailyLog logId data st)) = trace st \/
  exists resp,
    trace (snd (updateDailyLog logId data st)) =
    trace st ++ [EvUpdate daily_logs logId (cleanData data) resp].
Proof.
  unfold updateDailyLog. destruct (authenticated (world st)) eqn:Ha.
  - right. rewrite guarded_ok by exact Ha.
    unfold bind, catching, update.
    destruct (pb_update daily_logs logId (cleanData data) (world st)) as [[e | r] w];
      cbn; [| eexists; reflexivity].
    exists (inl e).
    destruct e; try reflexivity.
    destruct (num_is _ 400); [reflexivity |].
    destruct (num_is _ 403); reflexivity.
  - left. now rewrite guarded_fails.
Qed.

Lemma find_patched id body l r :
  List.find (has_id id) l = Some r ->
  List.find (has_id id) (map (fun x => if has_id id x then patched body x else x) l) =
  Some (patched body r).
Proof.
  induction l as [| x l IH]; [discriminate |].
  cbn [List.find map]. destruct (has_id id x) eqn:E.
  - intros [= ->]. cbn [List.find]. unfold has_id in *. cbn. now rewrite E.
  - intros H. cbn [List.find]. rewrite E. auto.
Qed.

(** On the reference store an update of a stored log succeeds and stores
    the patched log. *)
Lemma updateDailyLog_stored s logId data r :
  signed_in s = true -> faults s = [] -> stored s logId = Some r ->
  let run := @updateDailyLog StoreOps logId data (start s) in
  fst run = Ok (patched (cleanData data) r) /\
  stored (world (snd run)) logId = Some (patched (cleanData data) r).
Proof.
  intros Hs Hf Hr run. subst run. unfold updateDailyLog.
  rewrite guarded_ok by (cbn; unfold authenticated; cbn; now rewrite Hs).
  unfold bind, catching, update, start. cbn [world].
  cbn [pb_update StoreOps]. unfold ref_update, next_fault. rewrite Hf.
  destruct s as [l fs a n]. cbn [logs faults signed_in serial] in *. subst fs.
  unfold stored in Hr. cbn [logs] in Hr. rewrite Hr. cbn.
  split; [reflexivity |]. unfold stored. cbn [logs]. now apply find_patched.
Qed.

Lemma patch_absent {A} (as_a : option JsVal -> option A) (body : Obj) k old :
  body !! k = None -> patch as_a body k old = old.
Proof. unfold patch. now intros ->. Qed.

(** C6 (sparse update): the only request [updateDailyLog] sends is the
    update of the log with the body [cleanData data]; every entry of that
    body is an entry of the input, present and neither [null] nor
    [undefined], so a field the input omits is not in the body.  On the
    reference store the fields the input omits keep their stored values; in
    particular an update with only [{value_bool: true}] sets the flag and
    leaves [value_number] as it was. *)
Theorem updateDailyLog_sparse (s : Store) (logId : string) (data : Obj) (r : DailyLog.t) :
  signed_in s = true -> faults s = [] -> stored s logId = Some r ->
  let run := @updateDailyLog StoreOps logId data (start s) in
  (forall (B : Backend) (st : St),
      trace (snd (updateDailyLog logId data st)) = trace st \/
      exists resp, trace (snd (updateDailyLog logId data st)) =
                   trace st ++ [EvUpdate daily_logs logId (cleanData data) resp]) /\
  (forall k v, cleanData data !! k = Some v ->
               data !! k = Some v /\ v <> JUndef /\ v <> JNull) /\
  (forall k, data !! k = None -> cleanData data !! k = None) /\
  exists r',
    fst run = Ok r' /\ stored (world (snd run)) logId = Some r' /\
    (data !! "value_bool" = None -> DailyLog.value_bool r' = DailyLog.value_bool r) /\
    (data !! "value_number" = None ->
     DailyLog.value_number r' = DailyLog.value_number r) /\
    (data !! "note" = None -> DailyLog.note r' = DailyLog.note r) /\
    (data = {[ "value_bool" := JBool true ]} ->
     DailyLog.value_bool r' = Some true /\
     DailyLog.value_number r' = DailyLog.value_number r).
Proof.
  intros Hs Hf Hr run.
  assert (Hnone : forall k, data !! k = None -> cleanData data !! k = None).
  { intros k Hk. apply cleanData_strips. left. unfold prop. now rewrite Hk. }
  split; [intros B st; apply updateDailyLog_request |].
  split.
  { intros k v Hk. apply cleanData_lookup in Hk as (_ & Hd & Hn & _).
    split; [exact Hd |]. split; intros ->; discriminate. }
  split; [exact Hnone |].
  destruct (updateDailyLog_stored s logId data r Hs Hf Hr) as [H1 H2].
  exists (patched (cleanData data) r). split; [exact H1 |]. split; [exact H2 |].
  unfold patched. cbn [DailyLog.value_bool DailyLog.value_number DailyLog.note].
  do 3 (split; [intros Hk; apply patch_absent, Hnone, Hk |]).
  intros ->. split; reflexivity.
Qed.

Lemma updateDailyLog_sparse_witness :
  let s := mkStore [numbered_log] [] true 8 in
  let run := @updateDailyLog StoreOps "log7" {[ "value_bool" := JBool true ]} (start s) in
  exists r',
    fst run = Ok r' /\ DailyLog.value_bool r' = Some true /\
    DailyLog.value_number r' = Some 12%Z.
Proof.
  intros s run.
  destruct (updateDailyLog_sparse s "log7" {[ "value_bool" := JBool true ]}
              numbered_log eq_refl eq_refl eq_refl)
    as (_ & _ & _ & r' & H1 & _ & _ & _ & _ & H2).
  exists r'. split; [exact H1 |]. destruct (H2 eq_refl) as [H3 H4].
  split; [exact H3 | exact H4].
Defined.

(** C9 (no clearing): the body [updateDailyLog] sends holds no [null] and
    no [undefined], and no empty note; a field given as [undefined] or
    [null], or left out, and a note given as the empty string, is not in
    the body.  On the reference store such a field keeps its stored value. *)
Theorem updateDailyLog_never_clears (s : Store) (logId : string) (data : Obj)
        (r : DailyLog.t) :
  signed_in s = true -> faults s = [] -> stored s logId = Some r ->
  let run := @updateDailyLog StoreOps logId data (start s) in
  let blank k := not_nullish (prop data k) = false \/
                 (k = "note" /\ prop data k = JStr EmptyString) in
  (forall k v, cleanData data !! k = Some v ->
               v <> JUndef /\ v <> JNull /\ (k = "note" -> v <> JStr EmptyString)) /\
  (forall k, blank k -> cleanData data !! k = None) /\
  exists r',
    fst run = Ok r' /\ stored (world (snd run)) logId = Some r' /\
    (blank "value_bool" -> DailyLog.value_bool r' = DailyLog.value_bool r) /\
    (blank "value_number" -> DailyLog.value_number r' = DailyLog.value_number r) /\
    (blank "note" -> DailyLog.note r' = DailyLog.note r).
Proof.
  intros Hs Hf Hr run blank.
  split.
  { intros k v Hk. apply cleanData_lookup in Hk as (_ & _ & Hn & Hnote).
    repeat split; try (intros ->; discriminate). exact Hnote. }
  split; [intros k Hk; now apply cleanData_strips |].
  destruct (updateDailyLog_stored s logId data r Hs Hf Hr) as [H1 H2].
  exists (patched (cleanData data) r). split; [exact H1 |]. split; [exact H2 |].
  unfold patched. cbn [DailyLog.value_bool DailyLog.value_number DailyLog.note].
  split; [| split]; intros Hk; apply patch_absent, cleanData_strips, Hk.
Qed.

Lemma updateDailyLog_never_clears_witness :
  let s := mkStore [numbered_log] [] true 8 in
  let data : Obj := <["value_number" := JNull]> {[ "note" := JStr EmptyString ]} in
  let run := @updateDailyLog StoreOps "log7" data (start s) in
  exists r',
    fst run = Ok r' /\ DailyLog.value_number r' = Some 12%Z /\
    DailyLog.note r' = Some "morning run".
Proof.
  intros s data run.
  destruct (updateDailyLog_never_clears s "log7" data numbered_log
              eq_refl eq_refl eq_refl)
    as (_ & _ & r' & H1 & _ & _ & H2 & H3).
  exists r'. split; [exact H1 |]. split.
  - apply H2. left. reflexivity.
  - apply H3. right. split; reflexivity.
Defined.

(** ** Probes, whatever the state *)

Section ProbePost.
Context `{B : Backend}.

Lemma in_removelast_or_last {A} (l : list A) (d x : A) :
  In x l -> In x (List.removelast l) \/ x = List.last l d.
Proof.
  intros Hin. destruct l as [| a l]; [contradiction |].
  rewrite (app_removelast_last d (l := a :: l)) in Hin by discriminate.
  apply in_app_or in Hin as [H | [<- | []]]; auto.
Qed.

Lemma probe_post_of_outcome userId taskId nd next rs r :
  1 <= length rs <= 3 ->
  Forall cancelled_resp (List.removelast rs) ->
  probe_outcome nd rs r ->
  probe_post userId taskId nd r
             (with_backoff (probe_filter userId taskId nd next) 1 rs).
Proof.
  intros Hlen Hc Hout. set (f := probe_filter userId taskId nd next).
  assert (Hne : rs <> []) by (destruct rs; cbn in Hlen; [lia | discriminate]).
  split; [| split].
  - apply List.Forall_forall. intros ev Hin.
    apply backoff_events in Hin as [(r0 & _ & ->) | (ms & ->)]; cbn; auto.
  - rewrite backoff_queries. lia.
  - pose proof (last_in_backoff f rs 1 (inr []) Hne) as Hlast.
    assert (Hnone : (forall items, List.last rs (inr []) = inr items ->
                                   List.find (same_day nd) items = None) ->
                    Forall (fun ev => ~ answers_with (fun _ => true) nd ev)
                           (with_backoff f 1 rs)).
    { intros Hitems. apply List.Forall_forall. intros ev Hin.
      apply backoff_events in Hin as [(r0 & Hr0 & ->) | (ms & ->)]; [| cbn; tauto].
      apply (in_removelast_or_last rs (inr [])) in Hr0 as [Hr0 | ->].
      - rewrite List.Forall_forall in Hc. specialize (Hc _ Hr0).
        destruct r0; cbn in *; tauto.
      - destruct (List.last rs (inr [])) as [e | items]; cbn; [tauto |].
        intros (y & Hy & Hday & _).
        pose proof (find_none _ _ (Hitems items eq_refl) y Hy). congruence. }
    unfold probe_outcome in Hout.
    destruct (List.last rs (inr [])) as [e | items] eqn:El.
    + assert (Hr : r = Ok None \/ exists e', r = Throw e').
      { destruct (cancelled_and e) as [[|] | why];
          [left; tauto | right; eauto | right; eauto]. }
      destruct Hr as [-> | [e' ->]]; apply Hnone; discriminate.
    + subst r. destruct (List.find (same_day nd) items) as [x |] eqn:Ef.
      * apply find_some in Ef as [Hx Hday].
        apply List.Exists_exists. exists (probe_query f (inr items)).
        split; [exact Hlast |]. unfold found_by. cbn. tauto.
      * apply Hnone. intros items' [= <-]. exact Ef.
Qed.

(** A probe never throws a cancellation on, makes at most three queries
    and no other request, and returns a log exactly when one of its
    queries was answered with a log of the day. *)
Lemma probe_wp userId taskId date :
  wp (getDailyLogByTaskAndDate userId taskId date)
     (probe_post userId taskId (normalizeDate date)).
Proof.
  unfold getDailyLogByTaskAndDate. wp_step.
  apply wp_ensureAuthenticated.
  - destruct (date_next_day (normalizeDate date)) as [next |].
    + eapply wp_mono; [apply probe_loop_spec |].
      intros r evs (rs & -> & Hlen & Hc & Hout). cbn [app].
      now apply probe_post_of_outcome.
    + wp_step. repeat split; cbn; auto.
  - repeat split; cbn; auto.
Qed.

Lemma fetch_failure_Error what error : is_Error (fetch_failure what error).
Proof.
  unfold fetch_failure, accessDenied, is_Error.
  destruct (num_is (get error "status") 400); [eauto |].
  destruct (num_is (get error "status") 403); eauto.
Qed.

(** The prober throws [Error] objects only: the guard's, the engine's or
    those its catch block makes. *)
Lemma probe_Error userId taskId date :
  wp (getDailyLogByTaskAndDate userId taskId date) (fun r _ => thrown_Error r).
Proof.
  unfold getDailyLogByTaskAndDate. wp_step.
  apply wp_ensureAuthenticated; [| cbn; unfold is_Error, authError; eauto].
  destruct (date_next_day (normalizeDate date)) as [next |].
  - eapply wp_mono; [apply probe_loop_spec |].
    intros r evs (rs & _ & _ & _ & Hout). unfold probe_outcome in Hout.
    destruct (List.last rs (inr [])) as [e | items]; [| subst r; exact I].
    destruct (cancelled_and e) as [[|] | why].
    + destruct Hout as [_ ->]. exact I.
    + subst r. apply fetch_failure_Error.
    + subst r. cbn. unfold is_Error, typeError. eauto.
  - wp_step. cbn. unfold is_Error, rangeError. eauto.
Qed.

Lemma probe_wpE userId taskId date :
  wp (getDailyLogByTaskAndDate userId taskId date)
     (fun r evs => probe_post userId taskId (normalizeDate date) r evs /\
                   thrown_Error r).
Proof. apply wp_conj; [apply probe_wp | apply probe_Error]. Qed.

End ProbePost.

(** The reference store answers a query with logs that satisfy its filter,
    so every run on it honours the equality clauses. *)
Lemma in_page_of {A} page perPage (l : list A) x : In x (page_of page perPage l) -> In x l.
Proof.
  unfold page_of. intros H.
  rewrite <- (firstn_skipn ((page - 1) * perPage) l). apply in_or_app. right.
  rewrite <- (firstn_skipn perPage (skipn _ l)). apply in_or_app. now left.
Qed.

Lemma in_insert_desc x r l : In x (insert_desc r l) <-> r = x \/ In x l.
Proof.
  induction l as [| a l IH]; cbn [insert_desc].
  - cbn. tauto.
  - destruct (String.ltb (DailyLog.date r) (DailyLog.date a)); cbn [In].
    + rewrite IH. tauto.
    + tauto.
Qed.

Lemma in_sort_desc x l : In x (sort_desc l) <-> In x l.
Proof.
  induction l as [| a l IH]; cbn [sort_desc fold_right]; [tauto |].
  fold (sort_desc l). rewrite in_insert_desc, IH. cbn. tauto.
Qed.

Lemma in_select page perPage f sort l x :
  In x (select page perPage f sort l) -> In x l /\ matches f x = true.
Proof.
  unfold select. intros H%in_page_of. apply filter_In.
  unfold sorted in H. destruct sort as [key |]; [| exact H].
  destruct (String.eqb key "-date"); [now apply in_sort_desc | exact H].
Qed.

Lemma genuine_honours (ev : Event) : @genuine StoreOps ev -> honours_filter ev.
Proof.
  destruct ev as [c page perPage f sort resp | | | | | |]; cbn; auto.
  destruct c; auto. intros [w H]. cbn [pb_getList StoreOps] in H.
  unfold ref_getList in H. destruct (next_fault w) as [[e |] w']; cbn in H; subst resp;
    [exact I |].
  intros r field v Hr Hc. apply in_select in Hr as [_ Hm].
  unfold matches in Hm. rewrite forallb_forall in Hm. specialize (Hm _ Hc).
  now apply String.eqb_eq in Hm.
Qed.

Lemma store_honours {A} (m : @M StoreOps A) Q (st : @St StoreOps) evs :
  wp m Q -> trace (snd (m st)) = trace st ++ evs -> Forall honours_filter evs.
Proof.
  intros H E. destruct (H st) as (evs' & E' & G & _).
  rewrite E' in E. apply app_inv_head in E. subst evs'.
  revert G. apply List.Forall_impl. exact genuine_honours.
Qed.

Lemma getDailyLogByTaskAndDate_exact_match_witness :
  let st := start (mkStore [noisy_log; clean_log] [] true 2) in
  normalizeDate (DailyLog.date clean_log) = normalizeDate "2024-01-15" /\
  DailyLog.task clean_log = "A" /\ DailyLog.user clean_log = "u1" /\
  fst (@getDailyLogByTaskAndDate StoreOps "u1" "A" "2024-01-15" st) <> Ok (Some noisy_log).
Proof.
  intros st.
  destruct (@getDailyLogByTaskAndDate_exact_match StoreOps "u1" "A" "2024-01-15" st
              clean_log eq_refl) as (evs & E & H1 & _ & H2 & H3).
  split; [exact H1 |].
  destruct (H2 (store_honours _ _ st evs (probe_wp "u1" "A" "2024-01-15") E)) as [Ht Hu].
  split; [exact Ht |]. split; [exact Hu |].
  apply H3. vm_compute. discriminate.
Defined.

(** ** The batch reconciler *)

Section Reconciler.
Context `{B : Backend}.




Lemma queries_only (P : Event -> Prop) evs :
  Forall (fun ev => is_request ev = true -> is_query ev = true) evs ->
  (forall ev, P ev -> is_create ev = true) ->
  ~ Exists P evs.
Proof.
  intros Hq HP Hex. apply List.Exists_exists in Hex as (ev & Hin & Hev).
  rewrite List.Forall_forall in Hq. specialize (Hq ev Hin).
  apply HP in Hev. destruct ev; try discriminate. cbn in Hq. now specialize (Hq eq_refl).
Qed.


Lemma create_rejected_is_create error ev : create_rejected error ev -> is_create ev = true.
Proof. destruct ev; cbn; auto; contradiction. Qed.


Lemma verdict_rangeError : verdict rangeError = Warned.
Proof. reflexivity. Qed.




Lemma covered_task nd logs task :
  negb (bool_decide (Task.id task ∈ existingTaskIds nd logs)) = false ->
  exists x, In x logs /\ same_day nd x = true /\ DailyLog.task x = Task.id task.
Proof.
  intros H. apply negb_false_iff, bool_decide_eq_true in H.
  unfold existingTaskIds in H. apply elem_of_list_to_set, list_elem_of_In in H.
  apply in_map_iff in H as (x & Hx & Hin). apply filter_In in Hin as [Hin Hd].
  eauto.
Qed.

End Reconciler.

Lemma some_not_unique_textual values :
  forallb (fun v => textual (get v "message")) values = true ->
  exists b, some_not_unique values = Answers b.
Proof.
  induction values as [| v values IH]; intros H; [now exists false |].
  cbn [forallb] in H. apply andb_prop in H as [Hv H]. cbn [some_not_unique].
  destruct (has_code v "validation_not_unique"); [now exists true |].
  destruct (get v "message") as [| | c | n | m | fields]; try discriminate; auto.
  destruct (includes "unique" m); [now exists true | auto].
Qed.

Lemma message_not_unique_textual v :
  textual v = true -> exists b, message_not_unique v = Answers b.
Proof. destruct v; try discriminate; cbn; eauto. Qed.

(** The catch block gets through a plain failure: it skips it or reports
    it. *)
Lemma plain_failure_verdict error :
  plain_failure error = true -> verdict error = Skipped \/ verdict error = Warned.
Proof.
  unfold plain_failure. intros H.
  apply andb_prop in H as [H Hv]. apply andb_prop in H as [Hn Hm].
  destruct (some_not_unique_textual _ Hv) as [b Eb].
  destruct (message_not_unique_textual _ Hm) as [b' Eb'].
  assert (Eh : exists h, hasUniqueError_batch error = Answers h).
  { unfold hasUniqueError_batch. cbv zeta.
    destruct (truthy (errorData_of error)); [| eauto].
    destruct (field_not_unique (errorData_of error)); [eauto |].
    destruct (is_object (errorData_of error)); [| eauto].
    rewrite Eb. destruct b; eauto. }
  destruct Eh as [h Eh]. unfold verdict. rewrite Eh.
  destruct (h || _); [now left | right].
  destruct error; try discriminate; reflexivity.
Qed.

Section Isolation.
Context `{B : Backend}.



End Isolation.



(** The run of the witness: the create for B is refused with 403, the logs
    of A and C are created, and the refusal is reported. *)
Example tasks_A_and_C_still_logged :
  let run := @ensureDailyLogsExist StoreOps "u1"
               [task_of "A"; task_of "B"; task_of "C"] "2024-01-15"
               (start refusing_store) in
  fst run = Ok () /\
  map DailyLog.task (logs (world (snd run))) = ["A"; "C"] /\
  warnings (trace (snd run)) =
  ["[ensureDailyLogsExist] Unexpected error creating log for task B:"].
Proof. vm_compute. repeat split. Qed.


(** ** The idempotent creator *)

Section Creator.
Context `{B : Backend}.

Lemma found_by_retrieves userId taskId nd x ev :
  found_by userId taskId nd x ev -> retrieves taskId nd ev.
Proof.
  intros (Hy & _ & Ht & Hd).
  destruct ev as [c ? ? ? ? resp | | | | | |]; try contradiction.
  destruct c; try contradiction. destruct resp as [| items]; [contradiction |].
  destruct Ht as [Ht | Ht].
  - left. split; [exact Ht |]. exists x. auto.
  - right. exists x. repeat split; auto. now apply String.eqb_eq.
Qed.

Lemma retrieves_answers taskId nd ev :
  retrieves taskId nd ev -> answers_with (fun _ => true) nd ev.
Proof.
  intros [[_ H] | H]; [exact H |].
  destruct ev as [c ? ? ? ? resp | | | | | |]; try contradiction.
  destruct c; try contradiction. destruct resp as [| items]; [contradiction |].
  destruct H as (x & H1 & H2 & _). exists x. auto.
Qed.

Lemma queries_app evs1 evs2 :
  length (List.filter is_query (evs1 ++ evs2)) =
  length (List.filter is_query evs1) + length (List.filter is_query evs2).
Proof. now rewrite List.filter_app, List.length_app. Qed.

(** The first probing loop never throws and only queries. *)
Lemma probe_existing_wp userId taskId nd : forall n attempt,
  wp (probe_existing n attempt userId taskId nd)
     (fun r evs =>
        Forall (fun ev => is_request ev = true -> is_query ev = true) evs /\
        exists o, r = Ok o).
Proof.
  induction n as [| n IH]; intros attempt; cbn [probe_existing].
  - wp_step. split; [constructor | eauto].
  - wp_step. wp_step. eapply wp_mono; [apply probe_wpE |].
    intros r1 evs1 ((Hq1 & _ & _) & He1).
    assert (Hnext : forall mid,
              Forall (fun ev => is_request ev = true -> is_query ev = true) mid ->
              wp (probe_existing n (S attempt) userId taskId nd)
                 (fun r evs2 =>
                    Forall (fun ev => is_request ev = true -> is_query ev = true)
                           ((evs1 ++ mid) ++ evs2) /\
                    exists o, r = Ok o)).
    { intros mid Hmid. eapply wp_mono; [apply IH |].
      intros r evs2 [Hq2 Ho]. split; [| exact Ho].
      repeat (apply Forall_app; split); auto. }
    destruct r1 as [[x |] | e].
    + wp_step. rewrite app_nil_r. split; [exact Hq1 | eauto].
    + eapply wp_mono; [apply (Hnext []); constructor |].
      wp_same.
    + rewrite (cancelled_opt_Error _ _ He1). cbv iota beta.
      wp_step. destruct (is_cancelled e && (attempt <? 2)%nat); wp_step.
      * eapply wp_mono; [apply (Hnext [EvSleep (200 * (attempt + 1))]) |].
        -- repeat constructor. discriminate.
        -- wp_same.
      * eapply wp_mono; [apply (Hnext []); constructor |].
        wp_same.
Qed.

(** The re-probing loop never throws, makes at most [3 * n] queries, and
    returns a log exactly when one of its queries retrieved one. *)
Lemma refetch_wp userId taskId nd : forall n attempt,
  wp (refetch n attempt userId taskId nd)
     (fun r evs =>
        Forall (fun ev => is_request ev = true -> is_query ev = true) evs /\
        length (List.filter is_query evs) <= 3 * n /\
        exists o, r = Ok o /\
                  match o with
                  | Some x => Exists (found_by userId taskId (normalizeDate nd) x) evs
                  | None => Forall (fun ev => ~ retrieves taskId (normalizeDate nd) ev) evs
                  end).
Proof.
  induction n as [| n IH]; intros attempt; cbn [refetch].
  - wp_step. split; [constructor |]. split; [cbn; lia |].
    exists None. split; [reflexivity | constructor].
  - wp_step. wp_step. eapply wp_mono; [apply probe_wpE |].
    intros r1 evs1 ((Hq1 & Hn1 & Hr1) & He1).
    assert (Hnext : forall mid,
              Forall (fun ev => is_request ev = true -> is_query ev = true) mid ->
              List.filter is_query mid = [] ->
              Forall (fun ev => ~ retrieves taskId (normalizeDate nd) ev) (evs1 ++ mid) ->
              wp (refetch n (S attempt) userId taskId nd)
                 (fun r evs2 =>
                    Forall (fun ev => is_request ev = true -> is_query ev = true)
                           ((evs1 ++ mid) ++ evs2) /\
                    length (List.filter is_query ((evs1 ++ mid) ++ evs2)) <= 3 * S n /\
                    exists o, r = Ok o /\
                      match o with
                      | Some x => Exists (found_by userId taskId (normalizeDate nd) x)
                                         ((evs1 ++ mid) ++ evs2)
                      | None => Forall (fun ev => ~ retrieves taskId (normalizeDate nd) ev)
                                       ((evs1 ++ mid) ++ evs2)
                      end)).
    { intros mid Hmid Hmq Hno. eapply wp_mono; [apply IH |].
      intros r evs2 (Hq2 & Hn2 & o & -> & Ho).
      split; [repeat (apply Forall_app; split); auto |].
      split; [rewrite !queries_app, Hmq; cbn [length]; lia |].
      exists o. split; [reflexivity |]. destruct o as [x |].
      - apply Exists_app. now right.
      - apply Forall_app. split; [exact Hno | exact Ho]. }
    assert (Hno1 : r1 = Ok None \/ (exists e, r1 = Throw e) ->
                   Forall (fun ev => ~ retrieves taskId (normalizeDate nd) ev) evs1).
    { intros Hr. assert (Hans : Forall (fun ev => ~ answers_with (fun _ => true)
                                                    (normalizeDate nd) ev) evs1).
      { destruct Hr as [-> | [e ->]]; exact Hr1. }
      revert Hans. apply List.Forall_impl. intros ev Hev Hret.
      now apply Hev, (retrieves_answers taskId). }
    destruct r1 as [[x |] | e].
    + wp_step. rewrite app_nil_r. split; [exact Hq1 |]. split; [lia |].
      exists (Some x). split; [reflexivity |].
      revert Hr1. apply List.Exists_impl. tauto.
    + eapply wp_mono; [apply (Hnext []) |].
      * constructor.
      * reflexivity.
      * rewrite app_nil_r. apply Hno1. now left.
      * wp_same.
    + rewrite (cancelled_opt_Error _ _ He1). cbv iota beta.
      wp_step. destruct (is_cancelled e && (attempt <? 2)%nat); wp_step.
      * eapply wp_mono; [apply (Hnext [EvSleep 300]) |].
        -- repeat constructor. discriminate.
        -- reflexivity.
        -- apply Forall_app. split; [apply Hno1; eauto |].
           repeat constructor. intros H. now apply retrieves_answers in H.
        -- wp_same.
      * eapply wp_mono; [apply (Hnext []) |].
        -- constructor.
        -- reflexivity.
        -- rewrite app_nil_r. apply Hno1. eauto.
        -- wp_same.
Qed.

Lemma getDailyLogs_all_wp userId :
  wp (getDailyLogs userId None None)
     (fun r evs =>
        (evs = [] /\ exists e, r = Throw e) \/
        exists resp,
          evs = [EvGetList daily_logs 1 500 [FEq "user" userId] (Some "-date") resp] /\
          match resp with
          | inr items => r = Ok items
          | inl _ => r = Ok [] \/ exists e, r = Throw e
          end).
Proof.
  unfold getDailyLogs. wp_step. apply wp_ensureAuthenticated; [| left; eauto].
  wp_step. wp_step. wp_step. wp_step. wp_step.
  - destruct (cancelled_and error) as [[|] | why]; wp_step; right;
      exists (inl error); eauto.
  - wp_step. right. exists (inr items). eauto.
Qed.

Lemma recover_existing_wp userId taskId nd :
  normalizeDate nd = nd ->
  wp (recover_existing userId taskId nd) (recover_post userId taskId nd).
Proof.
  intros Hnd. unfold recover_existing. wp_step. wp_step. wp_step.
  eapply wp_mono; [apply (refetch_wp userId taskId nd 3 0) |].
  intros r evs1 (Hq1 & Hn1 & o & -> & Ho). rewrite Hnd in Ho.
  destruct o as [x |].
  { wp_step. rewrite app_nil_r. split; [eauto |].
    split; [constructor; [discriminate | exact Hq1] |].
    split; [cbn; lia |]. exists (Some x). split; [reflexivity |].
    apply Exists_cons. now right. }
  assert (Hbase : Forall (fun ev => ~ retrieves taskId nd ev) (EvSleep 300 :: evs1)).
  { constructor; [| exact Ho]. intros H. now apply retrieves_answers in H. }
  wp_step. wp_step. eapply wp_mono; [apply getDailyLogs_all_wp |].
  intros r2 evs2 [[-> (e & ->)] | (resp & -> & Hresp)].
  - wp_step. wp_step. wp_step. rewrite ?app_nil_r, <- ?app_assoc. cbn [app].
    split; [eauto |]. split.
    { constructor; [discriminate |]. apply Forall_app. split; [exact Hq1 |].
      repeat constructor. discriminate. }
    split; [cbn; rewrite queries_app; cbn; lia |].
    exists None. split; [reflexivity |]. constructor; [now inversion Hbase |].
    apply Forall_app. split; [exact Ho |]. repeat constructor.
    intros H. now apply retrieves_answers in H.
  - set (q := EvGetList daily_logs 1 500 [FEq "user" userId] (Some "-date") resp).
    assert (Hq : Forall (fun ev => is_request ev = true -> is_query ev = true)
                        (EvSleep 300 :: evs1 ++ [q])).
    { constructor; [discriminate |]. apply Forall_app. split; [exact Hq1 |].
      repeat constructor. }
    assert (Hn : length (List.filter is_query (EvSleep 300 :: evs1 ++ [q])) <= 10).
    { cbn. rewrite queries_app. cbn. lia. }
    assert (Hnone : forall tl,
              ~ retrieves taskId nd q ->
              Forall (fun ev => ~ retrieves taskId nd ev) tl ->
              Forall (fun ev => ~ retrieves taskId nd ev)
                     (EvSleep 300 :: evs1 ++ q :: tl)).
    { intros tl Hnq Htl. constructor; [now inversion Hbase |].
      apply Forall_app. split; [exact Ho |]. constructor; auto. }
    destruct resp as [e | items].
    + assert (Hnq : ~ retrieves taskId nd q).
      { intros H. now apply retrieves_answers in H. }
      destruct Hresp as [-> | (e' & ->)].
      * wp_step. rewrite ?app_nil_r, <- ?app_assoc. cbn [app].
        split; [eauto |]. split; [exact Hq |]. split; [exact Hn |].
        exists None. split; [reflexivity |]. apply Hnone; [exact Hnq | constructor].
      * wp_step. wp_step. wp_step. rewrite ?app_nil_r, <- ?app_assoc. cbn [app].
        split; [eauto |]. split.
        { constructor; [discriminate |]. apply Forall_app. split; [exact Hq1 |].
          repeat constructor. discriminate. }
        split; [cbn; rewrite queries_app; cbn; lia |].
        exists None. split; [reflexivity |]. apply Hnone; [exact Hnq |].
        repeat constructor. intros H. now apply retrieves_answers in H.
    + subst r2. wp_step. rewrite ?app_nil_r, <- ?app_assoc. cbn [app].
      split; [eauto |]. split; [exact Hq |]. split; [exact Hn |].
      destruct (List.find (same_task_day taskId nd) items) as [m |] eqn:Ef.
      * exists (Some m). split; [reflexivity |].
        apply find_some in Ef as [Hm Hp]. unfold same_task_day in Hp.
        apply andb_prop in Hp as [Ht Hd]. apply String.eqb_eq in Ht.
        apply Exists_cons. right. apply Exists_app. right. constructor.
        unfold found_by. cbn. tauto.
      * exists None. split; [reflexivity |]. apply Hnone; [| constructor].
        intros [[Hask _] | (y & Hy & Hd & Ht)].
        -- cbn in Hask. destruct Hask as [Heq | []]. discriminate Heq.
        -- pose proof (find_none _ _ Ef y Hy) as Hf. unfold same_task_day in Hf.
           rewrite Ht, Hd in Hf. discriminate.
Qed.

Lemma createDailyLogIfNeeded_wp userId taskId date :
  wp (createDailyLogIfNeeded userId taskId date)
     (create_post userId taskId (normalizeDate date)).
Proof.
  unfold createDailyLogIfNeeded. wp_step.
  apply wp_ensureAuthenticated; [| left; constructor].
  wp_step. eapply wp_mono; [apply (probe_existing_wp _ _ _ 3 0) |].
  intros r evs0 (Hq0 & o & ->). destruct o as [log |].
  { wp_step. left. now rewrite app_nil_r. }
  unfold isoDateString. wp_step.
  destruct (date_iso (normalizeDate date +:+ "T00:00:00.000Z")) as [iso |].
  2:{ wp_step. left. now rewrite app_nil_r. }
  wp_step. wp_step. wp_step. wp_step.
  - destruct (taken_as_duplicate error) eqn:Et.
    + eapply wp_mono; [apply recover_existing_wp, normalizeDate_idem |].
      intros r post Hpost. right. exists evs0, iso, (inl error), post.
      rewrite ?app_nil_r, <- ?app_assoc. cbn [app].
      split; [reflexivity |]. split; [exact Hq0 |]. now rewrite Et.
    + wp_step. right. exists evs0, iso, (inl error), [].
      rewrite ?app_nil_r, <- ?app_assoc. cbn [app].
      split; [reflexivity |]. split; [exact Hq0 |]. now rewrite Et.
  - wp_step. right. exists evs0, iso, (inr record), [].
    rewrite ?app_nil_r, <- ?app_assoc. cbn [app].
    split; [reflexivity |]. split; [exact Hq0 |]. auto.
Qed.

Lemma after_create_app pre ev post :
  Forall (fun ev => is_request ev = true -> is_query ev = true) pre ->
  is_create ev = true ->
  after_create (pre ++ ev :: post) = post.
Proof.
  intros Hq Hev. induction pre as [| a pre IH]; cbn [app after_create].
  - now rewrite Hev.
  - inversion Hq as [| ? ? Ha Hq']; subst.
    assert (is_create a = false) as ->.
    { destruct a; try reflexivity. cbn in Ha. now specialize (Ha eq_refl). }
    now apply IH.
Qed.

End Creator.

(** Every error of status 400 that PocketBase's client raises, and so the
    one for a violated unique index, is taken for a duplicate by
    [createDailyLogIfNeeded]. *)
Lemma client_error_400_taken message fields :
  taken_as_duplicate (client_error 400 message fields) = true.
Proof.
  unfold taken_as_duplicate, errorData_of, client_error.
  cbn [get assoc String.eqb Ascii.eqb Bool.eqb num_is Z.eqb Pos.eqb].
  unfold js_or at 2. cbn [truthy]. unfold js_or.
  destruct (truthy (assoc "data" fields)) eqn:E; rewrite ?E; cbn [truthy andb];
    apply orb_true_r.
Qed.

Lemma after_create_Forall (P : Event -> Prop) evs :
  Forall P evs -> Forall P (after_create evs).
Proof.
  induction 1 as [| ev evs' Hev Hevs IH]; cbn [after_create]; [constructor |].
  now destruct (is_create ev).
Qed.

(** A rejected create that is taken for a duplicate is followed by the
    recovery, and by nothing else. *)
Lemma rejected_create_recovers `{B : Backend}
      (userId taskId date : string) (st : St) (error : JsVal) (evs : list Event) :
  trace (snd (createDailyLogIfNeeded userId taskId date st)) = trace st ++ evs ->
  Exists (create_rejected error) evs ->
  taken_as_duplicate error = true ->
  Forall genuine (after_create evs) /\
  recover_post userId taskId (normalizeDate date)
               (fst (createDailyLogIfNeeded userId taskId date st)) (after_create evs).
Proof.
  intros Htr Hrej Htaken.
  destruct (createDailyLogIfNeeded_wp userId taskId date st) as (evs' & E & Hgen & Hpost).
  rewrite E in Htr. apply app_inv_head in Htr. subst evs'.
  split; [now apply after_create_Forall |].
  destruct Hpost as [Hq | (pre & iso & resp & post' & Hevs & Hpre & Hresp)].
  { exfalso. revert Hrej. apply queries_only; [exact Hq | apply create_rejected_is_create]. }
  rewrite Hevs, after_create_app by (exact Hpre || reflexivity).
  rewrite Hevs in Hrej. apply Exists_app in Hrej as [Hrej | Hrej].
  { exfalso. revert Hrej.
    apply queries_only; [exact Hpre | apply create_rejected_is_create]. }
  destruct resp as [e0 | record].
  - destruct (taken_as_duplicate e0) eqn:E0; [exact Hresp |].
    destruct Hresp as [_ ->]. apply Exists_cons in Hrej as [Hrej | Hrej].
    + cbn in Hrej. injection Hrej as ->. congruence.
    + now apply Exists_nil in Hrej.
  - destruct Hresp as [_ ->]. apply Exists_cons in Hrej as [Hrej | Hrej].
    + cbn in Hrej. discriminate.
    + now apply Exists_nil in Hrej.
Qed.

(** ** The recovery, step by step *)

Section Steady.
Context `{B : Backend}.
Hypothesis Hsess : session_kept.

Lemma steady_ret {A} (a : A) : steady (ret a).
Proof. intros st Ha. exact Ha. Qed.

Lemma steady_throw {A} e : steady (@throw B A e).
Proof. intros st Ha. exact Ha. Qed.

Lemma steady_bind {A C} (m : M A) (k : A -> M C) :
  steady m -> (forall a, steady (k a)) -> steady (bind m k).
Proof.
  intros Hm Hk st Ha. specialize (Hm st Ha). unfold bind.
  destruct (m st) as [[a | e] st1]; cbn [snd] in *; [now apply Hk | exact Hm].
Qed.

Lemma steady_catching {A} (m : M A) : steady m -> steady (catching m).
Proof.
  intros Hm st Ha. specialize (Hm st Ha). unfold catching.
  destruct (m st) as [[a | e] st1]; exact Hm.
Qed.

Lemma steady_getList c page perPage f sort : steady (getList c page perPage f sort).
Proof.
  intros st Ha. unfold getList.
  pose proof (proj1 Hsess c page perPage f sort (world st) Ha) as H.
  destruct (pb_getList c page perPage f sort (world st)) as [r w]. exact H.
Qed.

Lemma steady_create c data : steady (create c data).
Proof.
  intros st Ha. unfold create.
  pose proof (proj1 (proj2 Hsess) c data (world st) Ha) as H.
  destruct (pb_create c data (world st)) as [r w]. exact H.
Qed.

Lemma steady_sleep ms : steady (sleep ms).
Proof. intros st Ha. cbn. now apply (proj2 (proj2 Hsess)). Qed.

Lemma steady_console_warn msg detail : steady (console_warn msg detail).
Proof. intros st Ha. exact Ha. Qed.

Lemma steady_ensureAuthenticated : steady ensureAuthenticated.
Proof.
  intros st Ha. unfold ensureAuthenticated.
  destruct (negb (auth_isValid (world st)) || negb (truthy (auth_model (world st))));
    exact Ha.
Qed.

Lemma steady_probe_loop f nd : forall n attempt,
  steady (getDailyLogByTaskAndDate_loop n attempt f nd).
Proof.
  induction n as [| n IH]; intros attempt; cbn [getDailyLogByTaskAndDate_loop].
  - apply steady_ret.
  - apply steady_bind; [apply steady_catching, steady_getList |].
    intros [error | items]; [| apply steady_ret].
    destruct (cancelled_and error) as [[|] | why]; try apply steady_throw.
    destruct (attempt <? 2)%nat; [| apply steady_ret].
    apply steady_bind; [apply steady_sleep | intros ?; apply IH].
Qed.

Lemma steady_probe userId taskId date :
  steady (getDailyLogByTaskAndDate userId taskId date).
Proof.
  unfold getDailyLogByTaskAndDate.
  apply steady_bind; [apply steady_ensureAuthenticated | intros ?].
  destruct (date_next_day (normalizeDate date));
    [apply steady_probe_loop | apply steady_throw].
Qed.

Lemma steady_probe_existing userId taskId nd : forall n attempt,
  steady (probe_existing n attempt userId taskId nd).
Proof.
  induction n as [| n IH]; intros attempt; cbn [probe_existing].
  - apply steady_ret.
  - apply steady_bind; [apply steady_catching, steady_probe |].
    intros [e | [x |]]; [| apply steady_ret | apply IH].
    destruct (cancelled_opt "checkError" e) as [cancelled | why];
      [| apply steady_throw].
    apply steady_bind; [| intros ?; apply IH].
    destruct (cancelled && (attempt <? 2)%nat); [apply steady_sleep | apply steady_ret].
Qed.

End Steady.

Lemma bind_catching_run `{B : Backend} {A C} (m : M A) (k : JsVal + A -> M C) (st : St) :
  bind (catching m) k st =
  k match fst (m st) with Ok a => inr a | Throw e => inl e end (snd (m st)).
Proof. unfold bind, catching. destruct (m st) as [[a | e] st1]; reflexivity. Qed.

Lemma bind_sleep_run `{B : Backend} {C} ms (k : () -> M C) (st : St) :
  bind (sleep ms) k st = k () (emit (EvSleep ms) (timer ms (world st)) st).
Proof. reflexivity. Qed.

Lemma bind_ok_run `{B : Backend} {A C} (m : M A) (k : A -> M C) (st : St) a :
  fst (m st) = Ok a -> bind m k st = k a (snd (m st)).
Proof. unfold bind. destruct (m st) as [r st1]. cbn. now intros ->. Qed.

Section Recovery.
Context `{B : Backend}.
Hypothesis Hsess : session_kept.
Variables (userId taskId nd nextDateStr : string).
Hypothesis Hnd : normalizeDate nd = nd.
Hypothesis Hnext : date_next_day nd = Some nextDateStr.

Let f := probe_filter userId taskId nd nextDateStr.

(** One probe of a signed-in user, in full. *)
Lemma probe_run (st : St) :
  authenticated (world st) = true ->
  exists rs,
    probe_events f rs (with_backoff f 1 rs) /\
    trace (snd (getDailyLogByTaskAndDate userId taskId nd st)) =
    trace st ++ with_backoff f 1 rs /\
    probe_outcome nd rs (fst (getDailyLogByTaskAndDate userId taskId nd st)) /\
    thrown_Error (fst (getDailyLogByTaskAndDate userId taskId nd st)) /\
    authenticated (world (snd (getDailyLogByTaskAndDate userId taskId nd st))) = true.
Proof.
  intros Ha.
  assert (Hd : date_next_day (normalizeDate nd) = Some nextDateStr) by now rewrite Hnd.
  destruct (probe_spec userId taskId nd st nextDateStr Ha Hd)
    as (rs & Htr & Hlen & Hc & Hout).
  rewrite Hnd in Htr, Hout. fold f in Htr.
  destruct (probe_Error userId taskId nd st) as (evs & _ & _ & He).
  exists rs. split; [repeat split; auto; lia |].
  split; [exact Htr |]. split; [exact Hout |]. split; [exact He |].
  now apply steady_probe.
Qed.

Lemma outcome_found rs x : probe_outcome nd rs (Ok (Some x)) -> resolved nd rs x.
Proof.
  unfold probe_outcome, resolved. destruct (List.last rs (inr [])) as [e | items].
  - destruct (cancelled_and e) as [[|] | why]; [intros [_ H] | intros H | intros H];
      discriminate.
  - intros [= H]. eauto.
Qed.

Lemma outcome_none rs : probe_outcome nd rs (Ok None) -> unresolved nd rs.
Proof.
  unfold probe_outcome, unresolved. destruct (List.last rs (inr [])) as [e | items];
    [auto |].
  intros [= H]. now symmetry.
Qed.

Lemma outcome_thrown rs e :
  probe_outcome nd rs (Throw e) ->
  unresolved nd rs /\ exists e', List.last rs (inr []) = inl e'.
Proof.
  unfold probe_outcome, unresolved. destruct (List.last rs (inr [])) as [e' | items];
    [eauto | discriminate].
Qed.

(** The re-probing loop of a signed-in user, in full. *)
Lemma refetch_reprobed : forall n attempt (st : St),
  authenticated (world st) = true ->
  exists evs o,
    fst (refetch n attempt userId taskId nd st) = Ok o /\
    trace (snd (refetch n attempt userId taskId nd st)) = trace st ++ evs /\
    authenticated (world (snd (refetch n attempt userId taskId nd st))) = true /\
    reprobed f nd n evs o.
Proof.
  induction n as [| n IH]; intros attempt st Ha.
  { exists [], None. cbn. rewrite app_nil_r. repeat split; auto. constructor. }
  destruct (probe_run st Ha) as (rs & Hev & Htr & Hout & Herr & Ha1).
  cbn [refetch]. rewrite bind_catching_run.
  destruct (getDailyLogByTaskAndDate userId taskId nd st) as [r1 st1].
  cbn [fst snd] in *. destruct r1 as [[x |] | e].
  - exists (with_backoff f 1 rs), (Some x). cbn. repeat split; auto.
    apply (reprobed_found f nd n rs); [exact Hev | now apply outcome_found].
  - destruct (IH (S attempt) st1 Ha1) as (evs2 & o & Hr & Htr2 & Ha2 & Hrep).
    exists (with_backoff f 1 rs ++ [] ++ evs2), o. cbn [app].
    split; [exact Hr |]. split; [now rewrite Htr2, Htr, app_assoc |].
    split; [exact Ha2 |].
    apply (reprobed_again f nd n rs (with_backoff f 1 rs) [] evs2 o); auto.
    now apply outcome_none.
  - destruct (outcome_thrown rs e Hout) as [Hun Hlast].
    rewrite (cancelled_opt_Error _ _ Herr). cbv iota beta.
    destruct (is_cancelled e && (attempt <? 2)%nat).
    + rewrite bind_sleep_run.
      set (st2 := emit (EvSleep 300) (timer 300 (world st1)) st1).
      assert (Ha2 : authenticated (world st2) = true).
      { cbn. now apply (proj2 (proj2 Hsess)). }
      destruct (IH (S attempt) st2 Ha2) as (evs2 & o & Hr & Htr2 & Ha3 & Hrep).
      exists (with_backoff f 1 rs ++ [EvSleep 300] ++ evs2), o.
      split; [exact Hr |]. split.
      { rewrite Htr2. cbn [st2 emit trace]. rewrite Htr, <- !app_assoc. reflexivity. }
      split; [exact Ha3 |].
      apply (reprobed_again f nd n rs); auto.
    + change (bind (ret ()) ?k st1) with (k () st1). cbv beta.
      destruct (IH (S attempt) st1 Ha1) as (evs2 & o & Hr & Htr2 & Ha2 & Hrep).
      exists (with_backoff f 1 rs ++ [] ++ evs2), o. cbn [app].
      split; [exact Hr |]. split; [now rewrite Htr2, Htr, app_assoc |].
      split; [exact Ha2 |].
      apply (reprobed_again f nd n rs (with_backoff f 1 rs) [] evs2 o); auto.
Qed.

(** The fallback of a signed-in user, in full. *)
Lemma fallback_scanned (st : St) :
  authenticated (world st) = true ->
  let k := fun r : JsVal + list DailyLog.t =>
             match r with
             | inr allLogs => ret (List.find (same_task_day taskId nd) allLogs)
             | inl _ =>
                 bind (console_warn
                         "Record exists but could not be retrieved. Caller should reload data."
                         JUndef) (fun _ => ret None)
             end in
  exists evs o,
    fst (bind (catching (getDailyLogs userId None None)) k st) = Ok o /\
    trace (snd (bind (catching (getDailyLogs userId None None)) k st)) = trace st ++ evs /\
    scanned userId taskId nd evs o.
Proof.
  intros Ha k.
  assert (E : getDailyLogs userId None None st =
              bind (catching (getList daily_logs 1 500 [FEq "user" userId] (Some "-date")))
                   (fun r => match r with
                             | inr items => ret items
                             | inl error =>
                                 match cancelled_and error with
                                 | Raises why => throw (typeError why)
                                 | Answers true => ret []
                                 | Answers false =>
                                     throw (fetch_failure "Failed to fetch daily logs: "
                                                          error)
                                 end
                             end) st).
  { unfold getDailyLogs. rewrite guarded_ok by exact Ha. reflexivity. }
  rewrite bind_catching_run, E, bind_catching_run. unfold getList.
  destruct (pb_getList daily_logs 1 500 [FEq "user" userId] (Some "-date") (world st))
    as [[e | items] w]; cbn [of_resp fst snd].
  - destruct (cancelled_and e) as [[|] | why] eqn:Ec.
    + exists [all_logs_query userId (inl e)], None. cbn.
      repeat split; auto. exists (inl e). split; [reflexivity |].
      now rewrite (cancelled_and_answer _ _ Ec).
    + exists [all_logs_query userId (inl e);
              EvWarn "Record exists but could not be retrieved. Caller should reload data."
                     JUndef], None.
      cbn. rewrite <- app_assoc. repeat split; auto.
      exists (inl e). split; [reflexivity |].
      now rewrite (cancelled_and_answer _ _ Ec).
    + exists [all_logs_query userId (inl e);
              EvWarn "Record exists but could not be retrieved. Caller should reload data."
                     JUndef], None.
      cbn. rewrite <- app_assoc. repeat split; auto.
      exists (inl e). split; [reflexivity |].
      now rewrite (cancelled_and_raises _ _ Ec).
  - exists [all_logs_query userId (inr items)], (List.find (same_task_day taskId nd) items).
    cbn. repeat split; auto. exists (inr items). auto.
Qed.

(** The recovery of a signed-in user, in full. *)
Lemma recover_existing_recovered (st : St) :
  authenticated (world st) = true ->
  exists post o,
    fst (recover_existing userId taskId nd st) = Ok o /\
    trace (snd (recover_existing userId taskId nd st)) = trace st ++ post /\
    recovered userId taskId nd nextDateStr post o.
Proof.
  intros Ha. unfold recover_existing. rewrite bind_sleep_run.
  set (st1 := emit (EvSleep 300) (timer 300 (world st)) st).
  assert (Ha1 : authenticated (world st1) = true).
  { cbn. now apply (proj2 (proj2 Hsess)). }
  destruct (refetch_reprobed 3 0 st1 Ha1) as (probes & o1 & Hr & Htr & Ha2 & Hrep).
  rewrite (bind_ok_run _ _ st1 o1 Hr).
  destruct (refetch 3 0 userId taskId nd st1) as [r2 st2]. cbn [fst snd] in *.
  subst r2. destruct o1 as [x |].
  - exists (EvSleep 300 :: probes ++ []), (Some x). cbn [ret fst snd].
    split; [reflexivity |]. split.
    { rewrite Htr, app_nil_r. cbn [st1 emit trace]. now rewrite <- app_assoc. }
    exists probes, []. split; [reflexivity |]. left. eauto.
  - destruct (fallback_scanned st2 Ha2) as (rest & o & Hr2 & Htr2 & Hscan).
    cbv zeta in Hr2, Htr2.
    exists (EvSleep 300 :: probes ++ rest), o.
    split; [exact Hr2 |]. split.
    { rewrite Htr2, Htr. cbn [st1 emit trace]. now rewrite <- !app_assoc. }
    exists probes, rest. split; [reflexivity |]. right. auto.
Qed.

End Recovery.

(** A rejected create that is taken for a duplicate hands over to the
    recovery, with the user still signed in. *)
Lemma rejected_create_hands_over `{B : Backend}
      (userId taskId date : string) (st : St) (error : JsVal) (evs : list Event) :
  session_kept ->
  trace (snd (createDailyLogIfNeeded userId taskId date st)) = trace st ++ evs ->
  Exists (create_rejected error) evs ->
  taken_as_duplicate error = true ->
  exists st1 pre,
    authenticated (world st1) = true /\
    trace st1 = trace st ++ pre /\
    (forall post, after_create (pre ++ post) = post) /\
    createDailyLogIfNeeded userId taskId date st =
    recover_existing userId taskId (normalizeDate date) st1.
Proof.
  intros Hsess Htr Hrej Htaken. set (nd := normalizeDate date).
  destruct (authenticated (world st)) eqn:Ha.
  2:{ exfalso. unfold createDailyLogIfNeeded in Htr.
      rewrite guarded_fails in Htr by exact Ha. cbn [snd] in Htr.
      rewrite <- (app_nil_r (trace st)) in Htr at 1. apply app_inv_head in Htr.
      subst evs. now apply Exists_nil in Hrej. }
  unfold createDailyLogIfNeeded in *. rewrite guarded_ok in * by exact Ha. fold nd in Htr |- *.
  destruct (probe_existing_wp userId taskId nd 3 0 st) as (evs0 & E0 & _ & Hq0 & o & Ho).
  pose proof (steady_probe_existing Hsess userId taskId nd 3 0 st Ha) as Ha0.
  unfold bind at 1 in Htr. unfold bind at 1.
  destruct (probe_existing 3 0 userId taskId nd st) as [r0 st0]. cbn [fst snd] in *.
  subst r0.
  assert (Hnone : forall tl, Forall (fun ev => is_request ev = true -> is_query ev = true) tl ->
                             evs = evs0 ++ tl -> False).
  { intros tl Htl ->. revert Hrej.
    apply queries_only; [now apply Forall_app | apply create_rejected_is_create]. }
  destruct o as [log |].
  { exfalso. cbn [ret snd] in Htr. rewrite E0 in Htr. apply app_inv_head in Htr.
    apply (Hnone []); [constructor | now rewrite app_nil_r]. }
  unfold isoDateString in *.
  destruct (date_iso (nd +:+ "T00:00:00.000Z")) as [iso |].
  2:{ exfalso. cbn in Htr. rewrite E0 in Htr. apply app_inv_head in Htr.
      apply (Hnone []); [constructor | now rewrite app_nil_r]. }
  unfold bind at 1 in Htr. unfold ret at 1 in Htr. unfold bind at 1, ret at 1.
  unfold bind at 1 in Htr. unfold bind at 1. unfold catching, create in *.
  pose proof (proj1 (proj2 Hsess) daily_logs (logData taskId iso userId) (world st0) Ha0)
    as Ha1.
  destruct (pb_create daily_logs (logData taskId iso userId) (world st0)) as [resp w1].
  cbn [snd] in Ha1. cbn [of_resp] in *.
  set (ev := EvCreate daily_logs (logData taskId iso userId) resp) in *.
  assert (Hafter : forall post, after_create ((evs0 ++ [ev]) ++ post) = post).
  { intros post. rewrite <- app_assoc. cbn [app].
    now apply after_create_app. }
  assert (Hlast : forall tl, (forall e', In e' tl -> is_create e' = false) ->
                             evs = evs0 ++ ev :: tl -> resp = inl error).
  { intros tl Htl ->. apply Exists_app in Hrej as [Hrej | Hrej].
    - exfalso. revert Hrej.
      apply queries_only; [exact Hq0 | apply create_rejected_is_create].
    - apply Exists_cons in Hrej as [Hrej | Hrej]; [exact Hrej |].
      apply List.Exists_exists in Hrej as (e' & Hin & He').
      apply create_rejected_is_create in He'. rewrite (Htl e' Hin) in He'.
      discriminate. }
  destruct resp as [e1 | record]; cbn [of_resp] in Htr |- *; cbv iota beta in Htr |- *.
  - destruct (taken_as_duplicate e1) eqn:E1.
    + exists (emit ev w1 st0), (evs0 ++ [ev]).
      split; [exact Ha1 |]. split; [cbn; now rewrite E0, app_assoc |].
      split; [exact Hafter | reflexivity].
    + exfalso. cbn in Htr. rewrite E0, <- app_assoc in Htr. apply app_inv_head in Htr.
      assert (inl e1 = inl error :> JsVal + DailyLog.t) as [= ->].
      { apply (Hlast []); [intros e' [] | now symmetry]. }
      congruence.
  - exfalso. cbn in Htr. rewrite E0, <- app_assoc in Htr. apply app_inv_head in Htr.
    assert (inr record = inl error :> JsVal + DailyLog.t) as Habs.
    { apply (Hlast []); [intros e' [] | now symmetry]. }
    discriminate.
Qed.

(** A log found by a query whose answer honours its equality clauses is a
    log of the user, the task and the day asked for. *)
Lemma found_by_key userId taskId nd x ev :
  found_by userId taskId nd x ev -> honours_filter ev ->
  DailyLog.task x = taskId /\ DailyLog.user x = userId /\
  normalizeDate (DailyLog.date x) = nd.
Proof.
  intros (Hy & Hu & Ht & Hd) Hh.
  assert (Hday : normalizeDate (DailyLog.date x) = nd)
    by (unfold same_day in Hd; now apply String.eqb_eq in Hd).
  destruct ev as [c ? ? f ? resp' | | | | | |]; try contradiction.
  destruct c; try contradiction. destruct resp' as [| items]; [contradiction |].
  cbn in Hy, Hu, Ht, Hh. split; [| split; [| exact Hday]].
  - destruct Ht as [Ht | Ht]; [apply (Hh x "task" taskId Hy Ht) | exact Ht].
  - apply (Hh x "user" userId Hy Hu).
Qed.

Lemma store_session_kept : @session_kept StoreOps.
Proof.
  unfold session_kept, authenticated. cbn [auth_isValid auth_model pb_getList pb_create
                                            timer StoreOps].
  assert (Hf : forall s, signed_in (snd (next_fault s)) = signed_in s).
  { intros s. unfold next_fault. destruct (faults s); reflexivity. }
  split; [| split].
  - intros c page perPage f sort w H. unfold ref_getList.
    specialize (Hf w). destruct (next_fault w) as [[e |] w']; cbn [snd] in *;
      [now rewrite Hf |].
    destruct c; cbn [snd]; now rewrite Hf.
  - intros c data w H. unfold ref_create.
    specialize (Hf w). destruct (next_fault w) as [[e |] w']; cbn [snd] in *;
      [now rewrite Hf |].
    destruct c; cbn [snd]; try (now rewrite Hf).
    destruct (new_log w' data); cbn [snd]; [| now rewrite Hf].
    destruct (existsb _ (logs w')); cbn [snd signed_in]; now rewrite Hf.
  - intros ms w H. exact H.
Qed.

(** C1 (recovery from a lost race): when the create of
    [createDailyLogIfNeeded] is rejected with an error that the function
    takes for a duplicate, as it does every status-400 error of the store
    and so the violation of the unique index, the call does not throw, and
    what follows the create is the recovery of lines 396-433 and nothing
    else.  With the session kept and the day a date, the recovery is, step
    by step: a wait of 300 ms; then up to three re-probes, each a probe of
    one to three queries for the user, the task and the day's range, the
    next one started only when the one before found no log of the day,
    after a further wait of 300 ms if that one threw a cancellation on;
    and, only when all three found nothing, the query for all logs of the
    user, whose answer is scanned for the first log of the task and the
    day.  The log returned is the one that the first successful retrieval
    found, and "not found" is returned only after the three re-probes and
    the scan have all failed.  Whatever the backend: after the create the
    call only queries, at most ten times; it returns "not found" exactly
    when none of these queries retrieved a log of the task and day, and
    otherwise a log that one of them retrieved: a log of the requested day,
    of the requested task and user when the answers honour their
    queries. *)
Theorem createDailyLogIfNeeded_duplicate_recovery `{B : Backend}
        (userId taskId date : string) (st : St) (error : JsVal) (evs : list Event) :
  let run := createDailyLogIfNeeded userId taskId date st in
  let nd := normalizeDate date in
  trace (snd run) = trace st ++ evs ->
  Exists (create_rejected error) evs ->
  taken_as_duplicate error = true ->
  let post := after_create evs in
  exists o,
    fst run = Ok o /\
    (session_kept ->
     forall nextDateStr, date_next_day nd = Some nextDateStr ->
                         recovered userId taskId nd nextDateStr post o) /\
    (exists tl, post = EvSleep 300 :: tl) /\
    Forall (fun ev => is_request ev = true -> is_query ev = true) post /\
    length (List.filter is_query post) <= 10 /\
    (o = None <-> ~ Exists (retrieves taskId nd) post) /\
    (forall x, o = Some x ->
               Exists (found_by userId taskId nd x) post /\
               normalizeDate (DailyLog.date x) = nd /\
               (Forall honours_filter post ->
                DailyLog.task x = taskId /\ DailyLog.user x = userId)).
Proof.
  intros run nd Htr Hrej Htaken post.
  destruct (rejected_create_recovers userId taskId date st error evs Htr Hrej Htaken)
    as [_ (Hsl & Hq & Hn & o & Hr & Ho)].
  fold run in Hr. fold nd in Ho. fold post in Hsl, Hq, Hn, Ho.
  exists o. split; [exact Hr |]. split.
  { intros Hsess next Hnext.
    destruct (rejected_create_hands_over userId taskId date st error evs
                Hsess Htr Hrej Htaken) as (st1 & pre & Ha1 & Etr1 & Hafter & Erun).
    fold run nd in Erun.
    destruct (recover_existing_recovered Hsess userId taskId nd next
                (normalizeDate_idem date) Hnext st1 Ha1)
      as (post' & o' & Hr' & Etr' & Hrec).
    rewrite <- Erun in Hr', Etr'. rewrite Hr in Hr'. injection Hr' as <-.
    rewrite Htr, Etr1, <- app_assoc in Etr'. apply app_inv_head in Etr'.
    unfold post. now rewrite Etr', Hafter. }
  split; [exact Hsl |]. split; [exact Hq |]. split; [exact Hn |]. split.
  - split.
    + intros ->. now apply Forall_Exists_neg.
    + intros Hno. destruct o as [x |]; [exfalso | reflexivity].
      apply Hno. revert Ho. apply List.Exists_impl. apply found_by_retrieves.
  - intros x ->. split; [exact Ho |].
    apply List.Exists_exists in Ho as (ev & Hin & Hfound).
    split; [destruct Hfound as (_ & _ & _ & Hd);
            unfold same_day in Hd; now apply String.eqb_eq in Hd |].
    intros Hh. rewrite List.Forall_forall in Hh.
    destruct (found_by_key _ _ _ _ _ Hfound (Hh ev Hin)) as (Ht & Hu & _). now split.
Qed.

Example race_lost_then_recovered :
  let run := @createDailyLogIfNeeded StoreOps "u1" "A" "2024-01-15" (start racing_store) in
  fst run = Ok (Some clean_log) /\
  List.filter is_create (trace (snd run)) =
  [EvCreate daily_logs (logData "A" "2024-01-15T00:00:00.000Z" "u1") (inl not_unique)] /\
  logs (world (snd run)) = [clean_log].
Proof. vm_compute. repeat split. Qed.

Lemma Exists_at {A} (P : A -> Prop) (l : list A) (n : nat) (x : A) :
  nth_error l n = Some x -> P x -> Exists P l.
Proof.
  revert n. induction l as [| a l IH]; intros [| n] H Hx; try discriminate.
  - injection H as ->. now constructor.
  - apply Exists_cons_tl. now apply (IH n).
Qed.

Lemma createDailyLogIfNeeded_duplicate_recovery_witness :
  let run := @createDailyLogIfNeeded StoreOps "u1" "A" "2024-01-15" (start racing_store) in
  fst run = Ok (Some clean_log) /\
  recovered "u1" "A" "2024-01-15" "2024-01-16" (after_create (trace (snd run)))
            (Some clean_log).
Proof.
  intros run.
  assert (Hex : Exists (create_rejected not_unique) (trace (snd run))).
  { apply (Exists_at _ _ 15
             (EvCreate daily_logs (logData "A" "2024-01-15T00:00:00.000Z" "u1")
                       (inl not_unique))).
    - vm_compute. reflexivity.
    - reflexivity. }
  destruct (@createDailyLogIfNeeded_duplicate_recovery StoreOps "u1" "A" "2024-01-15"
              (start racing_store) not_unique (trace (snd run))
              eq_refl Hex (client_error_400_taken _ _))
    as (o & H1 & H2 & _).
  assert (Hrun : fst run = Ok (Some clean_log)) by (vm_compute; reflexivity).
  split; [exact Hrun |].
  fold run in H1. rewrite Hrun in H1. injection H1 as <-.
  apply H2; [exact store_session_kept | reflexivity].
Defined.

(** The recovery of the witness: after the wait, the first re-probe is
    answered with the winner. *)
Example recovery_first_reprobe :
  let run := @createDailyLogIfNeeded StoreOps "u1" "A" "2024-01-15" (start racing_store) in
  after_create (trace (snd run)) =
  [EvSleep 300;
   probe_query (probe_filter "u1" "A" "2024-01-15" "2024-01-16") (inr [clean_log])].
Proof. vm_compute. reflexivity. Qed.

(** The recovery when the three re-probes are refused: the scan of all logs
    of the user finds the winner. *)
Example recovery_by_the_scan :
  let refused := [Some forbidden; Some forbidden; Some forbidden] in
  let s := with_faults (nine_cancellations ++ None :: refused) racing_store in
  let f := probe_filter "u1" "A" "2024-01-15" "2024-01-16" in
  let run := @createDailyLogIfNeeded StoreOps "u1" "A" "2024-01-15" (start s) in
  fst run = Ok (Some clean_log) /\
  after_create (trace (snd run)) =
  [EvSleep 300; probe_query f (inl forbidden); probe_query f (inl forbidden);
   probe_query f (inl forbidden); all_logs_query "u1" (inr [clean_log])].
Proof. vm_compute. split; reflexivity. Qed.

(** The recovery when every retrieval fails: "not found", after the three
    re-probes and the scan, and the console is told. *)
Example recovery_gives_up :
  let refused := [Some forbidden; Some forbidden; Some forbidden; Some forbidden] in
  let s := with_faults (nine_cancellations ++ None :: refused) racing_store in
  let f := probe_filter "u1" "A" "2024-01-15" "2024-01-16" in
  let run := @createDailyLogIfNeeded StoreOps "u1" "A" "2024-01-15" (start s) in
  fst run = Ok None /\
  after_create (trace (snd run)) =
  [EvSleep 300; probe_query f (inl forbidden); probe_query f (inl forbidden);
   probe_query f (inl forbidden); all_logs_query "u1" (inl forbidden);
   EvWarn "Record exists but could not be retrieved. Caller should reload data." JUndef].
Proof. vm_compute. split; reflexivity. Qed.

(** ** On the reference store *)

Lemma logData_fields t i u :
  logData t i u !! "task" = Some (JStr t) /\
  logData t i u !! "date" = Some (JStr i) /\
  logData t i u !! "user" = Some (JStr u) /\
  logData t i u !! "value_bool" = Some (JBool false) /\
  logData t i u !! "value_number" = None /\
  logData t i u !! "note" = None.
Proof. unfold logData. repeat split; reflexivity. Qed.

Lemma matches_probe u t nd next r :
  matches (probe_filter u t nd next) r = true <->
  DailyLog.user r = u /\ DailyLog.task r = t /\
  String.leb nd (DailyLog.date r) = true /\ String.ltb (DailyLog.date r) next = true.
Proof.
  unfold matches, probe_filter. cbn [forallb clause_holds].
  change (log_field r "user") with (DailyLog.user r).
  change (log_field r "task") with (DailyLog.task r).
  change (log_field r "date") with (DailyLog.date r).
  rewrite !andb_true_iff, !String.eqb_eq. tauto.
Qed.

Section OnStore.
Variables (userId normalizedDate nextDateStr : string).
Hypothesis Hnext : utc_next_day normalizedDate = Some nextDateStr.
Hypothesis Hnorm : normalizeDate normalizedDate = normalizedDate.
Hypothesis Hiso : utc_iso (normalizedDate +:+ "T00:00:00.000Z") =
                  Some (normalizedDate +:+ "T00:00:00.000Z").
Hypothesis Hge : String.leb normalizedDate (normalizedDate +:+ "T00:00:00.000Z") = true.
Hypothesis Hlt : String.ltb (normalizedDate +:+ "T00:00:00.000Z") nextDateStr = true.

Local Abbreviation iso := (normalizedDate +:+ "T00:00:00.000Z").
Local Abbreviation pf taskId := (probe_filter userId taskId normalizedDate nextDateStr).

Lemma probe_on_store (st : @St StoreOps) taskId :
  faults (world st) = [] -> signed_in (world st) = true ->
  @getDailyLogByTaskAndDate StoreOps userId taskId normalizedDate st =
  let f := probe_filter userId taskId normalizedDate nextDateStr in
  let items := select 1 10 f None (logs (world st)) in
  (Ok (List.find (same_day normalizedDate) items),
   @mkSt StoreOps (world st) (trace st ++ [probe_query f (inr items)])).
Proof.
  intros Hf Hs. unfold getDailyLogByTaskAndDate.
  rewrite guarded_ok by (unfold authenticated; cbn; now rewrite Hs).
  rewrite Hnorm. cbn [date_next_day StoreOps]. rewrite Hnext.
  cbn [getDailyLogByTaskAndDate_loop]. unfold bind, catching, getList.
  cbn [pb_getList StoreOps]. unfold ref_getList, next_fault. rewrite Hf.
  reflexivity.
Qed.

Lemma select_probe f l : select 1 10 f None l = firstn 10 (List.filter (matches f) l).
Proof. reflexivity. Qed.

Lemma hits_covered taskId s x rest :
  List.filter (matches (pf taskId)) (logs s) = x :: rest ->
  In x (logs s) /\ matches (pf taskId) x = true.
Proof.
  intros H. apply filter_In. rewrite H. now left.
Qed.

Lemma covered_hits taskId s :
  covered userId taskId normalizedDate nextDateStr s ->
  exists x rest, List.filter (matches (pf taskId)) (logs s) = x :: rest.
Proof.
  intros (r & Hin & Hm).
  destruct (List.filter (matches (pf taskId)) (logs s)) as [| x rest] eqn:E; [| eauto].
  assert (In r []) as [].
  rewrite <- E. apply filter_In. auto.
Qed.

(** The double-check finds a log when the store holds a matching one, after
    one query; otherwise it gives up after two. *)
Lemma double_check_hit (st : @St StoreOps) taskId x rest :
  faults (world st) = [] -> signed_in (world st) = true ->
  noise_free userId normalizedDate nextDateStr (world st) ->
  List.filter (matches (pf taskId)) (logs (world st)) = x :: rest ->
  @double_check StoreOps 2 0 userId taskId normalizedDate st =
  (Ok (Some x),
   @mkSt StoreOps (world st)
     (trace st ++ [probe_query (pf taskId) (inr (firstn 10 (x :: rest)))])).
Proof.
  intros Hf Hs Hclean Hhits. cbn [double_check]. unfold bind, catching.
  rewrite probe_on_store by assumption. cbn zeta. rewrite select_probe.
  rewrite Hhits. cbn [firstn List.find].
  destruct (hits_covered _ _ _ _ Hhits) as [Hin Hm].
  apply matches_probe in Hm as (Hu & _ & H1 & H2).
  rewrite (Hclean x Hin Hu H1 H2). reflexivity.
Qed.

Lemma double_check_miss (st : @St StoreOps) taskId :
  faults (world st) = [] -> signed_in (world st) = true ->
  List.filter (matches (pf taskId)) (logs (world st)) = [] ->
  @double_check StoreOps 2 0 userId taskId normalizedDate st =
  (Ok None,
   @mkSt StoreOps (world st)
     (trace st ++ [probe_query (pf taskId) (inr []); probe_query (pf taskId) (inr [])])).
Proof.
  intros Hf Hs Hhits. cbn [double_check]. unfold bind, catching.
  rewrite probe_on_store by assumption. cbn zeta. rewrite select_probe.
  rewrite Hhits. cbn [firstn List.find].
  rewrite probe_on_store by assumption. cbn zeta. rewrite select_probe.
  cbn [world]. rewrite Hhits. cbn [firstn List.find trace].
  unfold ret. now rewrite <- app_assoc.
Qed.

Lemma reconcile_task_hit (st : @St StoreOps) task x rest :
  faults (world st) = [] -> signed_in (world st) = true ->
  noise_free userId normalizedDate nextDateStr (world st) ->
  List.filter (matches (pf (Task.id task))) (logs (world st)) = x :: rest ->
  @reconcile_task StoreOps userId normalizedDate task st =
  (Ok (),
   @mkSt StoreOps (world st)
     (trace st ++ [probe_query (pf (Task.id task)) (inr (firstn 10 (x :: rest)))])).
Proof.
  intros Hf Hs Hclean Hhits. unfold reconcile_task, bind, catching.
  now rewrite (double_check_hit st (Task.id task) x rest).
Qed.

Lemma reconcile_task_miss (st : @St StoreOps) task :
  faults (world st) = [] -> signed_in (world st) = true ->
  List.filter (matches (pf (Task.id task))) (logs (world st)) = [] ->
  let s := world st in
  let r0 := default_log s (Task.id task) iso userId in
  @reconcile_task StoreOps userId normalizedDate task st =
  (Ok (),
   @mkSt StoreOps
     (mkStore (logs s ++ [r0]) (faults s) (signed_in s) (S (serial s)))
     (trace st ++ [probe_query (pf (Task.id task)) (inr []);
                   probe_query (pf (Task.id task)) (inr []);
                   EvCreate daily_logs (logData (Task.id task) iso userId) (inr r0)])).
Proof.
  intros Hf Hs Hhits s r0. unfold reconcile_task, bind, catching.
  rewrite (double_check_miss st (Task.id task)) by assumption.
  unfold isoDateString. cbn [date_iso StoreOps]. rewrite Hiso.
  unfold ret, create, emit. cbn [world trace pb_create StoreOps].
  unfold ref_create, next_fault. rewrite Hf. unfold new_log.
  destruct (logData_fields (Task.id task) iso userId)
    as (-> & -> & -> & -> & -> & ->).
  cbn [as_str as_bool as_num DailyLog.task DailyLog.date DailyLog.user].
  destruct (existsb (same_key (Task.id task) iso userId) (logs (world st))) eqn:E.
  - exfalso. apply existsb_exists in E as (r & Hin & Hk). unfold same_key in Hk.
    apply andb_prop in Hk as [Hk Hu]. apply andb_prop in Hk as [Ht Hd].
    apply String.eqb_eq in Ht, Hd, Hu.
    assert (In r []) as [].
    rewrite <- Hhits. apply filter_In. split; [exact Hin |].
    apply matches_probe. rewrite Hd. auto.
  - cbn [of_resp fst snd]. rewrite <- app_assoc. reflexivity.
Qed.

Lemma creates_snoc tr ev :
  is_create ev = false ->
  List.filter is_create (tr ++ [ev]) = List.filter is_create tr.
Proof. intros H. rewrite List.filter_app. cbn. rewrite H. apply app_nil_r. Qed.

Lemma covered_incl taskId (s s' : Store) :
  (forall r, In r (logs s) -> In r (logs s')) ->
  covered userId taskId normalizedDate nextDateStr s ->
  covered userId taskId normalizedDate nextDateStr s'.
Proof. intros Hi (r & Hin & Hm). exists r. auto. Qed.

(** The loop over the tasks on a reliable, noise-free store: afterwards
    every task has a matching log; and when every task had one before,
    the loop created nothing. *)
Lemma reconcile_tasks_on_store l : forall st : @St StoreOps,
  faults (world st) = [] -> signed_in (world st) = true ->
  noise_free userId normalizedDate nextDateStr (world st) ->
  exists st' : @St StoreOps,
    @reconcile_tasks StoreOps userId normalizedDate l st = (Ok (), st') /\
    faults (world st') = [] /\ signed_in (world st') = true /\
    noise_free userId normalizedDate nextDateStr (world st') /\
    (forall r, In r (logs (world st)) -> In r (logs (world st'))) /\
    (forall task, In task l ->
                  covered userId (Task.id task) normalizedDate nextDateStr (world st')) /\
    ((forall task, In task l ->
                   covered userId (Task.id task) normalizedDate nextDateStr (world st)) ->
     world st' = world st /\
     List.filter is_create (trace st') = List.filter is_create (trace st)).
Proof.
  induction l as [| task l IH]; intros st Hf Hs Hclean; cbn [reconcile_tasks].
  - exists st. repeat split; auto. intros task [].
  - unfold bind.
    destruct (List.filter (matches (pf (Task.id task))) (logs (world st)))
      as [| x rest] eqn:Hhits.
    + rewrite reconcile_task_miss by assumption. cbn zeta.
      set (r0 := default_log (world st) (Task.id task) iso userId).
      set (st1 := @mkSt StoreOps _ _).
      assert (Hm0 : matches (pf (Task.id task)) r0 = true).
      { apply matches_probe. cbn. auto. }
      destruct (IH st1) as (st' & E & Hf' & Hs' & Hc' & Hi' & Hcov' & _).
      * exact Hf.
      * exact Hs.
      * intros r Hin Hu H1 H2. cbn in Hin. apply in_app_or in Hin as [Hin | [<- | []]].
        -- now apply Hclean.
        -- unfold same_day, r0, default_log. cbn [DailyLog.date].
           change "T00:00:00.000Z" with (String "T" "00:00:00.000Z").
           rewrite normalizeDate_time, Hnorm. apply String.eqb_refl.
      * exists st'. split; [exact E |]. do 3 (split; [assumption |]).
        assert (Hinc : forall r, In r (logs (world st)) -> In r (logs (world st'))).
        { intros r Hin. apply Hi'. cbn. apply in_or_app. now left. }
        split; [exact Hinc |]. split.
        -- intros task' [<- | Hin]; [| now apply Hcov'].
           exists r0. split; [| exact Hm0]. apply Hi'. cbn. apply in_or_app.
           right. now left.
        -- intros Hall. exfalso.
           destruct (covered_hits (Task.id task) (world st)) as (y & rest & Hy).
           { apply Hall. now left. }
           congruence.
    + rewrite (reconcile_task_hit st task x rest) by assumption.
      set (st1 := @mkSt StoreOps _ _).
      destruct (IH st1 Hf Hs Hclean) as (st' & E & Hf' & Hs' & Hc' & Hi' & Hcov' & Hsame).
      exists st'. split; [exact E |]. do 3 (split; [assumption |]).
      split; [exact Hi' |]. split.
      * intros task' [<- | Hin]; [| now apply Hcov'].
        destruct (hits_covered _ _ _ _ Hhits) as [Hin Hm].
        exists x. split; [now apply Hi' | exact Hm].
      * intros Hall. destruct Hsame as [Hw Hcr].
        { intros task' Hin. apply Hall. now right. }
        split; [exact Hw |]. rewrite Hcr. unfold st1. cbn [trace].
        now apply creates_snoc.
Qed.

Local Abbreviation fs := (snapshot_filter userId normalizedDate nextDateStr).

Lemma matches_snapshot r :
  matches fs r = true ->
  DailyLog.user r = userId /\
  String.leb normalizedDate (DailyLog.date r) = true /\
  String.ltb (DailyLog.date r) nextDateStr = true.
Proof.
  unfold matches, snapshot_filter. cbn [forallb clause_holds].
  change (log_field r "user") with (DailyLog.user r).
  change (log_field r "date") with (DailyLog.date r).
  rewrite !andb_true_iff, !String.eqb_eq. tauto.
Qed.

(** The snapshot of the day on a reliable store. *)
Lemma snapshot_on_store (st : @St StoreOps) :
  faults (world st) = [] -> signed_in (world st) = true ->
  @getDailyLogs StoreOps userId None (Some normalizedDate) st =
  let items := select 1 500 fs (Some "-date") (logs (world st)) in
  (Ok (List.filter (same_day normalizedDate) items),
   @mkSt StoreOps (world st)
     (trace st ++ [EvGetList daily_logs 1 500 fs (Some "-date") (inr items)])).
Proof.
  intros Hf Hs. unfold getDailyLogs.
  rewrite guarded_ok by (unfold authenticated; cbn; now rewrite Hs).
  assert (Hg : given (Some normalizedDate) = true).
  { destruct normalizedDate; [discriminate Hnext | reflexivity]. }
  rewrite Hg, Hnorm. cbn [date_next_day StoreOps]. rewrite Hnext.
  unfold bind, ret, catching, getList. cbn [app pb_getList StoreOps].
  unfold ref_getList, next_fault. rewrite Hf. reflexivity.
Qed.

(** One reconciliation on a reliable, noise-free store: afterwards every
    task of the list has a matching log; and when every task had one
    before, the call created nothing and left the store as it was. *)
Lemma ensureDailyLogsExist_on_store l date (st : @St StoreOps) :
  normalizeDate date = normalizedDate ->
  faults (world st) = [] -> signed_in (world st) = true ->
  noise_free userId normalizedDate nextDateStr (world st) ->
  exists st' : @St StoreOps,
    @ensureDailyLogsExist StoreOps userId l date st = (Ok (), st') /\
    faults (world st') = [] /\ signed_in (world st') = true /\
    noise_free userId normalizedDate nextDateStr (world st') /\
    (forall task, In task l ->
                  covered userId (Task.id task) normalizedDate nextDateStr (world st')) /\
    ((forall task, In task l ->
                   covered userId (Task.id task) normalizedDate nextDateStr (world st)) ->
     world st' = world st /\
     List.filter is_create (trace st') = List.filter is_create (trace st)).
Proof.
  intros Hdate Hf Hs Hclean. unfold ensureDailyLogsExist.
  rewrite guarded_ok by (unfold authenticated; cbn; now rewrite Hs).
  destruct l as [| task0 l0] eqn:El.
  { exists st. repeat split; auto. intros task []. }
  rewrite <- El. clear El task0 l0. rewrite Hdate.
  unfold bind at 1. unfold catching. rewrite snapshot_on_store by assumption.
  cbn zeta. unfold bind at 1. unfold ret at 1.
  set (items := select 1 500 fs (Some "-date") (logs (world st))).
  set (snap := List.filter (same_day normalizedDate) items).
  set (st1 := @mkSt StoreOps _ _).
  destruct (reconcile_tasks_on_store
              (tasksNeedingLogs (existingTaskIds normalizedDate snap) l) st1 Hf Hs Hclean)
    as (st' & E & Hf' & Hs' & Hc' & Hi' & Hcov' & Hsame).
  exists st'. split; [exact E |]. do 3 (split; [assumption |]).
  assert (Hseen : forall task,
            negb (bool_decide (Task.id task ∈ existingTaskIds normalizedDate snap)) = false ->
            covered userId (Task.id task) normalizedDate nextDateStr (world st)).
  { intros task Hc. apply covered_task in Hc as (x & Hx & Hd & Ht).
    apply filter_In in Hx as [Hx _]. apply in_select in Hx as [Hx Hm].
    apply matches_snapshot in Hm as (Hu & H1 & H2).
    exists x. split; [exact Hx |]. apply matches_probe. auto. }
  split.
  - intros task Hin.
    destruct (negb (bool_decide (Task.id task ∈ existingTaskIds normalizedDate snap)))
      eqn:Ec.
    + apply Hcov'. apply filter_In. auto.
    + apply (covered_incl _ (world st)); [exact Hi' | now apply Hseen].
  - intros Hall. destruct Hsame as [Hw Hcr].
    { intros task Hin. apply filter_In in Hin as [Hin _]. now apply Hall. }
    split; [exact Hw |]. rewrite Hcr. unfold st1. cbn [trace].
    now apply creates_snoc.
Qed.

End OnStore.

(** X27 (idempotence of the batch reconciler where the day's range holds
    the day): on the reference store, in UTC and with no scripted fault, for
    a day whose stored form lies in the range the service queries, and logs
    without timestamp noise beyond what the normaliser strips, a second
    [ensureDailyLogsExist] with the same arguments right after the first
    requests no create and leaves the store as the first call left it. *)
Theorem ensureDailyLogsExist_idempotent (userId : string) (l : list Task.t)
        (date : string) (s : Store) :
  faults s = [] ->
  @day_ok StoreOps (normalizeDate date) = true ->
  (forall nextDateStr, utc_next_day (normalizeDate date) = Some nextDateStr ->
                       noise_free userId (normalizeDate date) nextDateStr s) ->
  let run1 := @ensureDailyLogsExist StoreOps userId l date (start s) in
  let run2 := @ensureDailyLogsExist StoreOps userId l date (start (world (snd run1))) in
  List.filter is_create (trace (snd run2)) = [] /\
  world (snd run2) = world (snd run1).
Proof.
  intros Hf Hday Hclean run1 run2.
  destruct (signed_in s) eqn:Hs.
  2:{ assert (H1 : run1 = (Throw authError, start s)).
      { apply guarded_fails. unfold authenticated. cbn. now rewrite Hs. }
      assert (H2 : run2 = (Throw authError, start s)).
      { unfold run2. rewrite H1. apply guarded_fails.
        unfold authenticated. cbn. now rewrite Hs. }
      rewrite H2, H1. split; reflexivity. }
  unfold day_ok in Hday. cbn [date_next_day date_iso StoreOps] in Hday.
  destruct (utc_next_day (normalizeDate date)) as [next |] eqn:Hn; [| discriminate].
  destruct (utc_iso (normalizeDate date +:+ "T00:00:00.000Z")) as [iso |] eqn:Hi;
    [| discriminate].
  apply andb_prop in Hday as [Hday Hlt]. apply andb_prop in Hday as [Heq Hge].
  apply String.eqb_eq in Heq. subst iso.
  pose proof (normalizeDate_idem date) as Hnorm.
  destruct (ensureDailyLogsExist_on_store userId (normalizeDate date) next
              Hn Hnorm Hi Hge Hlt l date (start s) eq_refl Hf Hs (Hclean next eq_refl))
    as (st1 & E1 & Hf1 & Hs1 & Hc1 & Hcov1 & _).
  destruct (ensureDailyLogsExist_on_store userId (normalizeDate date) next
              Hn Hnorm Hi Hge Hlt l date (start (world st1)) eq_refl Hf1 Hs1 Hc1)
    as (st2 & E2 & _ & _ & _ & _ & Hsame).
  destruct (Hsame Hcov1) as [Hw Hcr].
  assert (R1 : snd run1 = st1) by (unfold run1; now rewrite E1).
  assert (R2 : snd run2 = st2) by (unfold run2; now rewrite R1, E2).
  rewrite R2, R1. split; [exact Hcr | exact Hw].
Qed.

Lemma ensureDailyLogsExist_idempotent_witness :
  let l := [task_of "A"; task_of "B"; task_of "C"] in
  let run1 := @ensureDailyLogsExist StoreOps "u1" l "2024-01-15" (start settled_store) in
  let run2 := @ensureDailyLogsExist StoreOps "u1" l "2024-01-15"
                (start (world (snd run1))) in
  List.filter is_create (trace (snd run2)) = [] /\
  world (snd run2) = world (snd run1).
Proof.
  apply (ensureDailyLogsExist_idempotent "u1"
           [task_of "A"; task_of "B"; task_of "C"] "2024-01-15" settled_store).
  - reflexivity.
  - vm_compute. reflexivity.
  - intros next Hn. vm_compute in Hn. injection Hn as <-.
    intros r [<- | [<- | []]] _ H1 H2; vm_compute in H1, H2 |- *;
      first [reflexivity | discriminate].
Defined.

(** The first call of the witness creates the logs of B and C; the second
    call creates nothing. *)
Example second_reconciliation_creates_nothing :
  let l := [task_of "A"; task_of "B"; task_of "C"] in
  let run1 := @ensureDailyLogsExist StoreOps "u1" l "2024-01-15" (start settled_store) in
  let run2 := @ensureDailyLogsExist StoreOps "u1" l "2024-01-15"
                (start (world (snd run1))) in
  map DailyLog.task (logs (world (snd run1))) = ["A"; "A"; "B"; "C"] /\
  length (List.filter is_create (trace (snd run1))) = 2 /\
  length (List.filter is_create (trace (snd run2))) = 0.
Proof. vm_compute. repeat split. Qed.

(** The upper bound of the day's range in other time zones.  In UTC it is
    the next day; where the clocks go forward during the local day that
    [setDate] adds, the day has 23 hours and the bound is the day itself. *)
Lemma local_next_day_utc s : local_next_day utc s = utc_next_day s.
Proof.
  unfold local_next_day, utc_next_day. destruct (parse_day s) as [[[y m] d] |]; reflexivity.
Qed.

Example next_day_in_los_angeles :
  local_next_day los_angeles "2024-03-09" = Some "2024-03-10" /\
  local_next_day los_angeles "2024-03-10" = Some "2024-03-10" /\
  local_next_day los_angeles "2024-03-11" = Some "2024-03-12" /\
  local_next_day los_angeles "2024-11-03" = Some "2024-11-04".
Proof. vm_compute. repeat split. Qed.

(** C2 (idempotence of the batch reconciler), where the code breaks it.  In
    a runtime on Los Angeles time the tasks A and B are reconciled twice
    for 2024-03-10, the day the clocks go forward, on a store that is empty
    at first and has no fault.  The upper bound that lines 147-149 and
    188-190 compute for the day is the day itself, so the snapshot and
    every probe ask for an empty range of dates.  The first call creates
    both logs.  The second call sees none of them and sends a create for
    each task again; the store rejects both for the unique index, the catch
    block skips the rejections without a word, and the store is left as it
    was. *)
Theorem ensureDailyLogsExist_spring_forward :
  let tasks := [task_of "A"; task_of "B"] in
  let run1 := @ensureDailyLogsExist (ZoneOps los_angeles) "u1" tasks "2024-03-10"
                (@mkSt (ZoneOps los_angeles) fresh []) in
  let run2 := @ensureDailyLogsExist (ZoneOps los_angeles) "u1" tasks "2024-03-10"
                (@mkSt (ZoneOps los_angeles) (world (snd run1)) []) in
  @date_next_day (ZoneOps los_angeles) "2024-03-10" = Some "2024-03-10" /\
  fst run1 = Ok () /\
  map DailyLog.task (logs (world (snd run1))) = ["A"; "B"] /\
  map DailyLog.date (logs (world (snd run1))) =
  ["2024-03-10T00:00:00.000Z"; "2024-03-10T00:00:00.000Z"] /\
  fst run2 = Ok () /\
  length (List.filter is_create (trace (snd run2))) = 2 /\
  rejections (trace (snd run2)) = [not_unique; not_unique] /\
  warnings (trace (snd run2)) = [] /\
  logs (world (snd run2)) = logs (world (snd run1)).
Proof. vm_compute. repeat split. Qed.

(** ** The query bounds of the reference runtime

    [day_ok] holds for every calendar day but the last one the key format
    can name: after 9999-12-31 [toISOString] changes format and the upper
    bound no longer sorts after the day. *)

Lemma leb_append (s t : string) : String.leb s (s +:+ t) = true.
Proof.
  unfold String.leb. induction s as [| c s IH].
  - rewrite append_nil. destruct t; reflexivity.
  - rewrite append_cons. cbn [String.compare].
    unfold Ascii.compare. rewrite N.compare_refl. exact IH.
Qed.

Lemma compare_append_decided a : forall b s,
  aligned a b -> String.compare a b <> Eq ->
  String.compare (a +:+ s) b = String.compare a b.
Proof.
  induction a as [| c a IH]; intros [| d b] s Hal Hne; cbn [aligned] in Hal;
    try contradiction.
  rewrite append_cons. cbn [String.compare] in *.
  destruct (Ascii.compare c d); [| reflexivity | reflexivity].
  apply IH; tauto.
Qed.

Lemma digit_props k :
  (0 <= k <= 9)%Z -> is_digit (digit k) = true /\ digit_val (digit k) = k.
Proof.
  intros H.
  assert (k = 0 \/ k = 1 \/ k = 2 \/ k = 3 \/ k = 4 \/ k = 5 \/ k = 6 \/ k = 7 \/
          k = 8 \/ k = 9)%Z as Hk by lia.
  repeat (destruct Hk as [-> | Hk]; [split; reflexivity |]). subst. split; reflexivity.
Qed.

Lemma render_day_number y m d :
  (0 <= y <= 9999)%Z -> (0 <= m <= 99)%Z -> (0 <= d <= 99)%Z ->
  is_day_key (render_day (y, m, d)) = true /\
  day_number (render_day (y, m, d)) = (y * 10000 + m * 100 + d)%Z.
Proof.
  intros Hy Hm Hd. unfold render_day.
  assert ((y <=? 9999)%Z = true) as -> by now apply Z.leb_le.
  assert (D : forall n, (0 <= n)%Z -> (0 <= n / 10 mod 10 <= 9)%Z /\ (0 <= n mod 10 <= 9)%Z).
  { intros n Hn.
    pose proof (Z.mod_pos_bound (n / 10) 10 eq_refl).
    pose proof (Z.mod_pos_bound n 10 eq_refl). lia. }
  destruct (D (y / 100)%Z) as [Y1 Y2]; [apply Z.div_pos; lia |].
  destruct (D y) as [Y3 Y4]; [lia |].
  destruct (D m) as [M1 M2]; [lia |]. destruct (D d) as [D1 D2]; [lia |].
  apply digit_props in Y1 as [Y1 Y1'], Y2 as [Y2 Y2'], Y3 as [Y3 Y3'], Y4 as [Y4 Y4'],
      M1 as [M1 M1'], M2 as [M2 M2'], D1 as [D1 D1'], D2 as [D2 D2'].
  unfold pad4, pad2. repeat (rewrite append_cons || rewrite append_nil).
  split.
  - unfold is_day_key. cbn [list_ascii_of_string].
    rewrite Y1, Y2, Y3, Y4, M1, M2, D1, D2. reflexivity.
  - unfold day_number, key_val. cbn [list_ascii_of_string fold_left].
    rewrite Y1, Y2, Y3, Y4, M1, M2, D1, D2.
    change (is_digit "-") with false. cbn iota.
    rewrite Y1', Y2', Y3', Y4', M1', M2', D1', D2'.
    Z.div_mod_to_equations. lia.
Qed.

Lemma parse_day_number nd y m d :
  parse_day nd = Some (y, m, d) ->
  is_day_key nd = true /\ String.length nd = 10 /\
  day_number nd = (y * 10000 + m * 100 + d)%Z /\ (0 <= y <= 9999)%Z.
Proof.
  unfold parse_day. destruct (is_day_key nd) eqn:Hk; [| discriminate].
  assert (Hk' := Hk). unfold is_day_key in Hk'.
  do 10 (destruct nd as [| ?c nd]; [discriminate Hk' |]).
  destruct nd; [| discriminate Hk'].
  cbn [list_ascii_of_string] in Hk' |- *.
  do 9 (apply andb_prop in Hk' as [Hk' ?]).
  intros [= <- <- <-]. split; [reflexivity |]. split; [reflexivity |].
  unfold day_number, key_val, num_of, is_dash in *.
  cbn [list_ascii_of_string fold_left].
  repeat match goal with
         | H : Ascii.eqb _ _ = true |- _ => apply Ascii.eqb_eq in H; subst
         end.
  change (is_digit "-") with false. cbn iota.
  repeat match goal with
         | H : is_digit ?c = true |- _ =>
             rewrite H; apply digit_val_range in H
         end.
  lia.
Qed.

Lemma substring_key (nd rest : string) :
  String.length nd = 10 -> String.substring 0 10 (nd +:+ rest) = nd.
Proof.
  intros H. do 10 (destruct nd as [| ?c nd]; [discriminate H |]).
  destruct nd; [| discriminate H].
  rewrite !append_cons, append_nil. cbn [String.substring].
  destruct rest; reflexivity.
Qed.

Lemma next_day_later y m d :
  valid_day y m d = true ->
  (y * 10000 + m * 100 + d < 99991231)%Z -> (0 <= y <= 9999)%Z ->
  exists y' m' d',
    next_day y m d = (y', m', d') /\
    (y * 10000 + m * 100 + d < y' * 10000 + m' * 100 + d')%Z /\
    (0 <= y' <= 9999)%Z /\ (0 <= m' <= 99)%Z /\ (0 <= d' <= 99)%Z.
Proof.
  unfold valid_day, next_day. intros Hv Hlast Hy.
  repeat (apply andb_prop in Hv as [Hv ?]).
  repeat match goal with
         | H : (_ <=? _)%Z = true |- _ => apply Z.leb_le in H
         end.
  assert (Hdim : (28 <= days_in_month y m <= 31)%Z).
  { unfold days_in_month. destruct (m =? 2)%Z; [destruct (leap y); lia |].
    destruct ((m =? 4) || (m =? 6) || (m =? 9) || (m =? 11))%Z; lia. }
  assert (Hdec : m = 12%Z -> days_in_month y m = 31%Z).
  { intros ->. reflexivity. }
  destruct (d <? days_in_month y m)%Z eqn:E1.
  - apply Z.ltb_lt in E1. exists y, m, (d + 1)%Z. repeat split; lia.
  - apply Z.ltb_ge in E1. destruct (m <? 12)%Z eqn:E2.
    + apply Z.ltb_lt in E2. exists y, (m + 1)%Z, 1%Z. repeat split; lia.
    + apply Z.ltb_ge in E2. assert (m = 12%Z) as Hm by lia. specialize (Hdec Hm).
      exists (y + 1)%Z, 1%Z, 1%Z. repeat split; lia.
Qed.

Lemma valid_day_ok nd y m d :
  parse_day nd = Some (y, m, d) -> valid_day y m d = true ->
  (day_number nd < 99991231)%Z ->
  @day_ok StoreOps nd = true.
Proof.
  intros Hp Hv Hlast.
  destruct (parse_day_number nd y m d Hp) as (Hk & Hlen & Hnum & Hy).
  rewrite Hnum in Hlast.
  destruct (next_day_later y m d Hv Hlast Hy) as (y' & m' & d' & Hn & Hlt & Hy' & Hm' & Hd').
  destruct (render_day_number y' m' d' Hy' Hm' Hd') as [Hk' Hnum'].
  unfold day_ok. cbn [date_next_day date_iso StoreOps].
  unfold utc_next_day, utc_iso. rewrite (substring_key nd _ Hlen), Hp, Hv, Hn.
  rewrite String.eqb_refl. cbn [andb]. rewrite String.eqb_refl, leb_append. cbn [andb].
  unfold String.ltb.
  pose proof (key_val_compare nd (render_day (y', m', d')) 0%Z
                (day_keys_aligned _ _ Hk Hk')) as Hc.
  fold (day_number nd) in Hc. fold (day_number (render_day (y', m', d'))) in Hc.
  rewrite compare_append_decided.
  - destruct (String.compare nd (render_day (y', m', d'))); [lia | reflexivity | lia].
  - now apply day_keys_aligned.
  - destruct (String.compare nd (render_day (y', m', d'))); [lia | discriminate | discriminate].
Qed.

Example day_ok_leap_day : @day_ok StoreOps "2024-02-29" = true.
Proof. apply (valid_day_ok _ 2024 2 29); reflexivity. Qed.

(** The scenario of two calls for the same task and day: the first creates
    the record; the second, whose probes are all cancelled, is rejected by
    the unique index, probes again and returns the record of the first. *)
Example second_caller_gets_the_winner :
  let runA := @createDailyLogIfNeeded StoreOps "u1" "t1" "2024-01-15" (start fresh) in
  let storeB := with_faults nine_cancellations (world (snd runA)) in
  let runB := @createDailyLogIfNeeded StoreOps "u1" "t1" "2024-01-15" (start storeB) in
  fst runA = Ok (Some (default_log fresh "t1" "2024-01-15T00:00:00.000Z" "u1")) /\
  fst runB = fst runA /\
  length (logs (world (snd runB))) = 1.
Proof. vm_compute. repeat split. Qed.

(** ** Returned logs are stored logs *)

Lemma keeps_ret {A} (Pre : Store -> Prop) (a : A) (P : A -> Store -> Prop) :
  (forall s, Pre s -> P a s) -> keeps Pre (@ret StoreOps A a) P.
Proof.
  intros H st Hpre. cbn. split; [intros r Hr; exact Hr |].
  intros a' [= <-]. now apply H.
Qed.

Lemma keeps_throw {A} (Pre : Store -> Prop) e (P : A -> Store -> Prop) :
  keeps Pre (@throw StoreOps A e) P.
Proof. intros st _. cbn. split; [intros r Hr; exact Hr | discriminate]. Qed.

Lemma keeps_bind {A C} (Pre : Store -> Prop) (m : @M StoreOps A) (k : A -> @M StoreOps C)
      (Q : A -> Store -> Prop) (P : C -> Store -> Prop) :
  keeps Pre m Q -> (forall a, keeps (Q a) (k a) P) -> keeps Pre (bind m k) P.
Proof.
  intros Hm Hk st Hpre. destruct (Hm st Hpre) as [G1 H1]. unfold bind.
  destruct (m st) as [[a | e] st1]; cbn [fst snd] in *.
  - destruct (Hk a st1 (H1 a eq_refl)) as [G2 H2]. split; [| exact H2].
    intros r Hr. auto.
  - split; [exact G1 | discriminate].
Qed.

Lemma keeps_catching {A} (Pre : Store -> Prop) (m : @M StoreOps A)
      (Q : A -> Store -> Prop) :
  keeps Pre m Q ->
  keeps Pre (catching m)
        (fun r s => match r with inr a => Q a s | inl _ => True end).
Proof.
  intros Hm st Hpre. destruct (Hm st Hpre) as [G1 H1]. unfold catching.
  destruct (m st) as [[a | e] st1]; cbn [fst snd] in *; split; auto.
  - intros r [= <-]. auto.
  - intros r [= <-]. exact I.
Qed.

Lemma keeps_weaken {A} (Pre Pre' : Store -> Prop) (m : @M StoreOps A)
      (P P' : A -> Store -> Prop) :
  keeps Pre m P -> (forall s, Pre' s -> Pre s) -> (forall a s, P a s -> P' a s) ->
  keeps Pre' m P'.
Proof.
  intros Hm H1 H2 st Hpre. destruct (Hm st (H1 _ Hpre)) as [G H]. split; auto.
Qed.

Lemma next_fault_logs s : logs (snd (next_fault s)) = logs s.
Proof. unfold next_fault. destruct (faults s); reflexivity. Qed.

Lemma keeps_getList page perPage f sort :
  keeps any_store (@getList StoreOps daily_logs page perPage f sort) stored_all.
Proof.
  intros st _. unfold getList. cbn [pb_getList StoreOps]. unfold ref_getList.
  pose proof (next_fault_logs (world st)) as Hl.
  destruct (next_fault (world st)) as [[e |] s']; cbn [fst snd of_resp emit world] in *.
  - split; [intros r Hr; now rewrite Hl | discriminate].
  - split; [intros r Hr; now rewrite Hl |].
    intros items [= <-] x Hx. apply in_select in Hx as [Hx _]. exact Hx.
Qed.

Lemma keeps_sleep ms : keeps any_store (@sleep StoreOps ms) (fun _ _ => True).
Proof. intros st _. cbn. split; [intros r Hr; exact Hr | auto]. Qed.

Lemma keeps_console_warn msg detail :
  keeps any_store (@console_warn StoreOps msg detail) (fun _ _ => True).
Proof. intros st _. cbn. split; [intros r Hr; exact Hr | auto]. Qed.

Lemma keeps_ensureAuthenticated :
  keeps any_store (@ensureAuthenticated StoreOps) (fun _ _ => True).
Proof.
  intros st _. unfold ensureAuthenticated.
  destruct (negb (auth_isValid (world st)) || negb (truthy (auth_model (world st))));
    cbn; split; auto; intros r Hr; exact Hr.
Qed.

Lemma keeps_create data :
  keeps any_store (@create StoreOps daily_logs data) (fun r s => In r (logs s)).
Proof.
  intros st _. unfold create. cbn [pb_create StoreOps]. unfold ref_create.
  pose proof (next_fault_logs (world st)) as Hl.
  destruct (next_fault (world st)) as [[e |] s']; cbn [fst snd of_resp emit world] in *.
  - split; [intros r Hr; now rewrite Hl | discriminate].
  - destruct (new_log s' data) as [r0 |]; cbn [fst snd of_resp emit world].
    2:{ split; [intros r Hr; now rewrite Hl | discriminate]. }
    destruct (existsb _ (logs s')); cbn [fst snd of_resp emit world logs].
    + split; [intros r Hr; now rewrite Hl | discriminate].
    + split.
      * intros r Hr. apply in_or_app. left. now rewrite Hl.
      * intros a [= <-]. apply in_or_app. right. now left.
Qed.

Lemma keeps_pre {A} (Pre Pre' : Store -> Prop) (m : @M StoreOps A)
      (P : A -> Store -> Prop) :
  keeps Pre m P -> (forall s, Pre' s -> Pre s) -> keeps Pre' m P.
Proof. intros Hm H. apply (keeps_weaken Pre Pre' m P P Hm H). auto. Qed.

(** [keeps_any lem] closes a goal from a lemma stated for any store;
    [keeps_then lem] runs a step whose result is not looked at. *)
Ltac keeps_any lem :=
  apply keeps_pre with (Pre := any_store); [apply lem | intros ? ?; exact I].

Ltac keeps_try lem :=
  apply keeps_pre with (Pre := any_store);
  [apply keeps_catching, lem | intros ? ?; exact I].

Ltac keeps_then lem :=
  eapply keeps_bind with (Q := fun _ _ => True);
  [eapply keeps_weaken with (Pre := any_store);
   [apply lem | intros ? ?; exact I | auto]
  | intros ?].

Lemma keeps_probe_loop f nd : forall n attempt,
  keeps any_store (@getDailyLogByTaskAndDate_loop StoreOps n attempt f nd) stored_opt.
Proof.
  induction n as [| n IH]; intros attempt; cbn [getDailyLogByTaskAndDate_loop].
  - apply keeps_ret. intros s _ x. discriminate.
  - eapply keeps_bind; [apply keeps_catching, keeps_getList |].
    intros [error | items].
    + destruct (cancelled_and error) as [[|] | why]; [destruct (attempt <? 2)%nat | |].
      * keeps_then keeps_sleep. keeps_any IH.
      * apply keeps_ret. intros s _ x. discriminate.
      * apply keeps_throw.
      * apply keeps_throw.
    + apply keeps_ret. intros s Hitems x Hx.
      apply find_some in Hx as [Hx _]. now apply Hitems.
Qed.

Lemma keeps_probe userId taskId date :
  keeps any_store (@getDailyLogByTaskAndDate StoreOps userId taskId date) stored_opt.
Proof.
  unfold getDailyLogByTaskAndDate.
  keeps_then keeps_ensureAuthenticated.
  destruct (date_next_day (normalizeDate date)).
  - keeps_any keeps_probe_loop.
  - apply keeps_throw.
Qed.

Lemma keeps_getDailyLogs userId taskId date :
  keeps any_store (@getDailyLogs StoreOps userId taskId date) stored_all.
Proof.
  unfold getDailyLogs.
  keeps_then keeps_ensureAuthenticated.
  eapply keeps_bind with (Q := fun _ _ => True).
  { destruct date as [d |]; [destruct (given (Some d)) |];
      [destruct (date_next_day (normalizeDate d)) | |];
      first [apply keeps_throw | apply keeps_ret; auto]. }
  intros byDate.
  eapply keeps_bind; [keeps_try keeps_getList |].
  intros [error | items].
  - destruct (cancelled_and error) as [[|] | why];
      [apply keeps_ret; intros s _ x [] | apply keeps_throw | apply keeps_throw].
  - destruct date as [d |]; [destruct (given (Some d)) |]; apply keeps_ret;
      intros s Hitems x Hx; try apply filter_In in Hx as [Hx _]; now apply Hitems.
Qed.

Lemma keeps_attempts
      (handle : JsVal -> nat -> @M StoreOps (option DailyLog.t) ->
                @M StoreOps (option DailyLog.t))
      (loop : nat -> nat -> @M StoreOps (option DailyLog.t))
      (probe : @M StoreOps (option DailyLog.t)) :
  keeps any_store probe stored_opt ->
  (forall e attempt next,
      keeps any_store next stored_opt ->
      keeps any_store (handle e attempt next) stored_opt) ->
  (forall attempt, loop 0 attempt = ret None) ->
  (forall n attempt,
      loop (S n) attempt =
      bind (catching probe)
           (fun r => match r with
                     | inr (Some x) => ret (Some x)
                     | inr None => loop n (S attempt)
                     | inl e => handle e attempt (loop n (S attempt))
                     end)) ->
  forall n attempt, keeps any_store (loop n attempt) stored_opt.
Proof.
  intros Hprobe Hhandle H0 HS. induction n as [| n IH]; intros attempt.
  - rewrite H0. apply keeps_ret. intros s _ x. discriminate.
  - rewrite HS. eapply keeps_bind; [apply keeps_catching, Hprobe |].
    intros [e | [x |]].
    + keeps_any Hhandle. apply IH.
    + apply keeps_ret. auto.
    + keeps_any IH.
Qed.

Lemma keeps_probe_existing userId taskId nd n attempt :
  keeps any_store (@probe_existing StoreOps n attempt userId taskId nd) stored_opt.
Proof.
  apply (keeps_attempts
           (fun e attempt next =>
              match cancelled_opt "checkError" e with
              | Raises why => throw (@typeError StoreOps why)
              | Answers cancelled =>
                  bind (if cancelled && (attempt <? 2)%nat
                        then sleep (200 * (attempt + 1)) else ret ())
                       (fun _ => next)
              end)
           (fun n attempt => probe_existing n attempt userId taskId nd)
           (getDailyLogByTaskAndDate userId taskId nd)).
  - apply keeps_probe.
  - intros e a next Hnext.
    destruct (cancelled_opt "checkError" e) as [c | why]; [| apply keeps_throw].
    destruct (c && (a <? 2)%nat).
    + keeps_then keeps_sleep. exact Hnext.
    + eapply keeps_bind with (Q := fun _ _ => True);
        [apply keeps_ret; auto | intros ?].
      keeps_any Hnext.
  - reflexivity.
  - reflexivity.
Qed.

Lemma keeps_refetch userId taskId nd n attempt :
  keeps any_store (@refetch StoreOps n attempt userId taskId nd) stored_opt.
Proof.
  apply (keeps_attempts
           (fun e attempt next =>
              match cancelled_opt "fetchError" e with
              | Raises why => throw (@typeError StoreOps why)
              | Answers cancelled =>
                  bind (if cancelled && (attempt <? 2)%nat
                        then sleep 300 else ret ())
                       (fun _ => next)
              end)
           (fun n attempt => refetch n attempt userId taskId nd)
           (getDailyLogByTaskAndDate userId taskId nd)).
  - apply keeps_probe.
  - intros e a next Hnext.
    destruct (cancelled_opt "fetchError" e) as [c | why]; [| apply keeps_throw].
    destruct (c && (a <? 2)%nat).
    + keeps_then keeps_sleep. exact Hnext.
    + eapply keeps_bind with (Q := fun _ _ => True);
        [apply keeps_ret; auto | intros ?].
      keeps_any Hnext.
  - reflexivity.
  - reflexivity.
Qed.

Lemma keeps_recover_existing userId taskId nd :
  keeps any_store (@recover_existing StoreOps userId taskId nd) stored_opt.
Proof.
  unfold recover_existing.
  keeps_then keeps_sleep.
  eapply keeps_bind; [keeps_any keeps_refetch |].
  intros [record |]; [apply keeps_ret; auto |].
  eapply keeps_bind; [keeps_try keeps_getDailyLogs |].
  intros [e | allLogs].
  - keeps_then keeps_console_warn. apply keeps_ret. intros s _ x. discriminate.
  - apply keeps_ret. intros s Hall x Hx.
    apply find_some in Hx as [Hx _]. now apply Hall.
Qed.

(** Whatever the faults, a log that [createDailyLogIfNeeded] returns on the
    reference store is a log of the store the call leaves, and the call
    loses none. *)
Lemma keeps_createDailyLogIfNeeded userId taskId date :
  keeps any_store (@createDailyLogIfNeeded StoreOps userId taskId date) stored_opt.
Proof.
  unfold createDailyLogIfNeeded.
  keeps_then keeps_ensureAuthenticated.
  eapply keeps_bind; [keeps_any keeps_probe_existing |].
  intros [log |]; [apply keeps_ret; auto |].
  eapply keeps_bind with (Q := fun _ _ => True).
  { unfold isoDateString. destruct (date_iso _); [apply keeps_ret; auto | apply keeps_throw]. }
  intros iso.
  eapply keeps_bind; [keeps_try keeps_create |].
  intros [error | record].
  - destruct (taken_as_duplicate error); [| apply keeps_throw].
    keeps_any keeps_recover_existing.
  - apply keeps_ret. intros s Hr x [= <-]. exact Hr.
Qed.

(** X19 (the recovered log is the one that was there): on the reference
    store, whatever the scripted faults, the log that
    [createDailyLogIfNeeded] returns after its create was rejected as a
    duplicate is the record that was there first: the log [w] of the task,
    user and day that the store held before the call, when the store keeps
    one log per task, user and day. *)
Lemma recovered_log_is_the_winner (userId taskId date : string) (s : Store)
      (error : JsVal) (w x : DailyLog.t) :
  let run := @createDailyLogIfNeeded StoreOps userId taskId date (start s) in
  Exists (create_rejected error) (trace (snd run)) ->
  taken_as_duplicate error = true ->
  fst run = Ok (Some x) ->
  In w (logs s) ->
  DailyLog.task w = taskId -> DailyLog.user w = userId ->
  normalizeDate (DailyLog.date w) = normalizeDate date ->
  one_per_day (world (snd run)) ->
  x = w.
Proof.
  intros run Hrej Htaken Hx Hw Hwt Hwu Hwd Hone.
  destruct (keeps_createDailyLogIfNeeded userId taskId date (start s) I) as [Hgrow Hst].
  fold run in Hgrow, Hst.
  destruct (@rejected_create_recovers StoreOps userId taskId date (start s) error
              (trace (snd run)) eq_refl Hrej Htaken)
    as [Hgen (_ & _ & _ & o & Hr & Ho)].
  fold run in Hr. rewrite Hx in Hr. injection Hr as <-.
  apply List.Exists_exists in Ho as (ev & Hin & Hfound).
  rewrite List.Forall_forall in Hgen.
  destruct (found_by_key _ _ _ _ _ Hfound (genuine_honours ev (Hgen ev Hin)))
    as (Ht & Hu & Hd).
  apply Hone.
  - now apply (Hst (Some x)).
  - now apply Hgrow.
  - congruence.
  - congruence.
  - congruence.
Qed.

Example the_winner_of_the_race :
  let run := @createDailyLogIfNeeded StoreOps "u1" "A" "2024-01-15" (start racing_store) in
  one_per_day (world (snd run)) /\ fst run = Ok (Some clean_log).
Proof.
  split; [| vm_compute; reflexivity].
  pose proof race_lost_then_recovered as H. cbv zeta in H. destruct H as (_ & _ & Hl).
  intros a b Ha Hb _ _ _. rewrite Hl in Ha, Hb.
  destruct Ha as [<- | []]. destruct Hb as [<- | []]. reflexivity.
Qed.

Lemma recovered_log_is_the_winner_witness :
  let run := @createDailyLogIfNeeded StoreOps "u1" "A" "2024-01-15" (start racing_store) in
  exists x, fst run = Ok (Some x) /\ x = clean_log.
Proof.
  intros run. exists clean_log. split; [vm_compute; reflexivity |].
  apply (recovered_log_is_the_winner "u1" "A" "2024-01-15" racing_store not_unique
           clean_log clean_log).
  - apply (Exists_at _ _ 15
             (EvCreate daily_logs (logData "A" "2024-01-15T00:00:00.000Z" "u1")
                       (inl not_unique))).
    + vm_compute. reflexivity.
    + reflexivity.
  - vm_compute. reflexivity.
  - vm_compute. reflexivity.
  - now left.
  - reflexivity.
  - reflexivity.
  - reflexivity.
  - apply the_winner_of_the_race.
Defined.

(** X20 (what is returned is stored): on the reference store, whatever the
    scripted faults and whether the user is signed in or not, a log that
    [createDailyLogIfNeeded] returns is a log of the store the call leaves,
    found or just created; and every log the store held before the call is
    still there. *)
Theorem createDailyLogIfNeeded_returns_stored (userId taskId date : string) (s : Store) :
  let run := @createDailyLogIfNeeded StoreOps userId taskId date (start s) in
  (forall x, fst run = Ok (Some x) -> In x (logs (world (snd run)))) /\
  (forall r, In r (logs s) -> In r (logs (world (snd run)))).
Proof.
  intros run.
  destruct (keeps_createDailyLogIfNeeded userId taskId date (start s) I) as [Hgrow Hst].
  split.
  - intros x Hx. now apply (Hst (Some x)).
  - exact Hgrow.
Qed.

(** ** The normaliser on arbitrary strings *)

Lemma split_head_cut x :
  exists rest, x = split_head "T" x +:+ rest /\
               (rest = EmptyString \/ exists t, rest = String "T" t).
Proof.
  induction x as [| c x (rest & E & Hrest)].
  - exists EmptyString. split; [reflexivity | now left].
  - cbn [split_head]. destruct (Ascii.eqb c "T") eqn:Ec.
    + apply Ascii.eqb_eq in Ec as ->. exists (String "T" x).
      split; [reflexivity | right; now exists x].
    + exists rest. rewrite append_cons, <- E. auto.
Qed.

(** X1 (what the normaliser keeps): for every string, date or not,
    [normalizeDate] returns the part before the first ['T']: the input is
    the result followed by nothing or by a text that starts with ['T'], and
    the result holds no ['T'].  The result is the input itself exactly when
    the input holds no ['T']; so a timestamp written with a space before the
    time is returned whole. *)
Theorem normalizeDate_cuts_at_first_T (x : string) :
  includes "T" (normalizeDate x) = false /\
  (exists rest, x = normalizeDate x +:+ rest /\
                (rest = EmptyString \/ exists t, rest = String "T" t)) /\
  (normalizeDate x = x <-> includes "T" x = false).
Proof.
  split; [apply normalizeDate_no_T |]. split.
  - unfold normalizeDate. destruct (includes "T" x) eqn:E.
    + apply split_head_cut.
    + exists EmptyString. rewrite append_empty. auto.
  - split; [| apply normalizeDate_fixed].
    intros H. rewrite <- H. apply normalizeDate_no_T.
Qed.

(** ** The two duplicate tests *)

Lemma single_implies_batch error :
  hasUniqueError_single error = true -> hasUniqueError_batch error = Answers true.
Proof.
  unfold hasUniqueError_single, hasUniqueError_batch.
  intros [Ht Hf]%andb_prop. cbv zeta. now rewrite Ht, Hf.
Qed.

Lemma verdict_Skipped error :
  verdict error = Skipped <-> skipped_as_duplicate error = true.
Proof.
  unfold verdict, skipped_as_duplicate.
  destruct (hasUniqueError_batch error) as [h | why]; [| split; discriminate].
  destruct (h || _); [tauto |].
  destruct error; split; discriminate.
Qed.

(** X2 (the two duplicate tests agree one way): a failure that
    [createDailyLogIfNeeded] takes for a duplicate (lines 389-395) is never
    reported by the catch block of [ensureDailyLogsExist] (lines 310-340).
    That block skips it as a duplicate whenever its own test answers: for
    every plain failure, one whose messages are strings, and for every
    failure with the not-unique code on date, task or user, which the
    payload shows before any message is looked at.  On the other failures,
    of status 400 with a payload and a message that is no string, its test
    may raise TypeError instead. *)
Theorem taken_as_duplicate_is_skipped (error : JsVal) :
  taken_as_duplicate error = true ->
  verdict error <> Warned /\
  (plain_failure error = true -> skipped_as_duplicate error = true) /\
  (hasUniqueError_single error = true -> skipped_as_duplicate error = true).
Proof.
  intros Ht.
  assert (Hnw : verdict error <> Warned).
  { unfold taken_as_duplicate in Ht. apply orb_prop in Ht as [H | H].
    - unfold verdict. rewrite (single_implies_batch error H). discriminate.
    - unfold verdict. destruct (hasUniqueError_batch error) as [h | why];
        [| discriminate].
      rewrite H, orb_true_r. discriminate. }
  split; [exact Hnw |]. split.
  - intros Hp. apply verdict_Skipped.
    destruct (plain_failure_verdict error Hp) as [H | H]; [exact H | contradiction].
  - intros H. unfold skipped_as_duplicate. now rewrite (single_implies_batch error H).
Qed.

Lemma taken_as_duplicate_is_skipped_witness :
  verdict not_unique <> Warned /\ skipped_as_duplicate not_unique = true.
Proof.
  destruct (taken_as_duplicate_is_skipped not_unique) as (H1 & H2 & _).
  - vm_compute. reflexivity.
  - split; [exact H1 | apply H2; vm_compute; reflexivity].
Defined.

(** The failure with a number for its message is taken for a duplicate by
    the single create and makes the batch raise. *)
Example taken_but_raised :
  taken_as_duplicate numeric_message = true /\
  verdict numeric_message = Raised (CallOf "errorMessage.toLowerCase").
Proof. split; vm_compute; reflexivity. Qed.

(** The converse fails: a failure known only by its message is skipped by
    the batch and thrown by the single create. *)
Example skipped_but_not_taken :
  skipped_as_duplicate already_exists = true /\
  taken_as_duplicate already_exists = false.
Proof. split; vm_compute; reflexivity. Qed.

(** ** The body of an update *)

Lemma cleanData_sends (data : Obj) k v :
  mutable_field k -> data !! k = Some v -> not_nullish v = true ->
  (k = "note" -> v <> JStr EmptyString) ->
  cleanData data !! k = Some v.
Proof.
  intros Hk Hd Hn Hnote.
  assert (Hp : prop data k = v) by (unfold prop; now rewrite Hd).
  assert (Hs : k = "note" -> str_is v EmptyString = false).
  { intros Hk'. specialize (Hnote Hk'). destruct v as [| | | | s |]; try reflexivity.
    cbn. apply String.eqb_neq. congruence. }
  unfold cleanData.
  destruct Hk as [-> | [-> | ->]]; rewrite Hp, Hn; try rewrite (Hs eq_refl); cbn [andb negb];
    repeat match goal with
           | |- context [if ?b then _ else _] => destruct b
           end;
    repeat (rewrite lookup_insert; case_decide; try congruence);
    reflexivity.
Qed.

(** X3 (the body of an update, exactly): an entry is in the body
    [updateDailyLog] sends exactly when it is the caller's entry for
    [value_bool], [value_number] or [note], is neither [null] nor
    [undefined], and is not an empty note.  So [false] and [0] are sent,
    and no other field of the caller's object (id, task, date, user) ever
    is. *)
Theorem cleanData_exactly (data : Obj) (k : string) (v : JsVal) :
  cleanData data !! k = Some v <->
  mutable_field k /\ data !! k = Some v /\ not_nullish v = true /\
  (k = "note" -> v <> JStr EmptyString).
Proof.
  split.
  - apply cleanData_lookup.
  - intros (Hk & Hd & Hn & Hnote). now apply cleanData_sends.
Qed.

(** X4 (cleaning is stable): the body of an update is a body that
    [updateDailyLog] sends as it is; cleaning twice is cleaning once. *)
Theorem cleanData_idempotent (data : Obj) :
  cleanData (cleanData data) = cleanData data.
Proof.
  apply map_eq. intros k.
  destruct (cleanData data !! k) as [v |] eqn:E.
  - pose proof E as (Hk & _ & Hn & Hnote)%cleanData_lookup.
    now apply cleanData_sends.
  - destruct (cleanData (cleanData data) !! k) as [v |] eqn:E'; [| reflexivity].
    apply cleanData_lookup in E' as (_ & Hd & _). congruence.
Qed.

(** ** Budgets: how many requests a call can make *)

Section Budget.
Context `{B : Backend}.

Lemma within_nil ok : within 0 0 ok [].
Proof. repeat split; cbn; auto. Qed.

Lemma within_app q1 c1 q2 c2 ok evs1 evs2 :
  within q1 c1 ok evs1 -> within q2 c2 ok evs2 ->
  within (q1 + q2) (c1 + c2) ok (evs1 ++ evs2).
Proof.
  intros (Hq1 & Hc1 & Ho1) (Hq2 & Hc2 & Ho2).
  unfold within. rewrite !List.filter_app, !List.length_app.
  split; [lia |]. split; [lia |]. now apply Forall_app.
Qed.

Lemma within_weaken q c q' c' (ok ok' : Event -> Prop) evs :
  within q c ok evs -> q <= q' -> c <= c' -> (forall ev, ok ev -> ok' ev) ->
  within q' c' ok' evs.
Proof.
  intros (Hq & Hc & Ho) Hq' Hc' Hok. split; [lia |]. split; [lia |].
  revert Ho. apply List.Forall_impl. exact Hok.
Qed.

Lemma costs_ret {A} (a : A) ok : costs (ret a) 0 0 ok.
Proof. apply wp_ret, within_nil. Qed.

Lemma costs_throw {A} e ok : costs (@throw B A e) 0 0 ok.
Proof. apply wp_throw, within_nil. Qed.

Lemma costs_bind {A C} (m : M A) (k : A -> M C) q1 c1 q2 c2 ok :
  costs m q1 c1 ok -> (forall a, costs (k a) q2 c2 ok) ->
  costs (bind m k) (q1 + q2) (c1 + c2) ok.
Proof.
  intros Hm Hk. apply wp_bind. eapply wp_mono; [exact Hm |].
  intros [a | e] evs1 H1; cbn beta iota.
  - eapply wp_mono; [apply Hk |]. intros r evs2 H2. now apply within_app.
  - eapply within_weaken; [exact H1 | lia | lia | auto].
Qed.

Lemma costs_catching {A} (m : M A) q c ok : costs m q c ok -> costs (catching m) q c ok.
Proof. intros H. apply wp_catching. exact H. Qed.

Lemma costs_weaken {A} (m : M A) q c q' c' (ok ok' : Event -> Prop) :
  costs m q c ok -> q <= q' -> c <= c' -> (forall ev, ok ev -> ok' ev) ->
  costs m q' c' ok'.
Proof.
  intros H Hq Hc Hok. eapply wp_mono; [exact H |].
  intros r evs Hw. now apply (within_weaken q c q' c' ok ok').
Qed.

Lemma costs_getList c page perPage f sort (ok : Event -> Prop) :
  (forall resp, ok (EvGetList c page perPage f sort resp)) ->
  costs (getList c page perPage f sort) 1 0 ok.
Proof.
  intros H. apply wp_getList. intros resp. repeat split; cbn; auto.
Qed.

Lemma costs_create c data (ok : Event -> Prop) :
  (forall resp, ok (EvCreate c data resp)) -> costs (create c data) 0 1 ok.
Proof.
  intros H. apply wp_create. intros resp. repeat split; cbn; auto.
Qed.

Lemma costs_sleep ms (ok : Event -> Prop) : ok (EvSleep ms) -> costs (sleep ms) 0 0 ok.
Proof. intros H. apply wp_sleep. repeat split; cbn; auto. Qed.

Lemma costs_console_warn msg detail (ok : Event -> Prop) :
  ok (EvWarn msg detail) -> costs (console_warn msg detail) 0 0 ok.
Proof. intros H. apply wp_console_warn. repeat split; cbn; auto. Qed.

Lemma costs_console_error msg detail (ok : Event -> Prop) :
  ok (EvError msg detail) -> costs (console_error msg detail) 0 0 ok.
Proof. intros H. apply wp_console_error. repeat split; cbn; auto. Qed.

Lemma costs_ensureAuthenticated ok : costs ensureAuthenticated 0 0 ok.
Proof. apply wp_ensureAuthenticated; apply within_nil. Qed.

End Budget.

(** [costs_seq q1 c1 q2 c2]: give a step the budget [(q1, c1)] and what
    follows it [(q2, c2)]. *)
Ltac costs_seq q1 c1 q2 c2 :=
  lazymatch goal with
  | |- costs (bind ?m ?k) ?q ?c ?ok =>
      apply (costs_weaken (bind m k) (q1 + q2) (c1 + c2) q c ok ok);
      [apply (costs_bind m k q1 c1 q2 c2 ok) | cbn; lia | cbn; lia | auto]
  end.

Ltac event_ok :=
  unfold reading; cbn; first [reflexivity | discriminate | tauto | auto].

Ltac costs_leaf :=
  first [ apply costs_ret | apply costs_throw | apply costs_ensureAuthenticated
        | apply costs_sleep; event_ok | apply costs_console_warn; event_ok
        | apply costs_console_error; event_ok
        | apply costs_getList; intros ?; event_ok
        | apply costs_create; intros ?; event_ok ].

(** A step that sends nothing, within any budget. *)
Ltac costs_done :=
  lazymatch goal with
  | |- costs ?m ?q ?c ?ok =>
      apply (costs_weaken m 0 0 q c ok ok); [costs_leaf | lia | lia | auto]
  end.

(** ** Calls that only read *)

Lemma requests_of_reading evs :
  Forall reading evs -> requests evs = List.filter is_query evs.
Proof.
  induction 1 as [| ev evs Hev _ IH]; [reflexivity |].
  unfold requests in *. cbn [List.filter]. destruct (is_request ev) eqn:Er.
  - rewrite (Hev Er), IH. reflexivity.
  - assert (is_query ev = false) as -> by (destruct ev; cbn in *; congruence).
    exact IH.
Qed.

Lemma reads_of_within n evs : within n 0 reading evs -> reads_at_most n evs.
Proof.
  intros (Hq & _ & Hr). split; [exact Hr |]. now rewrite requests_of_reading.
Qed.

Section Readers.
Context `{B : Backend}.

Lemma getTasks_costs userId type : costs (getTasks userId type) 1 0 reading.
Proof.
  unfold getTasks. costs_seq 0 0 1 0; [costs_leaf | intros ?].
  costs_seq 1 0 0 0; [apply costs_catching; costs_leaf | intros [error | items]].
  - destruct (cancelled_and error) as [[|] | why]; [costs_leaf | | costs_leaf].
    costs_seq 0 0 0 0; [costs_leaf | intros ?].
    destruct (num_is (get error "status") 400); [costs_leaf |].
    destruct (num_is (get error "status") 403); costs_leaf.
  - costs_leaf.
Qed.

Lemma getDailyLogs_costs userId taskId date :
  costs (getDailyLogs userId taskId date) 1 0 reading.
Proof.
  unfold getDailyLogs. costs_seq 0 0 1 0; [costs_leaf | intros ?].
  costs_seq 0 0 1 0.
  { destruct date as [d |]; [destruct (given (Some d)) |];
      [destruct (date_next_day (normalizeDate d)) | |]; costs_leaf. }
  intros byDate.
  costs_seq 1 0 0 0; [apply costs_catching; costs_leaf | intros [error | items]].
  - destruct (cancelled_and error) as [[|] | why]; costs_leaf.
  - destruct date as [d |]; [destruct (given (Some d)) |]; costs_leaf.
Qed.

Lemma probe_loop_costs f nd : forall n attempt,
  costs (getDailyLogByTaskAndDate_loop n attempt f nd) n 0 reading.
Proof.
  induction n as [| n IH]; intros attempt; cbn [getDailyLogByTaskAndDate_loop].
  - costs_leaf.
  - costs_seq 1 0 n 0; [apply costs_catching; costs_leaf | intros [error | items]].
    + destruct (cancelled_and error) as [[|] | why]; [destruct (attempt <? 2)%nat | |].
      * costs_seq 0 0 n 0; [costs_leaf | intros ?; apply IH].
      * costs_done.
      * costs_done.
      * costs_done.
    + costs_done.
Qed.

Lemma getDailyLogByTaskAndDate_costs userId taskId date :
  costs (getDailyLogByTaskAndDate userId taskId date) 3 0 reading.
Proof.
  unfold getDailyLogByTaskAndDate. costs_seq 0 0 3 0; [costs_leaf | intros ?].
  destruct (date_next_day (normalizeDate date)); [apply probe_loop_costs | costs_done].
Qed.

Lemma getGoalProgress_costs userId taskId :
  costs (getGoalProgress userId taskId) 1 0 reading.
Proof.
  unfold getGoalProgress. costs_seq 0 0 1 0; [costs_leaf | intros ?].
  costs_seq 1 0 0 0; [apply costs_catching; costs_leaf | intros [error | items]].
  - destruct (cancelled_and error) as [[|] | why]; [costs_leaf | | costs_leaf].
    destruct (num_is (get error "status") 400); [costs_leaf |].
    destruct (num_is (get error "status") 403); costs_leaf.
  - costs_leaf.
Qed.

Lemma reads_of_costs {A} (m : M A) n st :
  costs m n 0 reading ->
  exists evs, trace (snd (m st)) = trace st ++ evs /\ reads_at_most n evs.
Proof.
  intros H. destruct (H st) as (evs & E & _ & Hw). exists evs.
  split; [exact E | now apply reads_of_within].
Qed.

End Readers.

(** X5 (the readers only read): whatever the store answers, [getTasks],
    [getDailyLogs] and [getGoalProgress] send at most one request and
    [getDailyLogByTaskAndDate] at most three, and each of these requests is
    a list query: a reader never creates, updates or deletes, and the three
    list readers never retry. *)
Theorem readers_only_query `{B : Backend} (st : St) :
  let reads {A} (m : M A) (n : nat) :=
    exists evs, trace (snd (m st)) = trace st ++ evs /\ reads_at_most n evs in
  (forall userId type, reads (getTasks userId type) 1) /\
  (forall userId taskId date, reads (getDailyLogs userId taskId date) 1) /\
  (forall userId taskId date, reads (getDailyLogByTaskAndDate userId taskId date) 3) /\
  (forall userId taskId, reads (getGoalProgress userId taskId) 1).
Proof.
  intros reads. unfold reads. repeat split; intros; apply reads_of_costs.
  - apply getTasks_costs.
  - apply getDailyLogs_costs.
  - apply getDailyLogByTaskAndDate_costs.
  - apply getGoalProgress_costs.
Qed.

Section Rejections.
Context `{B : Backend}.

Lemma outcome_of_wp {A} (m : M A) Q st evs :
  wp m Q -> trace (snd (m st)) = trace st ++ evs -> Q (fst (m st)) evs.
Proof.
  intros H E. destruct (H st) as (evs' & E' & _ & HQ).
  rewrite E' in E. apply app_inv_head in E. now subst.
Qed.

Lemma reject_post_none {A} (r : Res (list A)) evs :
  Forall (fun ev => is_query ev = false) evs -> reject_post r evs.
Proof.
  intros H e He. exfalso. apply List.Exists_exists in He as (ev & Hin & Hev).
  rewrite List.Forall_forall in H. specialize (H ev Hin).
  destruct ev; try contradiction. discriminate.
Qed.

Lemma reject_post_answered {A} c page perPage f sort items (r : Res (list A)) tl :
  Forall (fun ev => is_query ev = false) tl ->
  reject_post r (EvGetList c page perPage f sort (inr items) :: tl).
Proof.
  intros H e He. apply Exists_cons in He as [He | He]; [contradiction |].
  now apply (reject_post_none r tl H e).
Qed.

Lemma reject_post_rejected {A} c page perPage f sort error (r : Res (list A)) tl :
  Forall (fun ev => is_query ev = false) tl ->
  (if is_cancelled error then r = Ok [] else exists err, r = Throw err) ->
  reject_post r (EvGetList c page perPage f sort (inl error) :: tl).
Proof.
  intros H Hr e He. apply Exists_cons in He as [He | He].
  - cbn in He. now subst.
  - now apply (reject_post_none r tl H e).
Qed.

Lemma getTasks_rejected userId type : wp (getTasks userId type) reject_post.
Proof.
  unfold getTasks. wp_step. apply wp_ensureAuthenticated;
    [| apply reject_post_none; constructor].
  wp_step. wp_step. wp_step.
  - destruct (cancelled_and error) as [[|] | why] eqn:Ec.
    + wp_step. apply reject_post_rejected; [constructor |].
      now rewrite (cancelled_and_answer _ _ Ec).
    + wp_step. wp_step.
      destruct (num_is (get error "status") 400);
        [| destruct (num_is (get error "status") 403)]; wp_step;
        (apply reject_post_rejected;
         [repeat constructor | rewrite (cancelled_and_answer _ _ Ec); eauto]).
    + wp_step. apply reject_post_rejected; [constructor |].
      rewrite (cancelled_and_raises _ _ Ec). eauto.
  - wp_step. apply reject_post_answered. constructor.
Qed.

Lemma getDailyLogs_rejected userId taskId date :
  wp (getDailyLogs userId taskId date) reject_post.
Proof.
  unfold getDailyLogs. wp_step. apply wp_ensureAuthenticated;
    [| apply reject_post_none; constructor].
  wp_step.
  destruct date as [d |]; [destruct (given (Some d)) |];
    [destruct (date_next_day (normalizeDate d)) | |];
    wp_step; try (apply reject_post_none; constructor);
    wp_step; wp_step; wp_step;
    try (destruct (cancelled_and error) as [[|] | why] eqn:Ec; wp_step;
         (apply reject_post_rejected;
          [constructor
          | first [rewrite (cancelled_and_answer _ _ Ec)
                  | rewrite (cancelled_and_raises _ _ Ec)]; eauto]));
    wp_step; apply reject_post_answered; constructor.
Qed.

Lemma getGoalProgress_rejected userId taskId :
  wp (getGoalProgress userId taskId) reject_post.
Proof.
  unfold getGoalProgress. wp_step. apply wp_ensureAuthenticated;
    [| apply reject_post_none; constructor].
  wp_step. wp_step. wp_step.
  - destruct (cancelled_and error) as [[|] | why] eqn:Ec.
    + wp_step. apply reject_post_rejected; [constructor |].
      now rewrite (cancelled_and_answer _ _ Ec).
    + destruct (num_is (get error "status") 400);
        [| destruct (num_is (get error "status") 403)]; wp_step;
        (apply reject_post_rejected;
         [repeat constructor | rewrite (cancelled_and_answer _ _ Ec); eauto]).
    + wp_step. apply reject_post_rejected; [constructor |].
      rewrite (cancelled_and_raises _ _ Ec). eauto.
  - wp_step. apply reject_post_answered. constructor.
Qed.

End Rejections.

(** X6 (a rejected list query): when the query of [getTasks],
    [getDailyLogs] or [getGoalProgress] is rejected, the call returns the
    empty list if the rejection is an auto-cancellation (its message holds
    "autocancelled"), so that the caller cannot tell it from "no records";
    any other rejection makes the call throw. *)
Theorem rejected_query_outcome `{B : Backend} (st : St) (e : JsVal) :
  let outcome {A} (m : M (list A)) :=
    forall evs, trace (snd (m st)) = trace st ++ evs ->
                Exists (query_rejected e) evs ->
                if is_cancelled e then fst (m st) = Ok []
                else exists err, fst (m st) = Throw err in
  (forall userId type, outcome (getTasks userId type)) /\
  (forall userId taskId date, outcome (getDailyLogs userId taskId date)) /\
  (forall userId taskId, outcome (getGoalProgress userId taskId)).
Proof.
  intros outcome. subst outcome. cbv beta. repeat split.
  - intros userId type evs E.
    apply (outcome_of_wp _ reject_post st evs (getTasks_rejected _ _) E).
  - intros userId taskId date evs E.
    apply (outcome_of_wp _ reject_post st evs (getDailyLogs_rejected _ _ _) E).
  - intros userId taskId evs E.
    apply (outcome_of_wp _ reject_post st evs (getGoalProgress_rejected _ _) E).
Qed.

Example cancelled_snapshot_reads_as_empty :
  let run := @getDailyLogs StoreOps "u1" None (Some "2024-01-15")
               (start (with_faults [Some cancelled] mixed_store)) in
  fst run = Ok [] /\
  trace (snd run) =
  [EvGetList daily_logs 1 500
     [FEq "user" "u1"; FGe "date" "2024-01-15"; FLt "date" "2024-01-16"]
     (Some "-date") (inl cancelled)].
Proof. split; vm_compute; reflexivity. Qed.

(** ** The plain wrappers and the upsert *)

Section Wrappers.
Context `{B : Backend}.

Lemma rethrow_403_run {A} (resp : JsVal + A) (st : St) :
  rethrow_403 resp st = (passed_on resp, st).
Proof.
  destruct resp as [e | a]; reflexivity.
Qed.

Lemma create_run c data (st : St) :
  bind (catching (create c data)) rethrow_403 st =
  (passed_on (fst (pb_create c data (world st))),
   emit (EvCreate c data (fst (pb_create c data (world st))))
        (snd (pb_create c data (world st))) st).
Proof.
  unfold bind, catching, create.
  destruct (pb_create c data (world st)) as [[e | r] w]; cbn [of_resp fst snd];
    apply rethrow_403_run.
Qed.

Lemma update_run c id data (st : St) :
  bind (catching (update c id data)) rethrow_403 st =
  (passed_on (fst (pb_update c id data (world st))),
   emit (EvUpdate c id data (fst (pb_update c id data (world st))))
        (snd (pb_update c id data (world st))) st).
Proof.
  unfold bind, catching, update.
  destruct (pb_update c id data (world st)) as [[e | r] w]; cbn [of_resp fst snd];
    apply rethrow_403_run.
Qed.

Lemma delete_run c id (st : St) :
  bind (catching (delete c id)) (fun r => bind (rethrow_403 r) (fun _ => ret true)) st =
  (deleted (fst (pb_delete c id (world st))),
   emit (EvDelete c id (fst (pb_delete c id (world st))))
        (snd (pb_delete c id (world st))) st).
Proof.
  unfold bind, catching, delete.
  destruct (pb_delete c id (world st)) as [[e | r] w]; cbn [of_resp fst snd];
    rewrite rethrow_403_run; reflexivity.
Qed.

End Wrappers.

(** X7 (the plain wrappers): signed in, [createTask], [updateTask],
    [deleteTask] and [deleteDailyLog] send exactly one request, with the
    caller's body and id as they are.  The record the store answers is
    returned as it is, a delete returns [true] and never [false]; a
    rejection is thrown as it is, except one of status 403, which is
    replaced by "Access denied. Please check your PocketBase collection
    rules." (and except [undefined] and [null], off which the catch block
    cannot read a status: [rethrown] is then the TypeError of that read). *)
Theorem plain_wrappers_pass_on `{B : Backend} (st : St) :
  authenticated (world st) = true ->
  (forall data,
      let resp := fst (pb_create tasks data (world st)) in
      fst (createTask data st) = passed_on resp /\
      trace (snd (createTask data st)) = trace st ++ [EvCreate tasks data resp]) /\
  (forall id data,
      let resp := fst (pb_update tasks id data (world st)) in
      fst (updateTask id data st) = passed_on resp /\
      trace (snd (updateTask id data st)) = trace st ++ [EvUpdate tasks id data resp]) /\
  (forall id,
      let resp := fst (pb_delete tasks id (world st)) in
      fst (deleteTask id st) = deleted resp /\
      trace (snd (deleteTask id st)) = trace st ++ [EvDelete tasks id resp]) /\
  (forall id,
      let resp := fst (pb_delete daily_logs id (world st)) in
      fst (deleteDailyLog id st) = deleted resp /\
      trace (snd (deleteDailyLog id st)) = trace st ++ [EvDelete daily_logs id resp]).
Proof.
  intros Ha. repeat split.
  all: unfold createTask, updateTask, deleteTask, deleteDailyLog;
    rewrite guarded_ok by exact Ha;
    first [rewrite create_run | rewrite update_run | rewrite delete_run]; reflexivity.
Qed.

Lemma plain_wrappers_pass_on_witness :
  fst (@deleteDailyLog StoreOps "log1" (start mixed_store)) = Ok true /\
  fst (@deleteDailyLog StoreOps "log9" (start mixed_store)) = Throw not_found /\
  fst (@deleteDailyLog StoreOps "log1" (start (with_faults [Some forbidden] mixed_store))) =
  Throw accessDenied.
Proof.
  split; [| split].
  - apply (@plain_wrappers_pass_on StoreOps (start mixed_store) eq_refl).
  - apply (@plain_wrappers_pass_on StoreOps (start mixed_store) eq_refl).
  - apply (@plain_wrappers_pass_on StoreOps
             (start (with_faults [Some forbidden] mixed_store)) eq_refl).
Defined.

(** X8 (the upsert writes at most once): signed in,
    [createOrUpdateGoalProgress] first asks for one record of the body's
    user, task and date (page 1, one per page).  If that query is rejected
    it writes nothing and passes the rejection on; if a record is returned
    it sends exactly one update, of that record, and no create; if none is
    returned it sends exactly one create and no update.  The body of the
    write is the caller's object as it is, and the answer to the write is
    passed on like that of a plain wrapper. *)
Theorem createOrUpdateGoalProgress_one_write `{B : Backend} (data : Obj) (st : St) :
  authenticated (world st) = true ->
  let run := createOrUpdateGoalProgress data st in
  (exists e,
      trace (snd run) = trace st ++ [progress_lookup data (inl e)] /\
      fst run = Throw (rethrown e)) \/
  (exists first rest resp,
      trace (snd run) =
      trace st ++ [progress_lookup data (inr (first :: rest));
                   EvUpdate goal_progress (GoalProgress.id first) data resp] /\
      fst run = passed_on resp) \/
  (exists resp,
      trace (snd run) =
      trace st ++ [progress_lookup data (inr []); EvCreate goal_progress data resp] /\
      fst run = passed_on resp).
Proof.
  intros Ha run. subst run. unfold createOrUpdateGoalProgress.
  rewrite guarded_ok by exact Ha.
  unfold progress_lookup.
  set (f := [FEq "user" _; _; _]).
  unfold bind, catching, getList.
  destruct (pb_getList goal_progress 1 1 f None (world st)) as [[e | items] w] eqn:E;
    cbn [of_resp fst snd].
  - left. exists e. rewrite rethrow_403_run. split; reflexivity.
  - right. destruct items as [| first rest].
    + right. unfold create. cbn [world emit].
      destruct (pb_create goal_progress data w) as [resp w'] eqn:Ec.
      exists resp.
      destruct resp as [e | r]; cbn [of_resp fst snd];
        rewrite rethrow_403_run; cbn [fst snd emit trace];
        rewrite <- app_assoc; split; reflexivity.
    + left. unfold update. cbn [world emit].
      destruct (pb_update goal_progress (GoalProgress.id first) data w)
        as [resp w'] eqn:Eu.
      exists first, rest, resp. destruct resp as [e | r]; cbn [of_resp fst snd];
        rewrite rethrow_403_run; cbn [fst snd emit trace];
        rewrite <- app_assoc; split; reflexivity.
Qed.

Lemma createOrUpdateGoalProgress_one_write_witness :
  fst (@createOrUpdateGoalProgress StoreOps
         (<["task" := JStr "A"]> (<["value" := JNum 3]> ∅)) (start fresh)) =
  Throw not_found.
Proof.
  destruct (@createOrUpdateGoalProgress_one_write StoreOps
              (<["task" := JStr "A"]> (<["value" := JNum 3]> ∅)) (start fresh) eq_refl)
    as [(e & E & ->) | [(first & rest & resp & E & _) | (resp & E & _)]].
  - vm_compute in E. injection E as <-. reflexivity.
  - vm_compute in E. discriminate E.
  - vm_compute in E. discriminate E.
Defined.

(** ** Stored logs of the day, whatever their notation *)

Section ExactDay.
Context `{B : Backend}.

Lemma getDailyLogs_day userId taskId d :
  wp (getDailyLogs userId taskId (Some d))
     (fun r evs => d <> EmptyString ->
                   forall logs x, r = Ok logs -> In x logs ->
                                  same_day (normalizeDate d) x = true).
Proof.
  unfold getDailyLogs. wp_step. apply wp_ensureAuthenticated; [| discriminate].
  wp_step. destruct (given (Some d)) eqn:Eg.
  2:{ wp_step. wp_step. wp_step. wp_step.
      - destruct (cancelled_and error) as [[|] | why]; wp_step; intros Hd;
          [| discriminate | discriminate].
        intros logs x [= <-] [].
      - wp_step. intros Hd. exfalso. destruct d; [congruence | discriminate]. }
  destruct (date_next_day (normalizeDate d)); wp_step; [| discriminate].
  wp_step. wp_step. wp_step.
  - destruct (cancelled_and error) as [[|] | why]; wp_step; intros Hd;
      [| discriminate | discriminate].
    intros logs x [= <-] [].
  - wp_step. intros _ logs x [= <-] Hx. now apply filter_In in Hx.
Qed.

End ExactDay.

(** X9 (the day's logs are of the day): when [getDailyLogs] is given a
    date, every log it returns has that day as its normalised date,
    whatever the store answered to the range query; a log of the range
    whose date does not normalise to the day is dropped. *)
Theorem getDailyLogs_exact_day `{B : Backend} (userId : string) (taskId : option string)
        (d : string) (st : St) (logs : list DailyLog.t) (x : DailyLog.t) :
  d <> EmptyString ->
  fst (getDailyLogs userId taskId (Some d) st) = Ok logs ->
  In x logs ->
  normalizeDate (DailyLog.date x) = normalizeDate d.
Proof.
  intros Hd Hr Hx.
  destruct (getDailyLogs_day userId taskId d st) as (evs & _ & _ & H).
  apply String.eqb_eq. now apply (H Hd logs x).
Qed.

Lemma getDailyLogs_exact_day_witness :
  fst (@getDailyLogs StoreOps "u1" None (Some "2024-01-15T08:00:00.000Z")
         (start mixed_store)) = Ok [clean_log] /\
  normalizeDate (DailyLog.date clean_log) = "2024-01-15".
Proof.
  split; [vm_compute; reflexivity |].
  apply (@getDailyLogs_exact_day StoreOps "u1" None "2024-01-15T08:00:00.000Z"
           (start mixed_store) [clean_log] clean_log).
  - discriminate.
  - vm_compute. reflexivity.
  - now left.
Defined.

(** ** What the single create can throw *)

Lemma status_400_default_message `{B : Backend} error :
  num_is (get error "status") 400 = true -> taken_as_duplicate error = false ->
  create_failure (errorData_of error) = "Failed to create record.".
Proof.
  unfold taken_as_duplicate. intros -> [_ H]%orb_false_elim.
  cbn [andb] in H. unfold create_failure. now rewrite H.
Qed.

Section Throws.
Context `{B : Backend}.

Lemma createDailyLogIfNeeded_throws_wp userId taskId date :
  wp (createDailyLogIfNeeded userId taskId date)
     (fun r evs => forall e, r = Throw e -> create_throws (normalizeDate date) e evs).
Proof.
  unfold createDailyLogIfNeeded. wp_step.
  apply wp_ensureAuthenticated; [| intros e [= <-]; left; auto].
  wp_step. eapply wp_mono; [apply (probe_existing_wp _ _ _ 3 0) |].
  intros r evs0 (Hq0 & o & ->). destruct o as [log |].
  { wp_step. discriminate. }
  unfold isoDateString. wp_step.
  destruct (date_iso (normalizeDate date +:+ "T00:00:00.000Z")) as [iso |] eqn:Ei.
  2:{ wp_step. intros e [= <-]. right. left. rewrite app_nil_r. auto. }
  wp_step. wp_step. wp_step. wp_step.
  - destruct (taken_as_duplicate error) eqn:Et.
    + eapply wp_mono; [apply recover_existing_wp, normalizeDate_idem |].
      intros r post (_ & _ & _ & o & -> & _). discriminate.
    + wp_step. intros e [= <-]. right. right. exists error.
      split; [| split; [exact Et | split; [reflexivity |]]].
      * rewrite ?app_nil_r. apply Exists_app. right. constructor. reflexivity.
      * intros H400. now rewrite status_400_default_message.
  - wp_step. discriminate.
Qed.

End Throws.

(** X10 (what the single create can throw): [createDailyLogIfNeeded]
    throws in three cases only: the user is not signed in (and nothing was
    sent); the day is not a date the runtime can write; or the create was
    rejected with an error that is not taken for a duplicate, and then the
    message is the one built from the error's payload.  No failure of a
    probe or of the recovery reaches the caller.  A status-400 rejection
    that is thrown carries no payload, so its message is always
    "Failed to create record.". *)
Theorem createDailyLogIfNeeded_throws `{B : Backend} (userId taskId date : string)
        (st : St) (e : JsVal) (evs : list Event) :
  let run := createDailyLogIfNeeded userId taskId date st in
  fst run = Throw e ->
  trace (snd run) = trace st ++ evs ->
  create_throws (normalizeDate date) e evs.
Proof.
  intros run Hr Htr.
  apply (outcome_of_wp _ _ st evs (createDailyLogIfNeeded_throws_wp _ _ _) Htr e Hr).
Qed.

Lemma createDailyLogIfNeeded_throws_witness :
  let run := @createDailyLogIfNeeded StoreOps "u1" "A" "2024-01-15" (start refused_create) in
  fst run = Throw (mkError "Failed to create record.") /\
  @create_throws StoreOps "2024-01-15" (mkError "Failed to create record.")
                 (trace (snd run)).
Proof.
  intros run. split; [vm_compute; reflexivity |].
  apply (@createDailyLogIfNeeded_throws StoreOps "u1" "A" "2024-01-15"
           (start refused_create) (mkError "Failed to create record.")
           (trace (snd run))).
  - vm_compute. reflexivity.
  - reflexivity.
Defined.

(** ** What the creators send *)

Lemma requests_count evs :
  Forall (fun ev => is_update ev = false /\ is_delete ev = false) evs ->
  length (requests evs) =
  length (List.filter is_query evs) + length (List.filter is_create evs).
Proof.
  induction 1 as [| ev evs [Hu Hd] _ IH]; [reflexivity |].
  unfold requests in *. destruct ev; cbn in *; try discriminate; lia.
Qed.

Section Footprints.
Context `{B : Backend}.

Lemma reading_default_create userId taskId nd ev :
  reading ev -> default_create userId taskId nd ev.
Proof.
  unfold reading. intros H. destruct ev; cbn in H; repeat split; cbn;
    try reflexivity; try discriminate; try (now specialize (H eq_refl)).
Qed.

Lemma probe_costs userId taskId nd (ok : Event -> Prop) :
  (forall ev, reading ev -> ok ev) ->
  costs (getDailyLogByTaskAndDate userId taskId nd) 3 0 ok.
Proof.
  intros Hok.
  apply (costs_weaken _ 3 0 3 0 reading ok); [| lia | lia | exact Hok].
  apply getDailyLogByTaskAndDate_costs.
Qed.

Lemma probe_existing_costs userId taskId nd (ok : Event -> Prop) :
  (forall ev, reading ev -> ok ev) ->
  forall n attempt, costs (probe_existing n attempt userId taskId nd) (3 * n) 0 ok.
Proof.
  intros Hok. assert (Hs : forall ms, ok (EvSleep ms)) by (intros; apply Hok; discriminate).
  induction n as [| n IH]; intros attempt; cbn [probe_existing].
  - apply costs_ret.
  - costs_seq 3 0 (3 * n) 0;
      [apply costs_catching, probe_costs, Hok | intros [e | [x |]]].
    + destruct (cancelled_opt _ e) as [cancelled | why]; [| costs_done].
      costs_seq 0 0 (3 * n) 0; [| intros ?; apply IH].
      destruct (cancelled && (attempt <? 2)%nat);
        [apply costs_sleep, Hs | apply costs_ret].
    + costs_done.
    + apply IH.
Qed.

Lemma refetch_costs userId taskId nd (ok : Event -> Prop) :
  (forall ev, reading ev -> ok ev) ->
  forall n attempt, costs (refetch n attempt userId taskId nd) (3 * n) 0 ok.
Proof.
  intros Hok. assert (Hs : forall ms, ok (EvSleep ms)) by (intros; apply Hok; discriminate).
  induction n as [| n IH]; intros attempt; cbn [refetch].
  - apply costs_ret.
  - costs_seq 3 0 (3 * n) 0;
      [apply costs_catching, probe_costs, Hok | intros [e | [x |]]].
    + destruct (cancelled_opt _ e) as [cancelled | why]; [| costs_done].
      costs_seq 0 0 (3 * n) 0; [| intros ?; apply IH].
      destruct (cancelled && (attempt <? 2)%nat);
        [apply costs_sleep, Hs | apply costs_ret].
    + costs_done.
    + apply IH.
Qed.

Lemma recover_existing_costs userId taskId nd (ok : Event -> Prop) :
  (forall ev, reading ev -> ok ev) ->
  costs (recover_existing userId taskId nd) 10 0 ok.
Proof.
  intros Hok. unfold recover_existing.
  costs_seq 0 0 10 0; [apply costs_sleep, Hok; discriminate | intros ?].
  costs_seq 9 0 1 0; [apply (refetch_costs _ _ _ ok Hok 3 0) | intros [record |]].
  - costs_done.
  - costs_seq 1 0 0 0.
    + apply costs_catching.
      apply (costs_weaken _ 1 0 1 0 reading ok); [| lia | lia | exact Hok].
      apply getDailyLogs_costs.
    + intros [e | allLogs]; [| apply costs_ret].
      costs_seq 0 0 0 0; [apply costs_console_warn, Hok; discriminate |].
      intros ?. apply costs_ret.
Qed.

Lemma costs_bind_ret {A C} (a : A) (k : A -> M C) q c ok :
  costs (k a) q c ok -> costs (bind (ret a) k) q c ok.
Proof. intros H st. exact (H st). Qed.

Lemma costs_bind_throw {A C} e (k : A -> M C) q c ok : costs (bind (throw e) k) q c ok.
Proof.
  apply (costs_weaken (bind (throw e) k) 0 0 q c ok ok); [| lia | lia | auto].
  intros st. exists []. cbn. rewrite app_nil_r. split; [reflexivity |].
  split; [constructor | apply within_nil].
Qed.

Lemma createDailyLogIfNeeded_costs userId taskId date :
  costs (createDailyLogIfNeeded userId taskId date) 19 1
        (default_create userId taskId (normalizeDate date)).
Proof.
  pose proof (reading_default_create userId taskId (normalizeDate date)) as Hok.
  unfold createDailyLogIfNeeded.
  costs_seq 0 0 19 1; [apply costs_ensureAuthenticated | intros ?].
  costs_seq 9 0 10 1; [apply (probe_existing_costs _ _ _ _ Hok 3 0) | intros [log |]].
  { costs_done. }
  unfold isoDateString.
  destruct (date_iso (normalizeDate date +:+ "T00:00:00.000Z")) as [iso |] eqn:Ei;
    [apply costs_bind_ret | apply costs_bind_throw].
  costs_seq 0 1 10 0.
  - apply costs_catching, costs_create. intros resp.
    split; [reflexivity |]. split; [reflexivity |]. intros _.
    exists iso, resp. auto.
  - intros [error | record]; [| costs_done].
    destruct (taken_as_duplicate error); [| costs_done].
    apply recover_existing_costs, Hok.
Qed.

(** The double-check of the batch: two probes. *)
Lemma double_check_costs userId taskId nd (ok : Event -> Prop) :
  (forall ev, reading ev -> ok ev) ->
  forall n attempt, costs (double_check n attempt userId taskId nd) (3 * n) 0 ok.
Proof.
  intros Hok. induction n as [| n IH]; intros attempt; cbn [double_check].
  - apply costs_ret.
  - costs_seq 3 0 (3 * n) 0;
      [apply costs_catching, probe_costs, Hok | intros [e | [x |]]].
    + destruct (cancelled_opt _ e) as [cancelled | why]; [| costs_done].
      destruct (cancelled && (attempt <? 1)%nat); [| costs_done].
      costs_seq 0 0 (3 * n) 0; [apply costs_sleep, Hok; discriminate |].
      intros ?. apply IH.
    + costs_done.
    + apply IH.
Qed.

Lemma reconcile_task_costs userId nd task :
  costs (reconcile_task userId nd task) 6 1 (default_create userId (Task.id task) nd).
Proof.
  pose proof (reading_default_create userId (Task.id task) nd) as Hok.
  unfold reconcile_task. costs_seq 6 1 0 0.
  - apply costs_catching.
    costs_seq 6 0 0 1; [apply (double_check_costs _ _ _ _ Hok 2 0) | intros [x |]].
    { costs_done. }
    unfold isoDateString.
    destruct (date_iso (nd +:+ "T00:00:00.000Z")) as [iso |] eqn:Ei;
      [apply costs_bind_ret | apply costs_bind_throw].
    costs_seq 0 1 0 0; [| intros ?; apply costs_ret].
    apply costs_create. intros resp.
    split; [reflexivity |]. split; [reflexivity |]. intros _.
    exists iso, resp. auto.
  - intros [error | []]; [| apply costs_ret].
    destruct (hasUniqueError_batch error) as [hasUniqueError | why]; [| costs_done].
    destruct (hasUniqueError || _); [apply costs_ret |].
    destruct error; try (apply costs_console_warn, Hok; discriminate); costs_done.
Qed.

Lemma reconcile_tasks_costs userId nd (l : list Task.t) : forall l',
  (forall task, In task l' -> In task l) ->
  costs (reconcile_tasks userId nd l') (6 * length l') (length l')
        (batch_create userId l nd).
Proof.
  induction l' as [| task l' IH]; intros Hin; cbn [reconcile_tasks length].
  - apply costs_ret.
  - costs_seq 6 1 (6 * length l') (length l').
    + apply (costs_weaken _ 6 1 6 1 (default_create userId (Task.id task) nd)
               (batch_create userId l nd)); [apply reconcile_task_costs | lia | lia |].
      intros ev Hev. exists task. split; [intros _; apply Hin; now left | exact Hev].
    + intros ?. apply IH. intros t Ht. apply Hin. now right.
Qed.

Lemma ensureDailyLogsExist_costs userId l date :
  costs (ensureDailyLogsExist userId l date) (1 + 6 * length l) (length l)
        (batch_create userId l (normalizeDate date)).
Proof.
  assert (Hok : forall ev, reading ev -> batch_create userId l (normalizeDate date) ev).
  { intros ev Hev. exists (task_of EmptyString). split.
    - intros Hc. destruct ev; cbn in Hc; try discriminate. now specialize (Hev eq_refl).
    - now apply reading_default_create. }
  unfold ensureDailyLogsExist.
  costs_seq 0 0 (1 + 6 * length l) (length l); [apply costs_ensureAuthenticated | intros ?].
  destruct l as [| task0 l0] eqn:El; [costs_done |]. rewrite <- El in *.
  assert (Hlen : forall ids, length (tasksNeedingLogs ids l) <= length l).
  { intros ids. apply List.filter_length_le. }
  costs_seq 1 0 (6 * length l) (length l).
  - apply costs_catching.
    apply (costs_weaken _ 1 0 1 0 reading (batch_create userId l (normalizeDate date)));
      [apply getDailyLogs_costs | lia | lia | exact Hok].
  - intros r.
    costs_seq 0 0 (6 * length l) (length l).
    + destruct r as [error | logs]; [| apply costs_ret].
      destruct (cancelled_opt _ error) as [cancelled | why]; [| costs_done].
      costs_seq 0 0 0 0; [| intros ?; apply costs_ret].
      destruct (negb cancelled);
        [apply costs_console_warn, Hok; discriminate | apply costs_ret].
    + intros existingLogs.
      set (need := tasksNeedingLogs _ l).
      apply (costs_weaken _ (6 * length need) (length need) _ _
               (batch_create userId l (normalizeDate date))
               (batch_create userId l (normalizeDate date))).
      * apply reconcile_tasks_costs. intros task Ht. now apply filter_In in Ht.
      * specialize (Hlen (existingTaskIds (normalizeDate date) existingLogs)).
        fold need in Hlen. lia.
      * apply Hlen.
      * auto.
Qed.

End Footprints.

Lemma footprint_of_within q c (ok : Event -> Prop) evs :
  (forall ev, ok ev -> is_update ev = false /\ is_delete ev = false) ->
  within q c ok evs ->
  length (List.filter is_create evs) <= c /\ length (requests evs) <= q + c /\
  Forall ok evs.
Proof.
  intros Hok (Hq & Hc & Hall). split; [exact Hc |]. split; [| exact Hall].
  rewrite requests_count; [lia |].
  revert Hall. apply List.Forall_impl. exact Hok.
Qed.

(** X11 (what the single create sends): whatever the store answers, one
    call of [createDailyLogIfNeeded] sends at most one create and at most
    twenty requests in all (nine queries of the probes, the create, ten
    queries of the recovery), and never an update or a delete.  The create,
    if there is one, is on [daily_logs] with the body
    [{task, date, user, value_bool: false}] for the task and user asked for
    and the day's midnight as the runtime writes it. *)
Theorem createDailyLogIfNeeded_footprint `{B : Backend} (userId taskId date : string)
        (st : St) :
  exists evs,
    trace (snd (createDailyLogIfNeeded userId taskId date st)) = trace st ++ evs /\
    length (List.filter is_create evs) <= 1 /\
    length (requests evs) <= 20 /\
    Forall (default_create userId taskId (normalizeDate date)) evs.
Proof.
  destruct (createDailyLogIfNeeded_costs userId taskId date st) as (evs & E & _ & Hw).
  exists evs. split; [exact E |].
  apply (footprint_of_within 19 1) in Hw; [exact Hw |].
  intros ev (Hu & Hd & _). auto.
Qed.

(** X12 (what the batch sends): whatever the store answers, one call of
    [ensureDailyLogsExist] over a list of [n] tasks sends at most [n]
    creates and at most [1 + 7 n] requests in all (the snapshot, and per
    task six queries of the double-check and one create), never an update
    or a delete; for the empty list it sends nothing, not even the
    snapshot.  Every create is on [daily_logs], for a task of the list, with
    the body [{task, date, user, value_bool: false}]. *)
Theorem ensureDailyLogsExist_footprint `{B : Backend} (userId : string)
        (l : list Task.t) (date : string) (st : St) :
  exists evs,
    trace (snd (ensureDailyLogsExist userId l date st)) = trace st ++ evs /\
    (l = [] -> evs = []) /\
    length (List.filter is_create evs) <= length l /\
    length (requests evs) <= 1 + 7 * length l /\
    Forall (batch_create userId l (normalizeDate date)) evs.
Proof.
  destruct (ensureDailyLogsExist_costs userId l date st) as (evs & E & _ & Hw).
  exists evs. split; [exact E |]. split.
  - intros ->. apply (app_inv_head (trace st)). rewrite app_nil_r, <- E.
    unfold ensureDailyLogsExist, bind, ensureAuthenticated.
    now destruct (negb (auth_isValid (world st)) || negb (truthy (auth_model (world st)))).
  - apply (footprint_of_within (1 + 6 * length l) (length l)) in Hw.
    + destruct Hw as (Hc & Hr & Hall). split; [exact Hc |]. split; [lia | exact Hall].
    + intros ev (task & _ & Hu & Hd & _). auto.
Qed.

Example batch_of_three_on_a_fresh_store :
  let run := @ensureDailyLogsExist StoreOps "u1" [task_of "A"; task_of "B"; task_of "C"]
               "2024-01-15" (start fresh) in
  length (requests (trace (snd run))) = 10 /\
  length (List.filter is_create (trace (snd run))) = 3.
Proof. vm_compute. split; reflexivity. Qed.

(** ** Tasks the snapshot already shows *)

Lemma seen_tasks_need_nothing nd (items : list DailyLog.t) (l : list Task.t) :
  (forall task, In task l ->
                exists x, In x items /\ same_day nd x = true /\
                          DailyLog.task x = Task.id task) ->
  tasksNeedingLogs (existingTaskIds nd items) l = [].
Proof.
  intros Hseen. unfold tasksNeedingLogs.
  induction l as [| task l IH]; [reflexivity |]. cbn [List.filter].
  destruct (Hseen task (or_introl eq_refl)) as (x & Hx & Hd & Ht).
  assert (Hin : Task.id task ∈ existingTaskIds nd items).
  { unfold existingTaskIds. apply elem_of_list_to_set, list_elem_of_In.
    rewrite <- Ht. apply in_map. apply filter_In. auto. }
  rewrite (bool_decide_eq_true_2 _ Hin). cbn [negb].
  apply IH. intros t Hin'. apply Hseen. now right.
Qed.

(** X13 (tasks with a log are left alone): signed in, when the snapshot
    query of [ensureDailyLogsExist] is answered with a log of the day for
    every task of the list, the call ends there: the snapshot is its only
    request, no task is probed and nothing is created. *)
Theorem ensureDailyLogsExist_all_seen `{B : Backend} (userId : string)
        (l : list Task.t) (date nextDateStr : string) (st : St)
        (items : list DailyLog.t) (w : World) :
  let nd := normalizeDate date in
  let snapshot := EvGetList daily_logs 1 500 (snapshot_filter userId nd nextDateStr)
                            (Some "-date") in
  authenticated (world st) = true ->
  l <> [] ->
  nd <> EmptyString ->
  date_next_day nd = Some nextDateStr ->
  pb_getList daily_logs 1 500 (snapshot_filter userId nd nextDateStr) (Some "-date")
             (world st) = (inr items, w) ->
  (forall task, In task l ->
                exists x, In x items /\ same_day nd x = true /\
                          DailyLog.task x = Task.id task) ->
  ensureDailyLogsExist userId l date st =
  (Ok (), mkSt w (trace st ++ [snapshot (inr items)])).
Proof.
  intros nd snapshot Ha Hl Hnd Hnext Hget Hseen.
  unfold ensureDailyLogsExist. rewrite guarded_ok by exact Ha.
  destruct l as [| task0 l0] eqn:El; [congruence |]. rewrite <- El in *. fold nd.
  assert (Hg : given (Some nd) = true).
  { cbn. destruct nd; [congruence | reflexivity]. }
  assert (Hsnap : getDailyLogs userId None (Some nd) st =
                  (Ok (List.filter (same_day nd) items),
                   mkSt w (trace st ++ [snapshot (inr items)]))).
  { unfold getDailyLogs. rewrite guarded_ok by exact Ha. rewrite Hg.
    unfold nd at 1 2 3. rewrite normalizeDate_idem. fold nd. rewrite Hnext.
    unfold bind, ret, catching, getList. cbn [app].
    unfold snapshot_filter in Hget. rewrite Hget. reflexivity. }
  unfold bind at 1. unfold catching. rewrite Hsnap.
  unfold bind at 1. unfold ret at 1.
  rewrite seen_tasks_need_nothing; [reflexivity |].
  intros task Hin. destruct (Hseen task Hin) as (x & Hx & Hd & Ht).
  exists x. split; [| auto]. apply filter_In. auto.
Qed.

Lemma ensureDailyLogsExist_all_seen_witness :
  length (trace (snd (@ensureDailyLogsExist StoreOps "u1" [task_of "A"] "2024-01-15"
                        (start settled_store)))) = 1.
Proof.
  rewrite (@ensureDailyLogsExist_all_seen StoreOps "u1" [task_of "A"] "2024-01-15"
             "2024-01-16" (start settled_store) [clean_log] settled_store).
  - reflexivity.
  - reflexivity.
  - discriminate.
  - discriminate.
  - reflexivity.
  - vm_compute. reflexivity.
  - intros task [<- | []]. exists clean_log. split; [now left |]. split; reflexivity.
Defined.

(** ** The single create on the reference store *)

Section SingleOnStore.
Variables (userId normalizedDate nextDateStr : string).
Hypothesis Hnext : utc_next_day normalizedDate = Some nextDateStr.
Hypothesis Hnorm : normalizeDate normalizedDate = normalizedDate.
Hypothesis Hiso : utc_iso (normalizedDate +:+ "T00:00:00.000Z") =
                  Some (normalizedDate +:+ "T00:00:00.000Z").
Hypothesis Hge : String.leb normalizedDate (normalizedDate +:+ "T00:00:00.000Z") = true.
Hypothesis Hlt : String.ltb (normalizedDate +:+ "T00:00:00.000Z") nextDateStr = true.

Local Abbreviation iso := (normalizedDate +:+ "T00:00:00.000Z").
Local Abbreviation pf taskId := (probe_filter userId taskId normalizedDate nextDateStr).

Lemma probe_hit (st : @St StoreOps) taskId x rest :
  faults (world st) = [] -> signed_in (world st) = true ->
  noise_free userId normalizedDate nextDateStr (world st) ->
  List.filter (matches (pf taskId)) (logs (world st)) = x :: rest ->
  @getDailyLogByTaskAndDate StoreOps userId taskId normalizedDate st =
  (Ok (Some x),
   @mkSt StoreOps (world st)
     (trace st ++ [probe_query (pf taskId) (inr (firstn 10 (x :: rest)))])).
Proof.
  intros Hf Hs Hclean Hhits.
  rewrite (probe_on_store userId normalizedDate nextDateStr Hnext Hnorm) by assumption.
  cbn zeta. rewrite select_probe, Hhits. cbn [firstn List.find].
  destruct (hits_covered _ _ _ _ _ _ _ Hhits) as [Hin Hm].
  apply matches_probe in Hm as (Hu & _ & H1 & H2).
  now rewrite (Hclean x Hin Hu H1 H2).
Qed.

Lemma probe_miss (st : @St StoreOps) taskId :
  faults (world st) = [] -> signed_in (world st) = true ->
  List.filter (matches (pf taskId)) (logs (world st)) = [] ->
  @getDailyLogByTaskAndDate StoreOps userId taskId normalizedDate st =
  (Ok None, @mkSt StoreOps (world st) (trace st ++ [probe_query (pf taskId) (inr [])])).
Proof.
  intros Hf Hs Hhits.
  rewrite (probe_on_store userId normalizedDate nextDateStr Hnext Hnorm) by assumption.
  cbn zeta. now rewrite select_probe, Hhits.
Qed.

Lemma probe_existing_hit (st : @St StoreOps) taskId x rest :
  faults (world st) = [] -> signed_in (world st) = true ->
  noise_free userId normalizedDate nextDateStr (world st) ->
  List.filter (matches (pf taskId)) (logs (world st)) = x :: rest ->
  @probe_existing StoreOps 3 0 userId taskId normalizedDate st =
  (Ok (Some x),
   @mkSt StoreOps (world st)
     (trace st ++ [probe_query (pf taskId) (inr (firstn 10 (x :: rest)))])).
Proof.
  intros Hf Hs Hclean Hhits. cbn [probe_existing]. unfold bind, catching.
  now rewrite (probe_hit st taskId x rest).
Qed.

Lemma probe_existing_miss (st : @St StoreOps) taskId :
  faults (world st) = [] -> signed_in (world st) = true ->
  List.filter (matches (pf taskId)) (logs (world st)) = [] ->
  @probe_existing StoreOps 3 0 userId taskId normalizedDate st =
  (Ok None,
   @mkSt StoreOps (world st)
     (trace st ++ [probe_query (pf taskId) (inr []); probe_query (pf taskId) (inr []);
                   probe_query (pf taskId) (inr [])])).
Proof.
  intros Hf Hs Hhits. cbn [probe_existing]. unfold bind, catching.
  rewrite probe_miss by assumption.
  rewrite probe_miss by assumption.
  rewrite probe_miss by assumption.
  unfold ret. cbn [trace world]. now rewrite <- !app_assoc.
Qed.

Lemma default_log_matches (s : Store) taskId :
  matches (pf taskId) (default_log s taskId iso userId) = true.
Proof. apply matches_probe. cbn. auto. Qed.

Lemma default_log_day (s : Store) taskId :
  same_day normalizedDate (default_log s taskId iso userId) = true.
Proof.
  unfold same_day, default_log. cbn [DailyLog.date].
  change "T00:00:00.000Z" with (String "T" "00:00:00.000Z").
  rewrite normalizeDate_time, Hnorm. apply String.eqb_refl.
Qed.

(** A call that finds the log: one query, nothing written. *)
Lemma createDailyLogIfNeeded_hit (st : @St StoreOps) taskId date x rest :
  normalizeDate date = normalizedDate ->
  faults (world st) = [] -> signed_in (world st) = true ->
  noise_free userId normalizedDate nextDateStr (world st) ->
  List.filter (matches (pf taskId)) (logs (world st)) = x :: rest ->
  @createDailyLogIfNeeded StoreOps userId taskId date st =
  (Ok (Some x),
   @mkSt StoreOps (world st)
     (trace st ++ [probe_query (pf taskId) (inr (firstn 10 (x :: rest)))])).
Proof.
  intros Hd Hf Hs Hclean Hhits. unfold createDailyLogIfNeeded.
  rewrite guarded_ok by (unfold authenticated; cbn; now rewrite Hs).
  rewrite Hd. unfold bind at 1.
  now rewrite (probe_existing_hit st taskId x rest).
Qed.

(** A call that finds none: three queries, then the create of the default
    log, which the store accepts. *)
Lemma createDailyLogIfNeeded_miss (st : @St StoreOps) taskId date :
  normalizeDate date = normalizedDate ->
  faults (world st) = [] -> signed_in (world st) = true ->
  List.filter (matches (pf taskId)) (logs (world st)) = [] ->
  let s := world st in
  let r0 := default_log s taskId iso userId in
  @createDailyLogIfNeeded StoreOps userId taskId date st =
  (Ok (Some r0),
   @mkSt StoreOps
     (mkStore (logs s ++ [r0]) (faults s) (signed_in s) (S (serial s)))
     (trace st ++ [probe_query (pf taskId) (inr []); probe_query (pf taskId) (inr []);
                   probe_query (pf taskId) (inr []);
                   EvCreate daily_logs (logData taskId iso userId) (inr r0)])).
Proof.
  intros Hd Hf Hs Hhits s r0. unfold createDailyLogIfNeeded.
  rewrite guarded_ok by (unfold authenticated; cbn; now rewrite Hs).
  rewrite Hd. unfold bind at 1. rewrite probe_existing_miss by assumption.
  unfold isoDateString. cbn [date_iso StoreOps]. rewrite Hiso.
  unfold bind, ret, catching, create, emit. cbn [world trace pb_create StoreOps].
  unfold ref_create, next_fault. rewrite Hf. unfold new_log.
  destruct (logData_fields taskId iso userId) as (-> & -> & -> & -> & -> & ->).
  cbn [as_str as_bool as_num DailyLog.task DailyLog.date DailyLog.user].
  destruct (existsb (same_key taskId iso userId) (logs (world st))) eqn:E.
  - exfalso. apply existsb_exists in E as (r & Hin & Hk). unfold same_key in Hk.
    apply andb_prop in Hk as [Hk Hu]. apply andb_prop in Hk as [Ht Hdate].
    apply String.eqb_eq in Ht, Hdate, Hu.
    assert (In r []) as [].
    rewrite <- Hhits. apply filter_In. split; [exact Hin |].
    apply matches_probe. rewrite Hdate. auto.
  - cbn [of_resp fst snd]. rewrite <- app_assoc. reflexivity.
Qed.

End SingleOnStore.

Lemma day_ok_bounds nd :
  @day_ok StoreOps nd = true ->
  exists next,
    utc_next_day nd = Some next /\
    utc_iso (nd +:+ "T00:00:00.000Z") = Some (nd +:+ "T00:00:00.000Z") /\
    String.leb nd (nd +:+ "T00:00:00.000Z") = true /\
    String.ltb (nd +:+ "T00:00:00.000Z") next = true.
Proof.
  unfold day_ok. cbn [date_next_day date_iso StoreOps]. intros H.
  destruct (utc_next_day nd) as [next |]; [| discriminate].
  destruct (utc_iso (nd +:+ "T00:00:00.000Z")) as [iso |]; [| discriminate].
  apply andb_prop in H as [H Hlt]. apply andb_prop in H as [Heq Hge].
  apply String.eqb_eq in Heq. subst iso. eauto.
Qed.

(** X14 (create-if-needed twice): on the reference store with no scripted
    fault, signed in, for a day whose stored form lies in the range the
    service queries and logs without timestamp noise, a call of
    [createDailyLogIfNeeded] returns a stored log of the task, the user and
    the day, adding at most one log to the store; a second call with the
    same arguments returns the same log, creates nothing and leaves the
    store as it was. *)
Theorem createDailyLogIfNeeded_idempotent (userId taskId date : string) (s : Store) :
  faults s = [] -> signed_in s = true ->
  @day_ok StoreOps (normalizeDate date) = true ->
  (forall nextDateStr, utc_next_day (normalizeDate date) = Some nextDateStr ->
                       noise_free userId (normalizeDate date) nextDateStr s) ->
  let run1 := @createDailyLogIfNeeded StoreOps userId taskId date (start s) in
  let run2 := @createDailyLogIfNeeded StoreOps userId taskId date
                (start (world (snd run1))) in
  exists x,
    fst run1 = Ok (Some x) /\ fst run2 = Ok (Some x) /\
    In x (logs (world (snd run1))) /\
    DailyLog.task x = taskId /\ DailyLog.user x = userId /\
    normalizeDate (DailyLog.date x) = normalizeDate date /\
    length (logs (world (snd run1))) <= S (length (logs s)) /\
    world (snd run2) = world (snd run1) /\
    List.filter is_create (trace (snd run2)) = [].
Proof.
  intros Hf Hs Hday Hclean run1 run2.
  destruct (day_ok_bounds _ Hday) as (next & Hn & Hi & Hge & Hlt).
  pose proof (normalizeDate_idem date) as Hnorm.
  specialize (Hclean next Hn).
  set (nd := normalizeDate date) in *.
  destruct (List.filter (matches (probe_filter userId taskId nd next)) (logs s))
    as [| x rest] eqn:Hhits.
  - pose proof (createDailyLogIfNeeded_miss userId nd next Hn Hnorm Hi Hge Hlt
                  (start s) taskId date eq_refl Hf Hs Hhits) as E1.
    cbv zeta in E1. cbn [world start] in E1.
    set (r0 := default_log s taskId (nd +:+ "T00:00:00.000Z") userId) in *.
    set (s1 := mkStore (logs s ++ [r0]) (faults s) (signed_in s) (S (serial s))) in *.
    assert (R1 : run1 = (Ok (Some r0), @mkSt StoreOps s1 (trace (start s) ++ _))) by exact E1.
    assert (Hhits1 : List.filter (matches (probe_filter userId taskId nd next)) (logs s1)
                     = [r0]).
    { unfold s1. cbn [logs]. rewrite List.filter_app, Hhits. cbn [List.filter app].
      unfold r0. now rewrite (default_log_matches userId nd next Hge Hlt). }
    assert (Hclean1 : noise_free userId nd next s1).
    { intros r Hin Hu H1 H2. unfold s1 in Hin. cbn [logs] in Hin.
      apply in_app_or in Hin as [Hin | [<- | []]]; [now apply Hclean |].
      apply (default_log_day userId nd Hnorm). }
    assert (R2 : run2 = (Ok (Some r0),
                         @mkSt StoreOps s1
                           ([] ++ [probe_query (probe_filter userId taskId nd next)
                                               (inr (firstn 10 [r0]))]))).
    { unfold run2. rewrite R1. cbn [snd world].
      apply (createDailyLogIfNeeded_hit userId nd next Hn Hnorm
               (start s1) taskId date r0 [] eq_refl Hf Hs Hclean1 Hhits1). }
    exists r0. rewrite R2, R1. cbn [fst snd world trace].
    split; [reflexivity |]. split; [reflexivity |].
    split; [unfold s1; cbn [logs]; apply in_or_app; right; now left |].
    split; [reflexivity |]. split; [reflexivity |].
    split; [pose proof (default_log_day userId nd Hnorm s taskId) as Hd;
            unfold same_day in Hd; now apply String.eqb_eq in Hd |].
    split; [unfold s1; cbn [logs]; rewrite List.length_app; cbn; lia |].
    split; reflexivity.
  - pose proof (createDailyLogIfNeeded_hit userId nd next Hn Hnorm
                  (start s) taskId date x rest eq_refl Hf Hs Hclean Hhits) as E1.
    cbn [world start] in E1.
    assert (R1 : run1 = (Ok (Some x), @mkSt StoreOps s (trace (start s) ++ _))) by exact E1.
    assert (W1 : world (snd run1) = s) by now rewrite R1.
    assert (R2 : run2 = run1) by (unfold run2; now rewrite W1).
    destruct (hits_covered _ _ _ _ _ _ _ Hhits) as [Hin Hm].
    pose proof Hm as (Hu & Ht & H1 & H2)%matches_probe.
    exists x. rewrite R2, R1. cbn [fst snd world trace].
    split; [reflexivity |]. split; [reflexivity |]. split; [exact Hin |].
    split; [exact Ht |]. split; [exact Hu |].
    split; [pose proof (Hclean x Hin Hu H1 H2) as Hd;
            unfold same_day in Hd; now apply String.eqb_eq in Hd |].
    split; [lia |]. split; reflexivity.
Qed.

Lemma createDailyLogIfNeeded_idempotent_witness :
  let run1 := @createDailyLogIfNeeded StoreOps "u1" "B" "2024-01-15T09:00:00.000Z"
                (start settled_store) in
  let run2 := @createDailyLogIfNeeded StoreOps "u1" "B" "2024-01-15T09:00:00.000Z"
                (start (world (snd run1))) in
  exists x, fst run1 = Ok (Some x) /\ fst run2 = Ok (Some x) /\
            world (snd run2) = world (snd run1).
Proof.
  intros run1 run2.
  destruct (createDailyLogIfNeeded_idempotent "u1" "B" "2024-01-15T09:00:00.000Z"
              settled_store) as (x & H1 & H2 & _ & _ & _ & _ & _ & H3 & _).
  - reflexivity.
  - reflexivity.
  - vm_compute. reflexivity.
  - intros next Hn. vm_compute in Hn. injection Hn as <-.
    intros r [<- | [<- | []]] _ Hge Hlt; vm_compute in Hge, Hlt |- *;
      first [reflexivity | discriminate].
  - exists x. auto.
Defined.

(** ** After a reconciliation, and what the daily tab then shows *)

Lemma probe_normalised `{B : Backend} userId taskId date :
  getDailyLogByTaskAndDate userId taskId (normalizeDate date) =
  getDailyLogByTaskAndDate userId taskId date.
Proof. unfold getDailyLogByTaskAndDate. now rewrite normalizeDate_idem. Qed.

(** X15 (a reconciliation leaves every task with a log): on the reference
    store with no scripted fault, signed in, for a day whose stored form
    lies in the range the service queries and logs without timestamp noise,
    [ensureDailyLogsExist] returns normally and afterwards every task of the
    list has a stored log of the user and the day, which
    [getDailyLogByTaskAndDate] then finds. *)
Theorem ensureDailyLogsExist_complete (userId : string) (l : list Task.t)
        (date : string) (s : Store) :
  faults s = [] -> signed_in s = true ->
  @day_ok StoreOps (normalizeDate date) = true ->
  (forall nextDateStr, utc_next_day (normalizeDate date) = Some nextDateStr ->
                       noise_free userId (normalizeDate date) nextDateStr s) ->
  let run := @ensureDailyLogsExist StoreOps userId l date (start s) in
  fst run = Ok () /\
  forall task, In task l ->
    exists x,
      fst (@getDailyLogByTaskAndDate StoreOps userId (Task.id task) date
             (start (world (snd run)))) = Ok (Some x) /\
      In x (logs (world (snd run))) /\
      DailyLog.task x = Task.id task /\ DailyLog.user x = userId /\
      normalizeDate (DailyLog.date x) = normalizeDate date.
Proof.
  intros Hf Hs Hday Hclean run.
  destruct (day_ok_bounds _ Hday) as (next & Hn & Hi & Hge & Hlt).
  pose proof (normalizeDate_idem date) as Hnorm.
  destruct (ensureDailyLogsExist_on_store userId (normalizeDate date) next
              Hn Hnorm Hi Hge Hlt l date (start s) eq_refl Hf Hs (Hclean next Hn))
    as (st' & E & Hf' & Hs' & Hc' & Hcov & _).
  assert (R : run = (Ok (), st')) by exact E.
  rewrite R. cbn [fst snd]. split; [reflexivity |].
  intros task Hin.
  destruct (covered_hits _ _ _ _ _ (Hcov task Hin)) as (x & rest & Hhits).
  destruct (hits_covered _ _ _ _ _ _ _ Hhits) as [Hx Hm].
  pose proof Hm as (Hu & Ht & H1 & H2)%matches_probe.
  exists x. rewrite <- probe_normalised.
  rewrite (probe_hit userId (normalizeDate date) next Hn Hnorm
             (start (world st')) (Task.id task) x rest Hf' Hs' Hc' Hhits).
  split; [reflexivity |]. split; [exact Hx |]. split; [exact Ht |]. split; [exact Hu |].
  pose proof (Hc' x Hx Hu H1 H2) as Hd. unfold same_day in Hd.
  now apply String.eqb_eq in Hd.
Qed.

Lemma ensureDailyLogsExist_complete_witness :
  let run := @ensureDailyLogsExist StoreOps "u1" [task_of "A"; task_of "B"] "2024-01-15"
               (start settled_store) in
  exists x,
    fst (@getDailyLogByTaskAndDate StoreOps "u1" "B" "2024-01-15"
           (start (world (snd run)))) = Ok (Some x) /\
    DailyLog.task x = "B".
Proof.
  intros run.
  destruct (ensureDailyLogsExist_complete "u1" [task_of "A"; task_of "B"] "2024-01-15"
              settled_store) as [_ H].
  - reflexivity.
  - reflexivity.
  - vm_compute. reflexivity.
  - intros next Hn. vm_compute in Hn. injection Hn as <-.
    intros r [<- | [<- | []]] _ Hge Hlt; vm_compute in Hge, Hlt |- *;
      first [reflexivity | discriminate].
  - destruct (H (task_of "B")) as (x & H1 & _ & H2 & _); [right; now left |].
    exists x. split; [exact H1 | exact H2].
Defined.

Lemma length_insert_desc r l : length (insert_desc r l) = S (length l).
Proof.
  induction l as [| x l IH]; [reflexivity |]. cbn [insert_desc].
  destruct (String.ltb (DailyLog.date r) (DailyLog.date x)); cbn [length]; congruence.
Qed.

Lemma length_sort_desc l : length (sort_desc l) = length l.
Proof.
  induction l as [| x l IH]; [reflexivity |].
  cbn [sort_desc fold_right]. fold (sort_desc l).
  rewrite length_insert_desc. cbn [length]. congruence.
Qed.

(** Within the page size, a query on the reference store returns every
    matching log. *)
Lemma select_all f l x :
  length l <= 500 -> In x l -> matches f x = true ->
  In x (select 1 500 f (Some "-date") l).
Proof.
  intros Hlen Hin Hm. unfold select, page_of.
  change (sorted (Some "-date") (List.filter (matches f) l))
    with (sort_desc (List.filter (matches f) l)).
  change (skipn ((1 - 1) * 500) (sort_desc (List.filter (matches f) l)))
    with (sort_desc (List.filter (matches f) l)).
  rewrite firstn_all2.
  - apply in_sort_desc. apply filter_In. auto.
  - rewrite length_sort_desc.
    pose proof (List.filter_length_le (matches f) l). lia.
Qed.

Lemma find_finds {A} (p : A -> bool) l x :
  In x l -> p x = true -> exists y, List.find p l = Some y.
Proof.
  intros Hin Hp. destruct (List.find p l) as [y |] eqn:E; [eauto |].
  pose proof (find_none _ _ E x Hin). congruence.
Qed.

Lemma getDailyLogs_normalised `{B : Backend} userId taskId date :
  date <> EmptyString -> normalizeDate date <> EmptyString ->
  getDailyLogs userId taskId (Some (normalizeDate date)) =
  getDailyLogs userId taskId (Some date).
Proof.
  intros Hd Hnd. unfold getDailyLogs.
  assert (given (Some date) = true) as ->
    by (cbn; destruct date; [congruence | reflexivity]).
  assert (given (Some (normalizeDate date)) = true) as ->
    by (cbn; destruct (normalizeDate date); [congruence | reflexivity]).
  now rewrite normalizeDate_idem.
Qed.

(** X16 (the daily tab finds what is stored): on the reference store with
    no scripted fault, signed in, with at most 500 logs (the page the tab
    asks for), for a day whose stored form lies in the queried range and
    logs without timestamp noise: if the store holds a log of the task, the
    user and the day, then the logs [getDailyLogs] loads for the day contain
    one, and [getLogForTask] on the loaded logs returns a stored log of that
    task and user. *)
Theorem getLogForTask_finds_stored (userId taskId date nextDateStr : string) (s : Store) :
  faults s = [] -> signed_in s = true ->
  @day_ok StoreOps (normalizeDate date) = true ->
  utc_next_day (normalizeDate date) = Some nextDateStr ->
  noise_free userId (normalizeDate date) nextDateStr s ->
  length (logs s) <= 500 ->
  covered userId taskId (normalizeDate date) nextDateStr s ->
  exists loaded x,
    fst (@getDailyLogs StoreOps userId None (Some date) (start s)) = Ok loaded /\
    getLogForTask loaded taskId date = Some x /\
    In x (logs s) /\ DailyLog.task x = taskId /\ DailyLog.user x = userId.
Proof.
  intros Hf Hs Hday Hn Hclean Hlen (r & Hr & Hm).
  destruct (day_ok_bounds _ Hday) as (next & Hn' & Hi & Hge & Hlt).
  assert (next = nextDateStr) as -> by congruence. clear Hn'.
  pose proof (normalizeDate_idem date) as Hnorm.
  set (nd := normalizeDate date) in *.
  assert (Hnd : nd <> EmptyString) by (intros E; rewrite E in Hn; discriminate Hn).
  assert (Hd : date <> EmptyString) by (intros ->; now apply Hnd).
  pose proof Hm as (Hu & Ht & H1 & H2)%matches_probe.
  set (items := select 1 500 (snapshot_filter userId nd nextDateStr) (Some "-date") (logs s)).
  exists (List.filter (same_day nd) items).
  assert (Hin : In r (List.filter (same_day nd) items)).
  { apply filter_In. split; [| now apply Hclean].
    apply select_all; [exact Hlen | exact Hr |].
    unfold matches, snapshot_filter. cbn [forallb clause_holds].
    change (log_field r "user") with (DailyLog.user r).
    change (log_field r "date") with (DailyLog.date r).
    rewrite Hu, String.eqb_refl, H1, H2. reflexivity. }
  destruct (find_finds
              (fun log => String.eqb (DailyLog.task log) taskId &&
                          String.eqb (normalizeDate (DailyLog.date log)) nd)
              (List.filter (same_day nd) items) r Hin) as (x & Hx).
  { rewrite Ht, String.eqb_refl. apply (Hclean r Hr Hu H1 H2). }
  exists x. split.
  - rewrite <- getDailyLogs_normalised by assumption. fold nd.
    now rewrite (snapshot_on_store userId nd nextDateStr Hn Hnorm Hi Hge Hlt (start s) Hf Hs).
  - split; [exact Hx |].
    apply find_some in Hx as [Hx Hp]. apply andb_prop in Hp as [Hp _].
    apply String.eqb_eq in Hp. apply filter_In in Hx as [Hx _].
    apply in_select in Hx as [Hx Hmx].
    apply matches_snapshot in Hmx as (Hux & _). auto.
Qed.

Lemma getLogForTask_finds_stored_witness :
  exists loaded x,
    fst (@getDailyLogs StoreOps "u1" None (Some "2024-01-15") (start settled_store)) =
    Ok loaded /\
    getLogForTask loaded "A" "2024-01-15" = Some x /\ DailyLog.task x = "A".
Proof.
  destruct (getLogForTask_finds_stored "u1" "A" "2024-01-15" "2024-01-16" settled_store)
    as (loaded & x & H1 & H2 & _ & H3 & _).
  - reflexivity.
  - reflexivity.
  - vm_compute. reflexivity.
  - vm_compute. reflexivity.
  - intros r [<- | [<- | []]] _ Hge Hlt; vm_compute in Hge, Hlt |- *;
      first [reflexivity | discriminate].
  - cbn. lia.
  - exists clean_log. split; [right; now left | vm_compute; reflexivity].
  - exists loaded, x. auto.
Defined.

(** [find] answers with the first element that passes the test. *)
Lemma find_first {A} (p : A -> bool) (l : list A) (x : A) :
  List.find p l = Some x ->
  exists before after,
    l = before ++ x :: after /\ p x = true /\ forall y, In y before -> p y = false.
Proof.
  induction l as [| a l IH]; intros H; [discriminate |].
  cbn [List.find] in H. destruct (p a) eqn:Ea.
  - injection H as <-. exists [], l. split; [reflexivity |].
    split; [exact Ea | intros y []].
  - destruct (IH H) as (before & after & -> & Hx & Hb).
    exists (a :: before), after. split; [reflexivity |]. split; [exact Hx |].
    intros y [<- | Hy]; [exact Ea | now apply Hb].
Qed.

(** X17 (the tab's lookup): [getLogForTask] returns the first log of the
    list with the task asked for and the day of the date asked for: the
    list splits at the returned log, and no log before it has both the task
    and the day.  It returns none exactly when the list holds no such log;
    and it gives the same answer for a date and for its normalised form, so
    that callers may pass either. *)
Theorem getLogForTask_spec (loaded : list DailyLog.t) (taskId date : string) :
  getLogForTask loaded taskId (normalizeDate date) = getLogForTask loaded taskId date /\
  (forall x, getLogForTask loaded taskId date = Some x ->
             DailyLog.task x = taskId /\
             normalizeDate (DailyLog.date x) = normalizeDate date /\
             exists before after,
               loaded = before ++ x :: after /\
               forall y, In y before ->
                         ~ (DailyLog.task y = taskId /\
                            normalizeDate (DailyLog.date y) = normalizeDate date)) /\
  (getLogForTask loaded taskId date = None <->
   forall x, In x loaded -> DailyLog.task x = taskId ->
             normalizeDate (DailyLog.date x) <> normalizeDate date).
Proof.
  unfold getLogForTask. cbv zeta. rewrite normalizeDate_idem.
  split; [reflexivity |]. split.
  - intros x Hx. apply find_first in Hx as (before & after & Hl & Hp & Hb).
    apply andb_prop in Hp as [Ht Hd]. apply String.eqb_eq in Ht, Hd.
    split; [exact Ht |]. split; [exact Hd |].
    exists before, after. split; [exact Hl |].
    intros y Hy [Hyt Hyd]. specialize (Hb y Hy). cbn beta in Hb.
    rewrite Hyt, Hyd, !String.eqb_refl in Hb. discriminate.
  - split.
    + intros Hnone x Hin Ht Hd. pose proof (find_none _ _ Hnone x Hin) as Hp.
      cbn beta in Hp. rewrite Ht, Hd, !String.eqb_refl in Hp. discriminate.
    + intros Hall.
      destruct (List.find _ loaded) as [y |] eqn:E; [exfalso | reflexivity].
      apply find_some in E as [Hin Hp].
      apply andb_prop in Hp as [Ht Hd]. apply String.eqb_eq in Ht, Hd.
      now apply (Hall y Hin Ht).
Qed.

Example getLogForTask_first_of_two :
  getLogForTask [earlier_log; noisy_log; clean_log] "A" "2024-01-15T08:00:00.000Z" =
  Some clean_log /\
  getLogForTask [clean_log; checked_log] "A" "2024-01-15" = Some clean_log /\
  getLogForTask [checked_log; clean_log] "A" "2024-01-15" = Some checked_log.
Proof. vm_compute. repeat split. Qed.

(** ** A day that is not a date *)

Section InvalidDay.
Context `{B : Backend}.
Variables (userId nd : string).
Hypothesis Hbad : invalid_day nd.
Hypothesis Hnorm : normalizeDate nd = nd.

Lemma probe_invalid taskId (st : St) :
  authenticated (world st) = true ->
  getDailyLogByTaskAndDate userId taskId nd st = (Throw rangeError, st).
Proof.
  intros Ha. destruct Hbad as (_ & Hn & _). unfold getDailyLogByTaskAndDate.
  rewrite guarded_ok by exact Ha. now rewrite Hnorm, Hn.
Qed.

Lemma getDailyLogs_invalid taskId (st : St) :
  authenticated (world st) = true ->
  getDailyLogs userId taskId (Some nd) st = (Throw rangeError, st).
Proof.
  intros Ha. destruct Hbad as (Hne & Hn & _). unfold getDailyLogs.
  rewrite guarded_ok by exact Ha.
  assert (given (Some nd) = true) as -> by (cbn; destruct nd; [congruence | reflexivity]).
  now rewrite Hnorm, Hn.
Qed.

Lemma caught {A C} (m : M A) (k : JsVal + A -> M C) e (st st' : St) :
  m st = (Throw e, st') -> bind (catching m) k st = k (inl e) st'.
Proof. intros H. unfold bind, catching. now rewrite H. Qed.

Lemma probe_existing_invalid taskId : forall n attempt (st : St),
  authenticated (world st) = true ->
  probe_existing n attempt userId taskId nd st = (Ok None, st).
Proof.
  induction n as [| n IH]; intros attempt st Ha; [reflexivity |].
  cbn [probe_existing]. rewrite (caught _ _ rangeError st st) by now apply probe_invalid.
  change (cancelled_opt "checkError" rangeError) with (Answers false).
  cbv iota beta. cbn [andb]. unfold bind at 1, ret at 1. now apply IH.
Qed.

Lemma reconcile_task_invalid task (st : St) :
  authenticated (world st) = true ->
  exists msg detail,
    reconcile_task userId nd task st =
    (Ok (), mkSt (world st) (trace st ++ [EvWarn msg detail])).
Proof.
  intros Ha. destruct Hbad as (_ & _ & Hi). unfold reconcile_task.
  cbn [double_check]. unfold bind at 1. unfold catching at 1. unfold bind at 1.
  rewrite (caught _ _ rangeError st st) by now apply probe_invalid.
  change (cancelled_opt "checkError" rangeError) with (Answers false).
  cbv iota beta. cbn [andb]. unfold ret at 1.
  unfold isoDateString. rewrite Hi. unfold bind at 1. unfold throw at 1.
  change (hasUniqueError_batch rangeError) with (Answers false).
  cbv iota beta. cbn [orb].
  change (num_is (get rangeError "status") 400) with false. cbn [andb].
  unfold rangeError at 1, mkError at 1. unfold console_warn, emit. eauto.
Qed.

Lemma reconcile_tasks_invalid l : forall st : St,
  authenticated (world st) = true ->
  exists evs,
    reconcile_tasks userId nd l st = (Ok (), mkSt (world st) (trace st ++ evs)) /\
    length evs = length l /\ forallb is_warn evs = true.
Proof.
  induction l as [| task l IH]; intros st Ha; cbn [reconcile_tasks].
  - exists []. rewrite app_nil_r. destruct st. auto.
  - destruct (reconcile_task_invalid task st Ha) as (msg & detail & E).
    unfold bind. rewrite E.
    destruct (IH (mkSt (world st) (trace st ++ [EvWarn msg detail])) Ha)
      as (evs & E' & Hlen & Hw).
    exists (EvWarn msg detail :: evs). rewrite E'. cbn [world trace].
    rewrite <- app_assoc. cbn [app length forallb is_warn andb].
    split; [reflexivity |]. split; [now rewrite Hlen | exact Hw].
Qed.

End InvalidDay.

Lemma no_task_is_seen (l : list Task.t) : tasksNeedingLogs ∅ l = l.
Proof.
  unfold tasksNeedingLogs. induction l as [| task l IH]; [reflexivity |].
  cbn [List.filter]. rewrite bool_decide_eq_false_2 by apply not_elem_of_empty.
  cbn [negb]. now rewrite IH.
Qed.

(** X18 (a day that is not a date): signed in, when the runtime cannot read
    the normalised day as a date, no request is ever sent.
    [getDailyLogByTaskAndDate], [getDailyLogs] with that date and
    [createDailyLogIfNeeded] throw the runtime's RangeError and leave the
    state as it was.  [ensureDailyLogsExist] does not throw: it warns once
    for the snapshot and once for each task of the list, returns normally,
    and the store is as it was. *)
Theorem invalid_day_sends_nothing `{B : Backend} (userId date : string) (st : St) :
  authenticated (world st) = true ->
  invalid_day (normalizeDate date) ->
  let nd := normalizeDate date in
  (forall taskId,
      getDailyLogByTaskAndDate userId taskId date st = (Throw rangeError, st)) /\
  (forall taskId, getDailyLogs userId taskId (Some nd) st = (Throw rangeError, st)) /\
  (forall taskId,
      createDailyLogIfNeeded userId taskId date st = (Throw rangeError, st)) /\
  (forall task l,
      exists evs,
        ensureDailyLogsExist userId (task :: l) date st =
        (Ok (), mkSt (world st) (trace st ++ evs)) /\
        length evs = 2 + length l /\ forallb is_warn evs = true).
Proof.
  intros Ha Hbad nd. pose proof (normalizeDate_idem date) as Hnorm. fold nd in Hnorm.
  split; [| split; [| split]].
  - intros taskId. rewrite <- probe_normalised. now apply probe_invalid.
  - intros taskId. now apply getDailyLogs_invalid.
  - intros taskId. unfold createDailyLogIfNeeded. rewrite guarded_ok by exact Ha.
    fold nd. unfold bind at 1.
    rewrite (probe_existing_invalid userId nd Hbad Hnorm) by exact Ha.
    unfold isoDateString. destruct Hbad as (_ & _ & Hi). fold nd in Hi.
    rewrite Hi. reflexivity.
  - intros task l. unfold ensureDailyLogsExist. rewrite guarded_ok by exact Ha.
    fold nd. unfold bind at 1. unfold catching.
    rewrite (getDailyLogs_invalid userId nd Hbad Hnorm) by exact Ha.
    change (cancelled_opt "error" rangeError) with (Answers false).
    cbv iota beta. cbn [negb].
    unfold bind at 1. unfold bind at 1. unfold console_warn at 1. unfold ret at 1.
    cbn [existingTaskIds List.filter map]. change (list_to_set []) with (∅ : gset string).
    rewrite no_task_is_seen.
    set (st1 := emit _ _ st).
    destruct (reconcile_tasks_invalid userId nd Hbad Hnorm (task :: l) st1 Ha)
      as (evs & E & Hlen & Hw).
    rewrite E. unfold st1, emit. cbn [world trace]. rewrite <- app_assoc. cbn [app].
    eexists. split; [reflexivity |]. cbn [length forallb is_warn andb].
    split; [now rewrite Hlen | exact Hw].
Qed.

Lemma invalid_day_sends_nothing_witness :
  fst (@createDailyLogIfNeeded StoreOps "u1" "A" "tomorrow" (start fresh)) =
  Throw rangeError /\
  exists evs,
    trace (snd (@ensureDailyLogsExist StoreOps "u1" [task_of "A"; task_of "B"] "tomorrow"
                  (start fresh))) = evs /\
    length evs = 3 /\ forallb is_warn evs = true.
Proof.
  destruct (@invalid_day_sends_nothing StoreOps "u1" "tomorrow" (start fresh))
    as (_ & _ & H1 & H2).
  - reflexivity.
  - split; [discriminate |]. split; reflexivity.
  - split; [now rewrite H1 |].
    destruct (H2 (task_of "A") [task_of "B"]) as (evs & E & Hlen & Hw).
    exists evs. rewrite E. auto.
Defined.

(** ** Reading back an update *)

Lemma log_field_patched body r fld : log_field (patched body r) fld = log_field r fld.
Proof. reflexivity. Qed.

Lemma matches_patched f body r : matches f (patched body r) = matches f r.
Proof.
  unfold matches. induction f as [| c f IH]; [reflexivity |].
  cbn [forallb]. rewrite IH. destruct c; reflexivity.
Qed.

Lemma filter_map_same {A} (p : A -> bool) (g : A -> A) l :
  (forall x, p (g x) = p x) -> List.filter p (map g l) = map g (List.filter p l).
Proof.
  intros H. induction l as [| x l IH]; [reflexivity |].
  cbn [map List.filter]. rewrite H. destruct (p x); cbn [map]; now rewrite IH.
Qed.

Lemma find_map_same {A} (p : A -> bool) (g : A -> A) l :
  (forall x, p (g x) = p x) -> List.find p (map g l) = option_map g (List.find p l).
Proof.
  intros H. induction l as [| x l IH]; [reflexivity |].
  cbn [map List.find]. rewrite H. now destruct (p x).
Qed.

Lemma stored_unique (s : Store) r :
  List.NoDup (map DailyLog.id (logs s)) -> In r (logs s) -> stored s (DailyLog.id r) = Some r.
Proof.
  unfold stored. induction (logs s) as [| x l IH]; intros Hnd Hin; [contradiction |].
  cbn [map] in Hnd. inversion Hnd as [| ? ? Hx Hl]; subst.
  cbn [List.find]. unfold has_id at 1. destruct Hin as [-> | Hin].
  - now rewrite String.eqb_refl.
  - destruct (String.eqb (DailyLog.id x) (DailyLog.id r)) eqn:E; [| now apply IH].
    exfalso. apply String.eqb_eq in E. apply Hx. rewrite E. now apply in_map.
Qed.

(** An update of a stored log on a reliable store, in full. *)
Lemma updateDailyLog_on_store (s : Store) logId data r :
  signed_in s = true -> faults s = [] -> stored s logId = Some r ->
  let g := fun x => if has_id logId x then patched (cleanData data) x else x in
  let run := @updateDailyLog StoreOps logId data (start s) in
  fst run = Ok (patched (cleanData data) r) /\
  world (snd run) = mkStore (map g (logs s)) [] true (serial s).
Proof.
  intros Hs Hf Hr g run. subst run. unfold updateDailyLog.
  rewrite guarded_ok by (cbn; unfold authenticated; cbn; now rewrite Hs).
  unfold bind, catching, update, start. cbn [world].
  cbn [pb_update StoreOps]. unfold ref_update, next_fault. rewrite Hf.
  destruct s as [l fs a n]. cbn [logs faults signed_in serial] in *. subst fs a.
  unfold stored in Hr. cbn [logs] in Hr. rewrite Hr. cbn. split; reflexivity.
Qed.

(** X21 (an update is read back): on the reference store with no scripted
    fault, signed in, with distinct record ids: when the probe for a task
    and day finds the log [r], an [updateDailyLog] of [r] succeeds with the
    patched log, and the same probe right after the update finds exactly
    that patched log. *)
Theorem updateDailyLog_then_probe (userId taskId date : string) (data : Obj)
        (s : Store) (r : DailyLog.t) :
  faults s = [] -> signed_in s = true ->
  List.NoDup (map DailyLog.id (logs s)) ->
  fst (@getDailyLogByTaskAndDate StoreOps userId taskId date (start s)) = Ok (Some r) ->
  let run := @updateDailyLog StoreOps (DailyLog.id r) data (start s) in
  fst run = Ok (patched (cleanData data) r) /\
  fst (@getDailyLogByTaskAndDate StoreOps userId taskId date (start (world (snd run)))) =
  Ok (Some (patched (cleanData data) r)).
Proof.
  intros Hf Hs Hids Hprobe run.
  pose proof (normalizeDate_idem date) as Hnorm.
  rewrite <- probe_normalised in Hprobe |- *.
  set (nd := normalizeDate date) in *.
  destruct (utc_next_day nd) as [next |] eqn:Hn.
  2:{ exfalso. revert Hprobe. unfold getDailyLogByTaskAndDate.
      rewrite guarded_ok by (unfold authenticated; cbn; now rewrite Hs).
      rewrite Hnorm. cbn [date_next_day StoreOps]. rewrite Hn. discriminate. }
  rewrite (probe_on_store userId nd next Hn Hnorm (start s) taskId Hf Hs) in Hprobe.
  cbn [fst world start] in Hprobe. injection Hprobe as Hfound.
  assert (Hin : In r (logs s)).
  { apply find_some in Hfound as [Hin _]. now apply in_select in Hin. }
  rewrite select_probe in Hfound.
  destruct (updateDailyLog_on_store s (DailyLog.id r) data r Hs Hf
              (stored_unique s r Hids Hin)) as [H1 H2].
  fold run in H1, H2. split; [exact H1 |]. rewrite H2.
  set (g := fun x => if has_id (DailyLog.id r) x then patched (cleanData data) x else x).
  rewrite (probe_on_store userId nd next Hn Hnorm) by reflexivity.
  cbn [fst world start logs]. rewrite select_probe.
  assert (Hg : forall f x, matches f (g x) = matches f x).
  { intros f x. unfold g. destruct (has_id (DailyLog.id r) x); [apply matches_patched | reflexivity]. }
  assert (Hd : forall x, same_day nd (g x) = same_day nd x).
  { intros x. unfold g. now destruct (has_id (DailyLog.id r) x). }
  rewrite (filter_map_same _ g _ (Hg _)), firstn_map, (find_map_same _ g _ Hd), Hfound.
  cbn [option_map]. unfold g, has_id. now rewrite String.eqb_refl.
Qed.

Lemma updateDailyLog_then_probe_witness :
  let s := mkStore [numbered_log] [] true 8 in
  let run := @updateDailyLog StoreOps "log7" {[ "value_bool" := JBool true ]} (start s) in
  exists r',
    fst (@getDailyLogByTaskAndDate StoreOps "u1" "A" "2024-01-15"
           (start (world (snd run)))) = Ok (Some r') /\
    DailyLog.value_bool r' = Some true.
Proof.
  intros s run.
  destruct (updateDailyLog_then_probe "u1" "A" "2024-01-15"
              {[ "value_bool" := JBool true ]} s numbered_log) as [_ H].
  - reflexivity.
  - reflexivity.
  - repeat constructor. intros [].
  - vm_compute. reflexivity.
  - eexists. split; [exact H | reflexivity].
Defined.

(** ** The toggles of the daily tab *)

Ltac lookup_inserts :=
  repeat (rewrite lookup_insert; case_decide; try congruence);
  rewrite ?lookup_empty; try reflexivity.

Lemma numberToggle_flag parseFloat vb numberValue :
  numberToggle parseFloat vb numberValue !! "value_bool" =
  Some (JBool (negb (default false vb))) /\
  numberToggle parseFloat vb numberValue !! "note" = None.
Proof.
  unfold numberToggle. cbv zeta.
  destruct (negb (default false vb) && negb (is_undefined numberValue) &&
            negb (str_is numberValue EmptyString));
    split; unfold singletonM, map_singleton; lookup_inserts.
Qed.

Lemma numberToggle_unchecking parseFloat vb numberValue :
  default false vb = true \/ numberValue = JUndef \/ numberValue = JStr EmptyString ->
  numberToggle parseFloat vb numberValue !! "value_number" = None.
Proof.
  unfold numberToggle. cbv zeta. intros [-> | [-> | ->]]; cbn [negb andb is_undefined str_is];
    rewrite ?andb_false_r; cbn [String.eqb negb]; rewrite ?andb_false_r;
    unfold singletonM, map_singleton; lookup_inserts.
Qed.

Lemma numberToggle_checking parseFloat vb n :
  default false vb = false ->
  numberToggle parseFloat vb (JNum n) !! "value_number" = Some (JNum n).
Proof.
  unfold numberToggle. cbv zeta. intros ->. cbn [negb andb is_undefined str_is].
  lookup_inserts.
Qed.

(** X23 (the checkboxes of the daily tab): on the reference store with no
    scripted fault, signed in, the update that the number checkbox sends for
    a stored log flips [value_bool] (an absent flag counts as unchecked) and
    leaves the note alone.  Unchecking, or toggling while the input is
    empty, sends no number, so the stored [value_number] stays; checking
    with a number in the input stores that number.  The checklist checkbox
    sends the body of the number checkbox with an empty input. *)
Theorem numberToggle_update (parseFloat : JsVal -> JsVal) (s : Store) (logId : string)
        (r : DailyLog.t) (numberValue : JsVal) :
  signed_in s = true -> faults s = [] -> stored s logId = Some r ->
  let body := numberToggle parseFloat (DailyLog.value_bool r) numberValue in
  let run := @updateDailyLog StoreOps logId body (start s) in
  checklistToggle (DailyLog.value_bool r) =
  numberToggle parseFloat (DailyLog.value_bool r) JUndef /\
  exists r',
    fst run = Ok r' /\ stored (world (snd run)) logId = Some r' /\
    DailyLog.value_bool r' = Some (negb (default false (DailyLog.value_bool r))) /\
    DailyLog.note r' = DailyLog.note r /\
    (default false (DailyLog.value_bool r) = true \/
     numberValue = JUndef \/ numberValue = JStr EmptyString ->
     DailyLog.value_number r' = DailyLog.value_number r) /\
    (forall n, default false (DailyLog.value_bool r) = false -> numberValue = JNum n ->
               DailyLog.value_number r' = Some n).
Proof.
  intros Hs Hf Hr body run.
  split.
  { unfold checklistToggle, numberToggle. cbv zeta. cbn [is_undefined negb].
    now rewrite andb_false_r. }
  destruct (updateDailyLog_stored s logId body r Hs Hf Hr) as [H1 H2].
  exists (patched (cleanData body) r). split; [exact H1 |]. split; [exact H2 |].
  destruct (numberToggle_flag parseFloat (DailyLog.value_bool r) numberValue) as [Hb Hn].
  fold body in Hb, Hn.
  unfold patched. cbn [DailyLog.value_bool DailyLog.value_number DailyLog.note].
  split; [| split; [| split]].
  - unfold patch. rewrite (cleanData_sends body "value_bool" _ (or_introl eq_refl) Hb);
      [reflexivity | reflexivity | discriminate].
  - apply patch_absent. apply cleanData_strips. left. unfold prop. now rewrite Hn.
  - intros Hcase. apply patch_absent. apply cleanData_strips. left. unfold prop.
    unfold body. now rewrite numberToggle_unchecking.
  - intros n Hv ->. unfold patch, body.
    rewrite (cleanData_sends _ "value_number" (JNum n));
      [reflexivity | right; now left | now apply numberToggle_checking
      | reflexivity | discriminate].
Qed.

Lemma numberToggle_update_witness :
  let s := mkStore [checked_log] [] true 8 in
  let body := numberToggle (fun v => v) (Some true) (JNum 40) in
  let run := @updateDailyLog StoreOps "log7" body (start s) in
  exists r',
    fst run = Ok r' /\ DailyLog.value_bool r' = Some false /\
    DailyLog.value_number r' = Some 12%Z.
Proof.
  intros s body run.
  destruct (numberToggle_update (fun v => v) s "log7" checked_log (JNum 40)
              eq_refl eq_refl eq_refl)
    as (_ & r' & H1 & _ & H2 & _ & H3 & _).
  exists r'. split; [exact H1 |]. split; [exact H2 |].
  apply H3. now left.
Defined.

(** ** The task form *)

Lemma not_blank s : String.eqb s EmptyString = false -> Some (JStr s) <> Some (JStr EmptyString).
Proof. intros E [= ->]. discriminate E. Qed.

(** X22 (what the task form submits): the body always carries the name,
    the type and the user.  A description, a tag and a unit are sent only
    when they are not blank, so never as the empty string; description and
    tag are sent trimmed.  A daily task carries its mode and never a target,
    and a unit only in number mode; a goal never carries a daily mode, and
    carries the parsed target when the field is filled. *)
Theorem taskFormData_shape (trim : string -> string) (parseFloat : string -> JsVal)
        (name description tag : string) (type : TaskType) (dailyMode : DailyMode)
        (target unit userId : string) :
  let data := taskFormData trim parseFloat name description tag type dailyMode
                           target unit userId in
  let filled (s : string) (v : JsVal) :=
    if String.eqb s EmptyString then None else Some v in
  data !! "name" = Some (JStr name) /\
  data !! "type" = Some (JStr (TaskType_str type)) /\
  data !! "user" = Some (JStr userId) /\
  data !! "description" = filled (trim description) (JStr (trim description)) /\
  data !! "tag" = filled (trim tag) (JStr (trim tag)) /\
  (forall k, k = "description" \/ k = "tag" \/ k = "unit" ->
             data !! k <> Some (JStr EmptyString)) /\
  match type with
  | daily =>
      data !! "daily_mode" = Some (JStr (DailyMode_str dailyMode)) /\
      data !! "target" = None /\
      data !! "unit" = match dailyMode with
                       | number => filled unit (JStr unit)
                       | checklist => None
                       end
  | goal =>
      data !! "daily_mode" = None /\
      data !! "target" = filled target (parseFloat target) /\
      data !! "unit" = filled unit (JStr unit)
  end.
Proof.
  intros data filled. subst data filled. unfold taskFormData. cbv zeta. cbn [truthy].
  destruct (String.eqb (trim description) EmptyString) eqn:Ed;
    destruct (String.eqb (trim tag) EmptyString) eqn:Et;
    destruct (String.eqb unit EmptyString) eqn:Eu;
    destruct (String.eqb target EmptyString) eqn:Etg;
    destruct type, dailyMode; cbn [negb];
    (do 5 (split; [lookup_inserts |]));
    (split; [intros k [-> | [-> | ->]]; lookup_inserts;
             first [discriminate | now apply not_blank]
            | repeat split; lookup_inserts]).
Qed.

(** ** An accepted create *)

Lemma create_accepted_is_create record ev : create_accepted record ev -> is_create ev = true.
Proof. destruct ev; cbn; try contradiction. reflexivity. Qed.

(** X24 (an accepted create is the answer): whatever the store, when the
    create of [createDailyLogIfNeeded] is accepted, the call returns the
    record the store answered, as it is, and the create is the last thing
    the call does: nothing is read back. *)
Theorem createDailyLogIfNeeded_returns_created `{B : Backend}
        (userId taskId date : string) (st : St) (evs : list Event) (record : DailyLog.t) :
  let run := createDailyLogIfNeeded userId taskId date st in
  trace (snd run) = trace st ++ evs ->
  Exists (create_accepted record) evs ->
  fst run = Ok (Some record) /\
  exists pre ev, evs = pre ++ [ev] /\ create_accepted record ev /\
                 Forall reading pre.
Proof.
  intros run Htr Hacc.
  pose proof (outcome_of_wp _ _ st evs (createDailyLogIfNeeded_wp userId taskId date) Htr)
    as Hpost.
  fold run in Hpost.
  destruct Hpost as [Hq | (pre & iso & resp & post & Hevs & Hpre & Hresp)].
  { exfalso. revert Hacc.
    apply queries_only; [exact Hq | apply create_accepted_is_create]. }
  rewrite Hevs in Hacc. apply Exists_app in Hacc as [Hacc | Hacc].
  { exfalso. revert Hacc.
    apply queries_only; [exact Hpre | apply create_accepted_is_create]. }
  destruct resp as [error | record'].
  - exfalso. apply Exists_cons in Hacc as [Hacc | Hacc]; [discriminate Hacc |].
    destruct (taken_as_duplicate error).
    + destruct Hresp as (_ & Hq & _). revert Hacc.
      apply queries_only; [exact Hq | apply create_accepted_is_create].
    + destruct Hresp as [_ ->]. now apply Exists_nil in Hacc.
  - destruct Hresp as [Hr ->]. apply Exists_cons in Hacc as [Hacc | Hacc].
    + cbn in Hacc. injection Hacc as ->. split; [exact Hr |].
      exists pre, (EvCreate daily_logs (logData taskId iso userId) (inr record)).
      split; [exact Hevs |]. split; [reflexivity | exact Hpre].
    + now apply Exists_nil in Hacc.
Qed.

Lemma createDailyLogIfNeeded_returns_created_witness :
  let run := @createDailyLogIfNeeded StoreOps "u1" "A" "2024-01-15" (start fresh) in
  fst run = Ok (Some (default_log fresh "A" "2024-01-15T00:00:00.000Z" "u1")).
Proof.
  intros run.
  apply (@createDailyLogIfNeeded_returns_created StoreOps "u1" "A" "2024-01-15"
           (start fresh) (trace (snd run))
           (default_log fresh "A" "2024-01-15T00:00:00.000Z" "u1")).
  - reflexivity.
  - apply (Exists_at _ _ 3
             (EvCreate daily_logs (logData "A" "2024-01-15T00:00:00.000Z" "u1")
                (inr (default_log fresh "A" "2024-01-15T00:00:00.000Z" "u1")))).
    + vm_compute. reflexivity.
    + reflexivity.
Defined.

(** ** Tasks the snapshot shows are never created *)

Section AfterSnapshot.
Context `{B : Backend}.

Lemma ensureDailyLogsExist_after_snapshot userId (l : list Task.t) date next (st : St)
      items w :
  let nd := normalizeDate date in
  authenticated (world st) = true ->
  l <> [] -> nd <> EmptyString ->
  date_next_day nd = Some next ->
  pb_getList daily_logs 1 500 (snapshot_filter userId nd next) (Some "-date")
             (world st) = (inr items, w) ->
  ensureDailyLogsExist userId l date st =
  reconcile_tasks userId nd
    (tasksNeedingLogs (existingTaskIds nd (List.filter (same_day nd) items)) l)
    (mkSt w (trace st ++ [EvGetList daily_logs 1 500 (snapshot_filter userId nd next)
                                    (Some "-date") (inr items)])).
Proof.
  intros nd Ha Hl Hnd Hnext Hget.
  unfold ensureDailyLogsExist. rewrite guarded_ok by exact Ha.
  destruct l as [| task0 l0] eqn:El; [congruence |]. rewrite <- El in *. fold nd.
  assert (Hg : given (Some nd) = true).
  { cbn. destruct nd; [congruence | reflexivity]. }
  assert (Hsnap : getDailyLogs userId None (Some nd) st =
                  (Ok (List.filter (same_day nd) items),
                   mkSt w (trace st ++ [EvGetList daily_logs 1 500
                                          (snapshot_filter userId nd next)
                                          (Some "-date") (inr items)]))).
  { unfold getDailyLogs. rewrite guarded_ok by exact Ha. rewrite Hg.
    unfold nd at 1 2 3. rewrite normalizeDate_idem. fold nd. rewrite Hnext.
    unfold bind, ret, catching, getList. cbn [app].
    unfold snapshot_filter in Hget. rewrite Hget. reflexivity. }
  unfold bind at 1. unfold catching. rewrite Hsnap.
  unfold bind at 1. unfold ret at 1. reflexivity.
Qed.

Lemma needing_is_unseen nd (items : list DailyLog.t) (l : list Task.t) task :
  In task (tasksNeedingLogs (existingTaskIds nd (List.filter (same_day nd) items)) l) ->
  In task l /\ ~ seen_in nd items (Task.id task).
Proof.
  unfold tasksNeedingLogs. intros [Hin Hneed]%filter_In. split; [exact Hin |].
  intros (x & Hx & Hd & Ht).
  apply negb_true_iff, bool_decide_eq_false in Hneed. apply Hneed.
  unfold existingTaskIds. apply elem_of_list_to_set, list_elem_of_In.
  rewrite <- Ht. apply in_map. apply filter_In. split; [| exact Hd].
  apply filter_In. auto.
Qed.

End AfterSnapshot.

(** X25 (no create for a task the snapshot shows): signed in, whatever the
    store answers afterwards, once the snapshot query of
    [ensureDailyLogsExist] is answered, every create the call sends is for
    a task of the list for which the snapshot showed no log of the day; a
    task the snapshot shows is never created again. *)
Theorem ensureDailyLogsExist_skips_seen `{B : Backend} (userId : string)
        (l : list Task.t) (date nextDateStr : string) (st : St)
        (items : list DailyLog.t) (w : World) :
  let nd := normalizeDate date in
  let snapshot := EvGetList daily_logs 1 500 (snapshot_filter userId nd nextDateStr)
                            (Some "-date") in
  authenticated (world st) = true ->
  l <> [] ->
  nd <> EmptyString ->
  date_next_day nd = Some nextDateStr ->
  pb_getList daily_logs 1 500 (snapshot_filter userId nd nextDateStr) (Some "-date")
             (world st) = (inr items, w) ->
  exists evs,
    trace (snd (ensureDailyLogsExist userId l date st)) =
    trace st ++ snapshot (inr items) :: evs /\
    forall ev, In ev evs -> is_create ev = true ->
      exists task iso resp,
        In task l /\ ~ seen_in nd items (Task.id task) /\
        ev = EvCreate daily_logs (logData (Task.id task) iso userId) resp.
Proof.
  intros nd snapshot Ha Hl Hnd Hnext Hget.
  rewrite (ensureDailyLogsExist_after_snapshot userId l date nextDateStr st items w
             Ha Hl Hnd Hnext Hget).
  fold nd. set (need := tasksNeedingLogs _ l).
  destruct (reconcile_tasks_costs userId nd need need (fun _ H => H)
              (mkSt w (trace st ++ [snapshot (inr items)])))
    as (evs & E & _ & _ & _ & Hall).
  exists evs. split.
  - etransitivity; [exact E |]. cbn [trace]. now rewrite <- app_assoc.
  - intros ev Hin Hc. rewrite List.Forall_forall in Hall.
    destruct (Hall ev Hin) as (task & Htask & _ & _ & Hev).
    destruct (Hev Hc) as (iso & resp & _ & ->).
    destruct (needing_is_unseen nd items l task (Htask Hc)) as [Hl' Hunseen].
    exists task, iso, resp. auto.
Qed.

Lemma ensureDailyLogsExist_skips_seen_witness :
  exists evs,
    trace (snd (@ensureDailyLogsExist StoreOps "u1" [task_of "A"; task_of "B"]
                  "2024-01-15" (start settled_store))) =
    trace (start settled_store) ++
    EvGetList daily_logs 1 500 (snapshot_filter "u1" "2024-01-15" "2024-01-16")
              (Some "-date") (inr [clean_log]) :: evs /\
    length (List.filter is_create evs) = 1.
Proof.
  destruct (@ensureDailyLogsExist_skips_seen StoreOps "u1" [task_of "A"; task_of "B"]
              "2024-01-15" "2024-01-16" (start settled_store) [clean_log] settled_store)
    as (evs & E & _).
  - reflexivity.
  - discriminate.
  - discriminate.
  - reflexivity.
  - vm_compute. reflexivity.
  - exists evs. split; [exact E |].
    vm_compute in E. injection E as <-. reflexivity.
Defined.

(** ** What the prober throws is never taken for a cancellation *)

Lemma prefix_before_absent pat : forall b d c,
  absent d pat = true ->
  String.prefix pat (b +:+ String d c) = String.prefix pat b.
Proof.
  induction pat as [| p pat IH]; intros b d c Hd; [now destruct b |].
  unfold absent in Hd. cbn [list_ascii_of_string existsb] in Hd.
  apply negb_true_iff, orb_false_elim in Hd as [Hp Hd].
  destruct b as [| x b].
  - rewrite append_nil. cbn [String.prefix].
    destruct (ascii_dec p d) as [-> | _]; [| reflexivity].
    now rewrite Ascii.eqb_refl in Hp.
  - rewrite append_cons. cbn [String.prefix].
    destruct (ascii_dec p x); [| reflexivity].
    apply IH. unfold absent. now rewrite Hd.
Qed.

Lemma includes_before_absent pat b d c :
  absent d pat = true -> pat <> EmptyString ->
  includes pat (b +:+ String d c) = includes pat b || includes pat (String d c).
Proof.
  intros Hd Hpat. induction b as [| x b IH].
  - rewrite append_nil. destruct pat; [congruence | reflexivity].
  - rewrite append_cons. cbn [includes].
    rewrite <- append_cons, (prefix_before_absent pat (String x b) d c Hd).
    rewrite IH. now rewrite orb_assoc.
Qed.

Lemma is_cancelled_mkError msg : is_cancelled (mkError msg) = includes "autocancelled" msg.
Proof. reflexivity. Qed.

Lemma fetch_failure_not_cancelled `{B : Backend} what error :
  what = "Failed to fetch daily log: " \/ what = "Failed to fetch daily logs: " ->
  has_message error -> is_cancelled error = false ->
  is_cancelled (fetch_failure what error) = false.
Proof.
  intros Hwhat (m & Hm & Hne) Hc. unfold fetch_failure.
  assert (Hshown : template (js_or (get error "message") error) = m).
  { unfold js_or. rewrite Hm. cbn [truthy].
    destruct (String.eqb m EmptyString) eqn:E; [apply String.eqb_eq in E; congruence |].
    reflexivity. }
  rewrite Hshown. unfold is_cancelled in Hc. rewrite Hm in Hc. cbn [opt_includes] in Hc.
  destruct (num_is (get error "status") 400);
    [| destruct (num_is (get error "status") 403); [reflexivity |]];
    rewrite is_cancelled_mkError.
  - change (includes "autocancelled" ("Invalid filter syntax: " +:+ ?x))
      with (includes "autocancelled" x).
    change ". Please check that the fields exist in the daily_logs collection."
      with (String "." " Please check that the fields exist in the daily_logs collection.").
    rewrite includes_before_absent by (reflexivity || discriminate).
    rewrite Hc. reflexivity.
  - destruct Hwhat as [-> | ->].
    + change (includes "autocancelled" ("Failed to fetch daily log: " +:+ m))
        with (includes "autocancelled" m). exact Hc.
    + change (includes "autocancelled" ("Failed to fetch daily logs: " +:+ m))
        with (includes "autocancelled" m). exact Hc.
Qed.

Section ProbeThrows.
Context `{B : Backend}.

(** What the prober threw, with the events it had added. *)
Lemma probe_loop_throws f nd : forall n attempt,
  wp (getDailyLogByTaskAndDate_loop n attempt f nd)
     (fun r evs =>
        forall e, r = Throw e ->
                  exists error,
                    Exists (query_rejected error) evs /\
                    ((cancelled_and error = Answers false /\
                      e = fetch_failure "Failed to fetch daily log: " error) \/
                     exists why, cancelled_and error = Raises why /\ e = typeError why)).
Proof.
  induction n as [| n IH]; intros attempt; cbn [getDailyLogByTaskAndDate_loop].
  - wp_step. discriminate.
  - wp_step. wp_step. wp_step.
    + destruct (cancelled_and error) as [[|] | why] eqn:Ec;
        [destruct (attempt <? 2)%nat | |].
      * wp_step. wp_step. eapply wp_mono; [apply IH |].
        intros r evs H e Hr. destruct (H e Hr) as (err & Hex & Hrest).
        exists err. split; [| exact Hrest].
        apply Exists_cons_tl. apply Exists_cons_tl. exact Hex.
      * wp_step. discriminate.
      * wp_step. intros e [= <-]. exists error. split; [| auto].
        constructor. reflexivity.
      * wp_step. intros e [= <-]. exists error. split; [| eauto].
        constructor. reflexivity.
    + wp_step. discriminate.
Qed.

Lemma probe_throws userId taskId date :
  wp (getDailyLogByTaskAndDate userId taskId date)
     (fun r evs =>
        forall e, r = Throw e ->
                  e = authError \/ e = rangeError \/
                  exists error,
                    Exists (query_rejected error) evs /\
                    ((cancelled_and error = Answers false /\
                      e = fetch_failure "Failed to fetch daily log: " error) \/
                     exists why, cancelled_and error = Raises why /\ e = typeError why)).
Proof.
  unfold getDailyLogByTaskAndDate. wp_step.
  apply wp_ensureAuthenticated; [| intros e [= <-]; now left].
  destruct (date_next_day (normalizeDate date)).
  - eapply wp_mono; [apply probe_loop_throws |].
    intros r evs H e Hr. right. right. rewrite app_nil_l. now apply H.
  - wp_step. intros e [= <-]. right. now left.
Qed.

End ProbeThrows.

(** X26 (a failed probe is never mistaken for a cancellation): when every
    rejection of the store carries a message, an error thrown by
    [getDailyLogByTaskAndDate] never has "autocancelled" in its message:
    the prober handles cancellations itself, and what it throws for another
    rejection is worded from that rejection.  So the tests for a cancelled
    probe in the catch blocks of its callers (lines 282, 360 and 407) fail
    for every error the prober throws. *)
Theorem probe_failure_is_no_cancellation `{B : Backend} (userId taskId date : string)
        (st : St) (e : JsVal) (evs : list Event) :
  let run := getDailyLogByTaskAndDate userId taskId date st in
  trace (snd run) = trace st ++ evs ->
  fst run = Throw e ->
  (forall error, Exists (query_rejected error) evs -> has_message error) ->
  is_cancelled e = false.
Proof.
  intros run Htr Hr Hmsg.
  destruct (outcome_of_wp _ _ st evs (probe_throws userId taskId date) Htr e Hr)
    as [-> | [-> | (error & Hex & [[Hc ->] | (why & Hc & _)])]].
  - reflexivity.
  - reflexivity.
  - apply fetch_failure_not_cancelled; [now left | now apply Hmsg |].
    now apply cancelled_and_answer.
  - rewrite (cancelled_and_has_message error (Hmsg error Hex)) in Hc. discriminate.
Qed.

Lemma probe_failure_is_no_cancellation_witness :
  let run := @getDailyLogByTaskAndDate StoreOps "u1" "A" "2024-01-15"
               (start (with_faults [Some cancelled; Some forbidden] fresh)) in
  exists e, fst run = Throw e /\ is_cancelled e = false.
Proof.
  intros run. exists accessDenied. split; [vm_compute; reflexivity |].
  apply (@probe_failure_is_no_cancellation StoreOps "u1" "A" "2024-01-15"
           (start (with_faults [Some cancelled; Some forbidden] fresh))
           accessDenied (trace (snd run))).
  - reflexivity.
  - vm_compute. reflexivity.
  - intros error Hex. vm_compute in Hex.
    apply Exists_cons in Hex as [<- | Hex]; [eexists; split; [reflexivity | discriminate] |].
    apply Exists_cons in Hex as [[] | Hex].
    apply Exists_cons in Hex as [<- | Hex]; [eexists; split; [reflexivity | discriminate] |].
    now apply Exists_nil in Hex.
Defined.
